(** * go_template: the user module, its entity model and its cache-aside service

A shallow embedding of the Go sources
  internal/models/{base,user,dto}.go, internal/shared/utils/password.go,
  internal/repositories/user_repository.go, internal/database/redis.go and
  internal/modules/users/service.go
followed by the properties of the specification that are checked
against it.

Conventions.
- A Go [string] is a sequence of bytes: Rocq's [string] (a list of
  [ascii]); [len] is [String.length].
- A Go [int] is a 64-bit signed integer: a [Z] with the wrap-around
  written out where the source computes with it.
- A Go [error] is a value of the inductive type [error]; [nil] is the
  absence of an error ([Ok] in a [result]).
- The document store, the cache, the clock and the random source form
  the [World] that every service operation threads through. *)

From Stdlib Require Import ZArith List String Ascii Bool Lia DecimalString.
From stdpp Require Import gmap strings list.

Import ListNotations.
Local Open Scope string_scope.

(* ===================================================================== *)
(** ** Results and errors                                                 *)
(* ===================================================================== *)

(** The two external backends whose clients can hand back an error. *)
Inductive Backend := Mongo | Redis.

(** Go error values.  [errors_New m] is [errors.New(m)] (and [fmt.Errorf]
    without [%w]); [Wrapf m e] is [fmt.Errorf(m + ": %w", e)];
    [DriverError b m] is an error produced by the client library of
    backend [b]. *)
Inductive error :=
| errors_New (msg : string)
| Wrapf (msg : string) (cause : error)
| DriverError (src : Backend) (msg : string).

Inductive result (A : Type) :=
| Ok (a : A)
| Err (e : error).
Arguments Ok {A} a.
Arguments Err {A} e.

(** [errors.Unwrap] iterated: the innermost cause. *)
Fixpoint root (e : error) : error :=
  match e with
  | Wrapf _ c => root c
  | _ => e
  end.

(** [err.Error()]. *)
Fixpoint Error (e : error) : string :=
  match e with
  | errors_New m => m
  | Wrapf m c => m ++ ": " ++ Error c
  | DriverError _ m => m
  end.

Definition is_ok {A} (r : result A) : bool :=
  match r with Ok _ => true | Err _ => false end.

(** The error of a result, if any. *)
Definition failure {A} (r : result A) : option error :=
  match r with Ok _ => None | Err e => Some e end.

(* ===================================================================== *)
(** ** Bytes, character classes, package [strings]                        *)
(* ===================================================================== *)

Module strings.

Definition byte_in (lo hi c : ascii) : bool :=
  ((lo <=? c) && (c <=? hi))%char.

Definition isUpper (c : ascii) : bool := byte_in "A" "Z" c.
Definition isLower (c : ascii) : bool := byte_in "a" "z" c.
Definition isDigit (c : ascii) : bool := byte_in "0" "9" c.
Definition isLetter (c : ascii) : bool := isUpper c || isLower c.

(** [c < utf8.RuneSelf] *)
Definition isASCII (c : ascii) : bool := (N_of_ascii c <? 128)%N.

Fixpoint forallb (p : ascii -> bool) (s : string) : bool :=
  match s with
  | EmptyString => true
  | String c r => p c && forallb p r
  end.

Fixpoint map (f : ascii -> ascii) (s : string) : string :=
  match s with
  | EmptyString => EmptyString
  | String c r => String (f c) (map f r)
  end.

Fixpoint rev_append (s acc : string) : string :=
  match s with
  | EmptyString => acc
  | String c r => rev_append r (String c acc)
  end.

Definition rev (s : string) : string := rev_append s EmptyString.

(** The [asciiSpace] table of package strings: tab, LF, VT, FF, CR, space. *)
Definition asciiSpace (c : ascii) : bool :=
  let n := N_of_ascii c in
  ((9 <=? n) && (n <=? 13) || (n =? 32))%N.

Definition byteIs (n : N) (c : ascii) : bool := (N_of_ascii c =? n)%N.

(** [unicode.IsSpace] on the two- and three-byte UTF-8 sequences:
    U+0085, U+00A0, U+1680, U+2000..U+200A, U+2028, U+2029, U+202F,
    U+205F, U+3000. *)
Definition space2 (a b : ascii) : bool :=
  byteIs 194 a && (byteIs 133 b || byteIs 160 b).

Definition space3 (a b c : ascii) : bool :=
  (byteIs 225 a && byteIs 154 b && byteIs 128 c)
  || (byteIs 226 a && byteIs 128 b &&
      (((128 <=? N_of_ascii c) && (N_of_ascii c <=? 138))%N
       || byteIs 168 c || byteIs 169 c || byteIs 175 c))
  || (byteIs 226 a && byteIs 129 b && byteIs 159 c)
  || (byteIs 227 a && byteIs 128 b && byteIs 128 c).

(** The text after its first rune, when that rune is white space
    ([utf8.DecodeRuneInString] followed by [unicode.IsSpace]). *)
Definition dropLeadingSpace (s : string) : option string :=
  match s with
  | EmptyString => None
  | String a r =>
      if asciiSpace a then Some r else
      match r with
      | EmptyString => None
      | String b r2 =>
          if space2 a b then Some r2 else
          match r2 with
          | EmptyString => None
          | String c r3 => if space3 a b c then Some r3 else None
          end
      end
  end.

(** The same from the end of the text ([utf8.DecodeLastRuneInString]);
    the argument is the text reversed. *)
Definition dropTrailingSpace (s : string) : option string :=
  match s with
  | EmptyString => None
  | String c r =>
      if asciiSpace c then Some r else
      match r with
      | EmptyString => None
      | String b r2 =>
          if space2 b c then Some r2 else
          match r2 with
          | EmptyString => None
          | String a r3 => if space3 a b c then Some r3 else None
          end
      end
  end.

(** The loops of [TrimLeftFunc] / [TrimRightFunc]; every turn removes
    at least one byte, so [String.length s] turns are enough. *)
Fixpoint trimLoop (drop : string -> option string) (fuel : nat) (s : string)
  : string :=
  match fuel with
  | O => s
  | S fuel' =>
      match drop s with
      | Some r => trimLoop drop fuel' r
      | None => s
      end
  end.

Definition TrimLeftSpace (s : string) : string :=
  trimLoop dropLeadingSpace (String.length s) s.

Definition TrimRightSpace (s : string) : string :=
  rev (trimLoop dropTrailingSpace (String.length s) (rev s)).

(** [strings.TrimSpace]. *)
Definition TrimSpace (s : string) : string :=
  TrimRightSpace (TrimLeftSpace s).

Definition toLowerByte (c : ascii) : ascii :=
  if isUpper c then ascii_of_N (N_of_ascii c + 32) else c.

(** [strings.ToLower].  The standard library lowers a pure ASCII text
    byte by byte, which is this definition; on other texts it maps
    [unicode.ToLower] over the runes, and there this definition lowers
    the ASCII bytes only.  The sources reach [ToLower] only with texts
    that a validator has accepted, and these are pure ASCII (lemmas
    [ValidateUsername_ascii] and [ValidateEmail_ascii] below). *)
Definition ToLower (s : string) : string := map toLowerByte s.

(** [strings.HasPrefix]. *)
Fixpoint HasPrefix (s p : string) : bool :=
  match p, s with
  | EmptyString, _ => true
  | String a p', String b s' => Ascii.eqb a b && HasPrefix s' p'
  | String _ _, EmptyString => false
  end.

End strings.

(* ===================================================================== *)
(** ** Package [regexp], on the patterns the sources use                  *)
(* ===================================================================== *)

Module regexp.

Inductive re :=
| Void                          (* no text at all *)
| Eps                           (* the empty text *)
| Class (p : ascii -> bool)     (* one byte of a class *)
| Cat (r1 r2 : re)
| Alt (r1 r2 : re)
| Star (r : re).

Definition Plus (r : re) : re := Cat r (Star r).
Definition Opt (r : re) : re := Alt Eps r.
Definition Lit (c : ascii) : re := Class (Ascii.eqb c).

Fixpoint Str (s : string) : re :=
  match s with
  | EmptyString => Eps
  | String c r => Cat (Lit c) (Str r)
  end.

(** [(?s:.)]: any byte;  [.] : any byte but the line feed. *)
Definition AnyByte : re := Class (fun _ => true).
Definition Dot : re := Class (fun c => negb (Ascii.eqb c "010")).

Fixpoint nullable (r : re) : bool :=
  match r with
  | Void => false
  | Eps => true
  | Class _ => false
  | Cat r1 r2 => nullable r1 && nullable r2
  | Alt r1 r2 => nullable r1 || nullable r2
  | Star _ => true
  end.

(** Brzozowski derivative. *)
Fixpoint deriv (c : ascii) (r : re) : re :=
  match r with
  | Void => Void
  | Eps => Void
  | Class p => if p c then Eps else Void
  | Cat r1 r2 =>
      if nullable r1
      then Alt (Cat (deriv c r1) r2) (deriv c r2)
      else Cat (deriv c r1) r2
  | Alt r1 r2 => Alt (deriv c r1) (deriv c r2)
  | Star r1 => Cat (deriv c r1) (Star r1)
  end.

(** The whole text matches: a pattern written [^r$]. *)
Fixpoint fullMatch (r : re) (s : string) : bool :=
  match s with
  | EmptyString => nullable r
  | String c s' => fullMatch (deriv c r) s'
  end.

(** Some part of the text matches: a pattern without anchors. *)
Definition search (r : re) (s : string) : bool :=
  fullMatch (Cat (Star AnyByte) (Cat r (Star AnyByte))) s.

(** What it means for a text to match, independently of the matcher. *)
Inductive matches : re -> string -> Prop :=
| MEps : matches Eps EmptyString
| MClass p c : p c = true -> matches (Class p) (String c EmptyString)
| MCat r1 r2 s1 s2 :
    matches r1 s1 -> matches r2 s2 -> matches (Cat r1 r2) (s1 ++ s2)
| MAltL r1 r2 s : matches r1 s -> matches (Alt r1 r2) s
| MAltR r1 r2 s : matches r2 s -> matches (Alt r1 r2) s
| MStar0 r : matches (Star r) EmptyString
| MStarS r s1 s2 :
    matches r s1 -> matches (Star r) s2 -> matches (Star r) (s1 ++ s2).

End regexp.

(* ===================================================================== *)
(** ** Package [encoding/hex]                                             *)
(* ===================================================================== *)

Module hex.

Definition hextable : string := "0123456789abcdef".

Definition digit (n : N) : ascii :=
  match String.get (N.to_nat n) hextable with
  | Some c => c
  | None => "0"%char
  end.

(** [hex.EncodeToString]. *)
Fixpoint EncodeToString (src : string) : string :=
  match src with
  | EmptyString => EmptyString
  | String c r =>
      let n := N_of_ascii c in
      String (digit (n / 16)) (String (digit (n mod 16)) (EncodeToString r))
  end.

(** [fromHexChar]: both letter cases are accepted. *)
Definition fromHexChar (c : ascii) : option N :=
  let n := N_of_ascii c in
  if strings.isDigit c then Some (n - 48)%N
  else if strings.byte_in "a" "f" c then Some (n - 87)%N
  else if strings.byte_in "A" "F" c then Some (n - 55)%N
  else None.

(** [hex.DecodeString]: [None] on an odd length or a byte that is no
    hexadecimal digit. *)
Fixpoint DecodeString (s : string) : option string :=
  match s with
  | EmptyString => Some EmptyString
  | String a (String b r) =>
      match fromHexChar a, fromHexChar b, DecodeString r with
      | Some x, Some y, Some t => Some (String (ascii_of_N (x * 16 + y)) t)
      | _, _, _ => None
      end
  | String _ EmptyString => None
  end.

End hex.

(* ===================================================================== *)
(** ** Package [crypto/sha256]                                            *)
(* ===================================================================== *)

Module sha256.

Local Open Scope list_scope.
Local Open Scope Z_scope.

Definition w32 (x : Z) : Z := x mod 2^32.
Definition add32 (x y : Z) : Z := w32 (x + y).
Definition rotr (n x : Z) : Z :=
  w32 (Z.lor (Z.shiftr x n) (Z.shiftl x (32 - n))).
Definition shr (n x : Z) : Z := Z.shiftr x n.
Definition not32 (x : Z) : Z := Z.lxor x 0xffffffff.

Definition Ch (e f g : Z) : Z := Z.lxor (Z.land e f) (Z.land (not32 e) g).
Definition Maj (a b c : Z) : Z :=
  Z.lxor (Z.lxor (Z.land a b) (Z.land a c)) (Z.land b c).
Definition bsig0 (a : Z) : Z := Z.lxor (Z.lxor (rotr 2 a) (rotr 13 a)) (rotr 22 a).
Definition bsig1 (e : Z) : Z := Z.lxor (Z.lxor (rotr 6 e) (rotr 11 e)) (rotr 25 e).
Definition ssig0 (x : Z) : Z := Z.lxor (Z.lxor (rotr 7 x) (rotr 18 x)) (shr 3 x).
Definition ssig1 (x : Z) : Z := Z.lxor (Z.lxor (rotr 17 x) (rotr 19 x)) (shr 10 x).

(** The eight chaining words. *)
Record state := mkState { ha : Z; hb : Z; hc : Z; hd : Z;
                          he : Z; hf : Z; hg : Z; hh : Z }.

Definition init : state :=
  mkState 0x6a09e667 0xbb67ae85 0x3c6ef372 0xa54ff53a
          0x510e527f 0x9b05688c 0x1f83d9ab 0x5be0cd19.

Definition bytes_of (s : string) : list Z :=
  List.map (fun c => Z.of_N (N_of_ascii c)) (list_ascii_of_string s).

(** A 32-bit word from its eight hexadecimal digits. *)
Definition word (digits : string) : Z :=
  match hex.DecodeString digits with
  | Some bytes => fold_left (fun acc b => acc * 256 + b) (bytes_of bytes) 0
  | None => 0
  end.

(** The round constants, in the order of the table [_K] of the package. *)
Definition K : list Z :=
  List.map word
  [
    "428a2f98"; "71374491"; "b5c0fbcf"; "e9b5dba5";
    "3956c25b"; "59f111f1"; "923f82a4"; "ab1c5ed5";
    "d807aa98"; "12835b01"; "243185be"; "550c7dc3";
    "72be5d74"; "80deb1fe"; "9bdc06a7"; "c19bf174";
    "e49b69c1"; "efbe4786"; "0fc19dc6"; "240ca1cc";
    "2de92c6f"; "4a7484aa"; "5cb0a9dc"; "76f988da";
    "983e5152"; "a831c66d"; "b00327c8"; "bf597fc7";
    "c6e00bf3"; "d5a79147"; "06ca6351"; "14292967";
    "27b70a85"; "2e1b2138"; "4d2c6dfc"; "53380d13";
    "650a7354"; "766a0abb"; "81c2c92e"; "92722c85";
    "a2bfe8a1"; "a81a664b"; "c24b8b70"; "c76c51a3";
    "d192e819"; "d6990624"; "f40e3585"; "106aa070";
    "19a4c116"; "1e376c08"; "2748774c"; "34b0bcb5";
    "391c0cb3"; "4ed8aa4a"; "5b9cca4f"; "682e6ff3";
    "748f82ee"; "78a5636f"; "84c87814"; "8cc70208";
    "90befffa"; "a4506ceb"; "bef9a3f7"; "c67178f2" ].

(** Big-endian bytes of a number, [n] of them. *)
Fixpoint be_bytes (n : nat) (x : Z) : list Z :=
  match n with
  | O => []
  | S n' => ((x / 256 ^ Z.of_nat n') mod 256) :: be_bytes n' x
  end.

(** The message, the byte 0x80, zeros up to 56 modulo 64, and the
    length in bits on eight bytes. *)
Definition pad (msg : list Z) : list Z :=
  let len := Z.of_nat (List.length msg) in
  let zeros := Z.to_nat ((55 - len) mod 64) in
  msg ++ [0x80] ++ List.repeat 0 zeros ++ be_bytes 8 (8 * len).

Fixpoint words (n : nat) (bs : list Z) : list Z :=
  match n with
  | O => []
  | S n' =>
      match bs with
      | b0 :: b1 :: b2 :: b3 :: r =>
          (b0 * 2^24 + b1 * 2^16 + b2 * 2^8 + b3) :: words n' r
      | _ => []
      end
  end.

Fixpoint blocks (n : nat) (bs : list Z) : list (list Z) :=
  match n with
  | O => []
  | S n' =>
      match bs with
      | [] => []
      | _ => words 16 (firstn 64 bs) :: blocks n' (skipn 64 bs)
      end
  end.

(** Message schedule: [win] holds the last sixteen words, oldest first. *)
Fixpoint schedule (n : nat) (win : list Z) : list Z :=
  match n with
  | O => []
  | S n' =>
      let w := add32 (add32 (ssig1 (nth 14 win 0)) (nth 9 win 0))
                     (add32 (ssig0 (nth 1 win 0)) (nth 0 win 0)) in
      w :: schedule n' (tl win ++ [w])
  end.

Definition round (s : state) (kw : Z * Z) : state :=
  let '(k, w) := kw in
  let t1 := add32 (add32 (add32 (hh s) (bsig1 (he s)))
                         (add32 (Ch (he s) (hf s) (hg s)) k)) w in
  let t2 := add32 (bsig0 (ha s)) (Maj (ha s) (hb s) (hc s)) in
  mkState (add32 t1 t2) (ha s) (hb s) (hc s)
          (add32 (hd s) t1) (he s) (hf s) (hg s).

Definition compress (h : state) (block : list Z) : state :=
  let w := block ++ schedule 48 block in
  let s := fold_left round (combine K w) h in
  mkState (add32 (ha h) (ha s)) (add32 (hb h) (hb s))
          (add32 (hc h) (hc s)) (add32 (hd h) (hd s))
          (add32 (he h) (he s)) (add32 (hf h) (hf s))
          (add32 (hg h) (hg s)) (add32 (hh h) (hh s)).

Definition digest_state (msg : string) : state :=
  let p := pad (bytes_of msg) in
  fold_left compress (blocks (List.length p) p) init.

Definition state_words (s : state) : list Z :=
  [ha s; hb s; hc s; hd s; he s; hf s; hg s; hh s].

Definition string_of (bs : list Z) : string :=
  string_of_list_ascii (List.map (fun b => ascii_of_N (Z.to_N b)) bs).

(** [sha256.Sum256]: the 32 bytes of the digest. *)
Definition Sum256 (msg : string) : string :=
  string_of (flat_map (be_bytes 4) (state_words (digest_state msg))).

End sha256.

(* ===================================================================== *)
(** ** JSON documents                                                     *)
(* ===================================================================== *)

(** [time.Time], in nanoseconds since the epoch, UTC. *)
Definition Time := Z.

Module json.

(** The document a JSON text denotes.  A timestamp is the JSON string
    that [time.Time.MarshalJSON] writes (RFC 3339); it is kept as its own
    leaf, since only [time.Time.UnmarshalJSON] reads such a string back.
    The type also stands for the Go values of a [map[string]interface{}];
    there [Unsupported] is a value that [json.Marshal] refuses (a
    [float64] that is NaN or infinite, as a BSON double can be); no JSON
    text denotes it. *)
#[warnings="-register-all"] Inductive value :=
| Null
| Bool (b : bool)
| Number (z : Z)
| Fraction (num den : Z)       (* a number that is not an integer *)
| String (s : string)
| Timestamp (t : Time)
| Array (l : list value)
| Object (fields : list (string * value))
| Unsupported.                 (* a Go value that has no JSON form *)

End json.

(* ===================================================================== *)
(** ** Package [models]: internal/models/{base,user,dto}.go               *)
(* ===================================================================== *)

Module models.

Import strings regexp.
Local Open Scope Z_scope.

(** [primitive.ObjectID]: twelve bytes. *)
Definition ObjectID := string.

Definition NilObjectID : ObjectID :=
  string_of_list_ascii (List.repeat "000"%char 12).

(** [ObjectID.Hex]. *)
Definition Hex (id : ObjectID) : string := hex.EncodeToString id.

(** [primitive.ObjectIDFromHex]. *)
Definition ObjectIDFromHex (s : string) : result ObjectID :=
  if negb (String.length s =? 24)%nat
  then Err (errors_New "the provided hex string is not a valid ObjectID")
  else match hex.DecodeString s with
       | Some id => Ok id
       | None => Err (errors_New "encoding/hex: invalid byte")
       end.

(** *** base.go *)

Record BaseModel := mkBase {
  base_ID : ObjectID;
  base_CreatedAt : Time;
  base_UpdatedAt : Time;
  base_DeletedAt : option Time
}.

Definition setb_ID (x : ObjectID) (b : BaseModel) : BaseModel :=
  mkBase x (base_CreatedAt b) (base_UpdatedAt b) (base_DeletedAt b).
Definition setb_CreatedAt (x : Time) (b : BaseModel) : BaseModel :=
  mkBase (base_ID b) x (base_UpdatedAt b) (base_DeletedAt b).
Definition setb_UpdatedAt (x : Time) (b : BaseModel) : BaseModel :=
  mkBase (base_ID b) (base_CreatedAt b) x (base_DeletedAt b).
Definition setb_DeletedAt (x : option Time) (b : BaseModel) : BaseModel :=
  mkBase (base_ID b) (base_CreatedAt b) (base_UpdatedAt b) x.

(** [NewBaseModel]; [now] is [time.Now().UTC()] and [oid] the value of
    [primitive.NewObjectID()]. *)
Definition NewBaseModel (now : Time) (oid : ObjectID) : BaseModel :=
  mkBase oid now now None.

(** *** user.go *)

Record User := mkUser {
  Base : BaseModel;
  Username : string;
  Email : string;
  FirstName : string;
  LastName : string;
  Password : string;
  Salt : string;
  Avatar : string;
  Bio : string;
  Location : string;
  Website : string;
  DateOfBirth : option Time;
  IsActive : bool;
  IsVerified : bool;
  Roles : list string;
  LastLoginAt : option Time;
  EmailVerifiedAt : option Time;
  LoginCount : Z;
  FailedLogins : Z;
  LastFailedAt : option Time;
  Preferences : json.value
}.

Definition set_Base (x : BaseModel) (u : User) : User :=
  mkUser x (Username u) (Email u) (FirstName u) (LastName u) (Password u) (Salt u) (Avatar u) (Bio u) (Location u) (Website u) (DateOfBirth u) (IsActive u) (IsVerified u) (Roles u) (LastLoginAt u) (EmailVerifiedAt u) (LoginCount u) (FailedLogins u) (LastFailedAt u) (Preferences u).
Definition set_Username (x : string) (u : User) : User :=
  mkUser (Base u) x (Email u) (FirstName u) (LastName u) (Password u) (Salt u) (Avatar u) (Bio u) (Location u) (Website u) (DateOfBirth u) (IsActive u) (IsVerified u) (Roles u) (LastLoginAt u) (EmailVerifiedAt u) (LoginCount u) (FailedLogins u) (LastFailedAt u) (Preferences u).
Definition set_Email (x : string) (u : User) : User :=
  mkUser (Base u) (Username u) x (FirstName u) (LastName u) (Password u) (Salt u) (Avatar u) (Bio u) (Location u) (Website u) (DateOfBirth u) (IsActive u) (IsVerified u) (Roles u) (LastLoginAt u) (EmailVerifiedAt u) (LoginCount u) (FailedLogins u) (LastFailedAt u) (Preferences u).
Definition set_FirstName (x : string) (u : User) : User :=
  mkUser (Base u) (Username u) (Email u) x (LastName u) (Password u) (Salt u) (Avatar u) (Bio u) (Location u) (Website u) (DateOfBirth u) (IsActive u) (IsVerified u) (Roles u) (LastLoginAt u) (EmailVerifiedAt u) (LoginCount u) (FailedLogins u) (LastFailedAt u) (Preferences u).
Definition set_LastName (x : string) (u : User) : User :=
  mkUser (Base u) (Username u) (Email u) (FirstName u) x (Password u) (Salt u) (Avatar u) (Bio u) (Location u) (Website u) (DateOfBirth u) (IsActive u) (IsVerified u) (Roles u) (LastLoginAt u) (EmailVerifiedAt u) (LoginCount u) (FailedLogins u) (LastFailedAt u) (Preferences u).
Definition set_Password (x : string) (u : User) : User :=
  mkUser (Base u) (Username u) (Email u) (FirstName u) (LastName u) x (Salt u) (Avatar u) (Bio u) (Location u) (Website u) (DateOfBirth u) (IsActive u) (IsVerified u) (Roles u) (LastLoginAt u) (EmailVerifiedAt u) (LoginCount u) (FailedLogins u) (LastFailedAt u) (Preferences u).
Definition set_Salt (x : string) (u : User) : User :=
  mkUser (Base u) (Username u) (Email u) (FirstName u) (LastName u) (Password u) x (Avatar u) (Bio u) (Location u) (Website u) (DateOfBirth u) (IsActive u) (IsVerified u) (Roles u) (LastLoginAt u) (EmailVerifiedAt u) (LoginCount u) (FailedLogins u) (LastFailedAt u) (Preferences u).
Definition set_Avatar (x : string) (u : User) : User :=
  mkUser (Base u) (Username u) (Email u) (FirstName u) (LastName u) (Password u) (Salt u) x (Bio u) (Location u) (Website u) (DateOfBirth u) (IsActive u) (IsVerified u) (Roles u) (LastLoginAt u) (EmailVerifiedAt u) (LoginCount u) (FailedLogins u) (LastFailedAt u) (Preferences u).
Definition set_Bio (x : string) (u : User) : User :=
  mkUser (Base u) (Username u) (Email u) (FirstName u) (LastName u) (Password u) (Salt u) (Avatar u) x (Location u) (Website u) (DateOfBirth u) (IsActive u) (IsVerified u) (Roles u) (LastLoginAt u) (EmailVerifiedAt u) (LoginCount u) (FailedLogins u) (LastFailedAt u) (Preferences u).
Definition set_Location (x : string) (u : User) : User :=
  mkUser (Base u) (Username u) (Email u) (FirstName u) (LastName u) (Password u) (Salt u) (Avatar u) (Bio u) x (Website u) (DateOfBirth u) (IsActive u) (IsVerified u) (Roles u) (LastLoginAt u) (EmailVerifiedAt u) (LoginCount u) (FailedLogins u) (LastFailedAt u) (Preferences u).
Definition set_Website (x : string) (u : User) : User :=
  mkUser (Base u) (Username u) (Email u) (FirstName u) (LastName u) (Password u) (Salt u) (Avatar u) (Bio u) (Location u) x (DateOfBirth u) (IsActive u) (IsVerified u) (Roles u) (LastLoginAt u) (EmailVerifiedAt u) (LoginCount u) (FailedLogins u) (LastFailedAt u) (Preferences u).
Definition set_DateOfBirth (x : option Time) (u : User) : User :=
  mkUser (Base u) (Username u) (Email u) (FirstName u) (LastName u) (Password u) (Salt u) (Avatar u) (Bio u) (Location u) (Website u) x (IsActive u) (IsVerified u) (Roles u) (LastLoginAt u) (EmailVerifiedAt u) (LoginCount u) (FailedLogins u) (LastFailedAt u) (Preferences u).
Definition set_IsActive (x : bool) (u : User) : User :=
  mkUser (Base u) (Username u) (Email u) (FirstName u) (LastName u) (Password u) (Salt u) (Avatar u) (Bio u) (Location u) (Website u) (DateOfBirth u) x (IsVerified u) (Roles u) (LastLoginAt u) (EmailVerifiedAt u) (LoginCount u) (FailedLogins u) (LastFailedAt u) (Preferences u).
Definition set_IsVerified (x : bool) (u : User) : User :=
  mkUser (Base u) (Username u) (Email u) (FirstName u) (LastName u) (Password u) (Salt u) (Avatar u) (Bio u) (Location u) (Website u) (DateOfBirth u) (IsActive u) x (Roles u) (LastLoginAt u) (EmailVerifiedAt u) (LoginCount u) (FailedLogins u) (LastFailedAt u) (Preferences u).
Definition set_Roles (x : list string) (u : User) : User :=
  mkUser (Base u) (Username u) (Email u) (FirstName u) (LastName u) (Password u) (Salt u) (Avatar u) (Bio u) (Location u) (Website u) (DateOfBirth u) (IsActive u) (IsVerified u) x (LastLoginAt u) (EmailVerifiedAt u) (LoginCount u) (FailedLogins u) (LastFailedAt u) (Preferences u).
Definition set_LastLoginAt (x : option Time) (u : User) : User :=
  mkUser (Base u) (Username u) (Email u) (FirstName u) (LastName u) (Password u) (Salt u) (Avatar u) (Bio u) (Location u) (Website u) (DateOfBirth u) (IsActive u) (IsVerified u) (Roles u) x (EmailVerifiedAt u) (LoginCount u) (FailedLogins u) (LastFailedAt u) (Preferences u).
Definition set_EmailVerifiedAt (x : option Time) (u : User) : User :=
  mkUser (Base u) (Username u) (Email u) (FirstName u) (LastName u) (Password u) (Salt u) (Avatar u) (Bio u) (Location u) (Website u) (DateOfBirth u) (IsActive u) (IsVerified u) (Roles u) (LastLoginAt u) x (LoginCount u) (FailedLogins u) (LastFailedAt u) (Preferences u).
Definition set_LoginCount (x : Z) (u : User) : User :=
  mkUser (Base u) (Username u) (Email u) (FirstName u) (LastName u) (Password u) (Salt u) (Avatar u) (Bio u) (Location u) (Website u) (DateOfBirth u) (IsActive u) (IsVerified u) (Roles u) (LastLoginAt u) (EmailVerifiedAt u) x (FailedLogins u) (LastFailedAt u) (Preferences u).
Definition set_FailedLogins (x : Z) (u : User) : User :=
  mkUser (Base u) (Username u) (Email u) (FirstName u) (LastName u) (Password u) (Salt u) (Avatar u) (Bio u) (Location u) (Website u) (DateOfBirth u) (IsActive u) (IsVerified u) (Roles u) (LastLoginAt u) (EmailVerifiedAt u) (LoginCount u) x (LastFailedAt u) (Preferences u).
Definition set_LastFailedAt (x : option Time) (u : User) : User :=
  mkUser (Base u) (Username u) (Email u) (FirstName u) (LastName u) (Password u) (Salt u) (Avatar u) (Bio u) (Location u) (Website u) (DateOfBirth u) (IsActive u) (IsVerified u) (Roles u) (LastLoginAt u) (EmailVerifiedAt u) (LoginCount u) (FailedLogins u) x (Preferences u).
Definition set_Preferences (x : json.value) (u : User) : User :=
  mkUser (Base u) (Username u) (Email u) (FirstName u) (LastName u) (Password u) (Salt u) (Avatar u) (Bio u) (Location u) (Website u) (DateOfBirth u) (IsActive u) (IsVerified u) (Roles u) (LastLoginAt u) (EmailVerifiedAt u) (LoginCount u) (FailedLogins u) (LastFailedAt u) x.

(** The fields of the embedded [BaseModel], promoted as in Go. *)
Definition ID (u : User) : ObjectID := base_ID (Base u).
Definition CreatedAt (u : User) : Time := base_CreatedAt (Base u).
Definition UpdatedAt (u : User) : Time := base_UpdatedAt (Base u).
Definition DeletedAt (u : User) : option Time := base_DeletedAt (Base u).

(** [BaseModel.UpdateTimestamp]. *)
Definition UpdateTimestamp (now : Time) (u : User) : User :=
  set_Base (setb_UpdatedAt now (Base u)) u.

(** [BaseModel.GetIDString]. *)
Definition GetIDString (u : User) : string := Hex (ID u).

(** The zero value [User{}]. *)
Definition zeroUser : User :=
  mkUser (mkBase NilObjectID 0 0 None) "" "" "" "" "" "" "" "" "" "" None
         false false [] None None 0 0 None json.Null.

Definition RoleUser : string := "user".
Definition RoleAdmin : string := "admin".
Definition RoleMod : string := "moderator".

(** *** Validation functions *)

Definition wordByte (c : ascii) : bool :=
  isLetter c || isDigit c || Ascii.eqb c "_".

(** The class "[a-zA-Z0-9._%+-]". *)
Definition localByte (c : ascii) : bool :=
  isLetter c || isDigit c || Ascii.eqb c "." || Ascii.eqb c "_"
  || Ascii.eqb c "%" || Ascii.eqb c "+" || Ascii.eqb c "-".

(** The class "[a-zA-Z0-9.-]". *)
Definition domainByte (c : ascii) : bool :=
  isLetter c || isDigit c || Ascii.eqb c "." || Ascii.eqb c "-".

(** The pattern "^[a-zA-Z0-9_]+$". *)
Definition usernameRegex : re := Plus (Class wordByte).

(** The pattern "[a-zA-Z]{2,}". *)
Definition tld : re :=
  Cat (Class isLetter) (Cat (Class isLetter) (Star (Class isLetter))).

(** The pattern "^[a-zA-Z0-9._%+-]+@[a-zA-Z0-9.-]+\.[a-zA-Z]{2,}$". *)
Definition emailRegex : re :=
  Cat (Plus (Class localByte))
      (Cat (Lit "@") (Cat (Plus (Class domainByte)) (Cat (Lit ".") tld))).

(** The pattern of [isValidURL]: "^https?://[a-zA-Z0-9.-]+\.[a-zA-Z]{2,}",
    then an optional group made of a slash and any bytes but line feeds,
    then "$". *)
Definition urlRegex : re :=
  Cat (Str "http")
      (Cat (Opt (Lit "s"))
           (Cat (Str "://")
                (Cat (Plus (Class domainByte))
                     (Cat (Lit ".")
                          (Cat tld (Opt (Cat (Lit "/") (Star Dot)))))))).

(** [ValidateUsername]. *)
Definition ValidateUsername (username : string) : option error :=
  let username := TrimSpace username in
  if (String.length username <? 3)%nat
  then Some (errors_New "username must be at least 3 characters long")
  else if (30 <? String.length username)%nat
  then Some (errors_New "username cannot exceed 30 characters")
  else if negb (fullMatch usernameRegex username)
  then Some (errors_New
               "username can only contain letters, numbers, and underscores")
  else None.

(** [ValidateEmail]. *)
Definition ValidateEmail (email : string) : option error :=
  let email := TrimSpace email in
  if String.eqb email ""
  then Some (errors_New "email is required")
  else if negb (fullMatch emailRegex email)
  then Some (errors_New "invalid email format")
  else if (255 <? String.length email)%nat
  then Some (errors_New "email cannot exceed 255 characters")
  else None.

(** [ValidatePassword]. *)
Definition ValidatePassword (password : string) : option error :=
  if (String.length password <? 8)%nat
  then Some (errors_New "password must be at least 8 characters long")
  else if (128 <? String.length password)%nat
  then Some (errors_New "password cannot exceed 128 characters")
  else
    let hasUpper := search (Class isUpper) password in
    let hasLower := search (Class isLower) password in
    let hasDigit := search (Class isDigit) password in
    if negb hasUpper || negb hasLower || negb hasDigit
    then Some (errors_New
      "password must contain at least one uppercase letter, one lowercase letter, and one digit")
    else None.

(** [isValidURL]. *)
Definition isValidURL (url : string) : bool := fullMatch urlRegex url.

(** *** Helper functions *)

(** [generateSalt]; [rnd] is what [rand.Read] delivers for the 32 bytes
    asked of it. *)
Definition generateSalt (rnd : result string) : result string :=
  match rnd with
  | Err e => Err e
  | Ok bytes => Ok (hex.EncodeToString bytes)
  end.

(** [hashPassword]: SHA-256 of password + salt, in hexadecimal. *)
Definition hashPassword (password salt : string) : string :=
  hex.EncodeToString (sha256.Sum256 (password ++ salt)).

(** *** Constructor and methods *)

(** [NewUser]. *)
Definition NewUser (now : Time) (oid : ObjectID) (rnd : result string)
           (username email password : string) : result User :=
  match ValidateUsername username with
  | Some err => Err err
  | None =>
  match ValidateEmail email with
  | Some err => Err err
  | None =>
  match ValidatePassword password with
  | Some err => Err err
  | None =>
  match generateSalt rnd with
  | Err err => Err (Wrapf "failed to generate salt" err)
  | Ok salt =>
      let hashedPassword := hashPassword password salt in
      Ok (mkUser (NewBaseModel now oid)
                 (ToLower (TrimSpace username))
                 (ToLower (TrimSpace email))
                 "" ""
                 hashedPassword salt
                 "" "" "" "" None
                 true false [RoleUser]
                 None None 0 0 None (json.Object []))
  end end end end.

(** The dynamic values that travel in a [map[string]interface{}]. *)
Inductive any :=
| AString (s : string)
| ABool (b : bool)
| AInt (z : Z)
| ATime (t : Time)
| ANil.

(** [updates[key].(string)] *)
Definition asString (updates : gmap string any) (key : string)
  : option string :=
  match updates !! key with
  | Some (AString s) => Some s
  | _ => None
  end.

(** [User.UpdateUser]: the receiver after the call, and the error.  The
    receiver keeps what was assigned before an error return. *)
Definition UpdateUser (now : Time) (u : User) (updates : gmap string any)
  : User * option error :=
  let u := UpdateTimestamp now u in
  let step1 : User * option error :=
    match asString updates "username" with
    | Some username =>
        match ValidateUsername username with
        | Some err => (u, Some err)
        | None => (set_Username (ToLower (TrimSpace username)) u, None)
        end
    | None => (u, None)
    end in
  match step1 with (u, Some err) => (u, Some err) | (u, None) =>
  let step2 : User * option error :=
    match asString updates "email" with
    | Some email =>
        match ValidateEmail email with
        | Some err => (u, Some err)
        | None =>
            let u :=
              if negb (String.eqb (Email u) (ToLower (TrimSpace email)))
              then set_EmailVerifiedAt None (set_IsVerified false u)
              else u in
            (set_Email (ToLower (TrimSpace email)) u, None)
        end
    | None => (u, None)
    end in
  match step2 with (u, Some err) => (u, Some err) | (u, None) =>
  let u := match asString updates "first_name" with
           | Some firstName => set_FirstName (TrimSpace firstName) u
           | None => u end in
  let u := match asString updates "last_name" with
           | Some lastName => set_LastName (TrimSpace lastName) u
           | None => u end in
  let step3 : User * option error :=
    match asString updates "bio" with
    | Some bio =>
        if (500 <? String.length bio)%nat
        then (u, Some (errors_New "bio cannot exceed 500 characters"))
        else (set_Bio (TrimSpace bio) u, None)
    | None => (u, None)
    end in
  match step3 with (u, Some err) => (u, Some err) | (u, None) =>
  let u := match asString updates "location" with
           | Some location => set_Location (TrimSpace location) u
           | None => u end in
  match asString updates "website" with
  | Some website =>
      if negb (String.eqb website "") && negb (isValidURL website)
      then (u, Some (errors_New "invalid website URL format"))
      else (set_Website (TrimSpace website) u, None)
  | None => (u, None)
  end end end end.

(** [User.SetPassword]. *)
Definition SetPassword (now : Time) (rnd : result string) (u : User)
           (newPassword : string) : User * option error :=
  match ValidatePassword newPassword with
  | Some err => (u, Some err)
  | None =>
      match generateSalt rnd with
      | Err err => (u, Some (Wrapf "failed to generate salt" err))
      | Ok salt =>
          (UpdateTimestamp now
             (set_Password (hashPassword newPassword salt) (set_Salt salt u)),
           None)
      end
  end.

(** [User.CheckPassword]. *)
Definition CheckPassword (u : User) (password : string) : bool :=
  let hashedInput := hashPassword password (Salt u) in
  String.eqb (Password u) hashedInput.

(** [User.GetFullName]. *)
Definition GetFullName (u : User) : string :=
  let fullName := TrimSpace (FirstName u ++ " " ++ LastName u) in
  if String.eqb fullName "" then Username u else fullName.

(** Go's [int] on a 64-bit platform: [x++] wraps around. *)
Definition wrapInt (z : Z) : Z := (z + 2^63) mod 2^64 - 2^63.

(** [time.Minute], in nanoseconds, and [time.Time.Sub]: the difference
    of two instants as a [Duration], which saturates at the ends of the
    64-bit integers. *)
Definition Minute : Z := 60 * 1000000000.

Definition Sub (t u : Time) : Z :=
  let d := t - u in
  if d <? - 2^63 then - 2^63
  else if 2^63 - 1 <? d then 2^63 - 1
  else d.

(** [User.RecordLogin]; [now] and [stamp] are its two readings of the
    clock, the second one inside [UpdateTimestamp]. *)
Definition RecordLogin (now stamp : Time) (u : User) : User :=
  let u := set_LastLoginAt (Some now) u in
  let u := set_LoginCount (wrapInt (LoginCount u + 1)) u in
  let u := set_FailedLogins 0 u in
  UpdateTimestamp stamp u.

(** [User.RecordFailedLogin]. *)
Definition RecordFailedLogin (now stamp : Time) (u : User) : User :=
  let u := set_FailedLogins (wrapInt (FailedLogins u + 1)) u in
  let u := set_LastFailedAt (Some now) u in
  UpdateTimestamp stamp u.

(** [User.IsLocked]; [now] is the instant of [time.Since]. *)
Definition IsLocked (now : Time) (u : User) : bool :=
  let maxFailedLogins := 5 in
  let lockoutDuration := 30 * Minute in
  if FailedLogins u <? maxFailedLogins then false
  else match LastFailedAt u with
       | None => false
       | Some t => Sub now t <? lockoutDuration
       end.

(** [User.VerifyEmail]. *)
Definition VerifyEmail (now stamp : Time) (u : User) : User :=
  let u := set_IsVerified true u in
  let u := set_EmailVerifiedAt (Some now) u in
  UpdateTimestamp stamp u.

(** [User.HasRole]. *)
Definition HasRole (u : User) (role : string) : bool :=
  existsb (fun r => String.eqb r role) (Roles u).

(** [User.AddRole]. *)
Definition AddRole (stamp : Time) (role : string) (u : User) : User :=
  if negb (HasRole u role)
  then UpdateTimestamp stamp (set_Roles (Roles u ++ [role])%list u)
  else u.

(** The loop of [User.RemoveRole]: the roles without the first one that
    equals [role]; [None] when the loop ends without a hit. *)
Fixpoint removeFirst (role : string) (l : list string) : option (list string) :=
  match l with
  | [] => None
  | r :: rest =>
      if String.eqb r role then Some rest
      else match removeFirst role rest with
           | Some rest' => Some (r :: rest')
           | None => None
           end
  end.

(** [User.RemoveRole]. *)
Definition RemoveRole (stamp : Time) (role : string) (u : User) : User :=
  match removeFirst role (Roles u) with
  | Some roles => UpdateTimestamp stamp (set_Roles roles u)
  | None => u
  end.

(** [User.IsAdmin]. *)
Definition IsAdmin (u : User) : bool := HasRole u RoleAdmin.

(** [IsValidObjectID] of base.go. *)
Definition IsValidObjectID (id : string) : bool := is_ok (ObjectIDFromHex id).

(** *** dto.go *)

Record CreateUserRequest := mkCreateUserRequest {
  create_Username : string;
  create_Email : string;
  create_Password : string;
  create_FirstName : string;
  create_LastName : string
}.

(** The fields of an [UpdateUserRequest] are pointers: [None] is [nil]. *)
Record UpdateUserRequest := mkUpdateUserRequest {
  update_Username : option string;
  update_Email : option string;
  update_FirstName : option string;
  update_LastName : option string;
  update_Bio : option string;
  update_Location : option string;
  update_Website : option string
}.

Record ChangePasswordRequest := mkChangePasswordRequest {
  CurrentPassword : string;
  NewPassword : string;
  ConfirmPassword : string
}.

Record UserResponse := mkUserResponse {
  resp_ID : string;
  resp_Username : string;
  resp_Email : string;
  resp_FirstName : string;
  resp_LastName : string;
  resp_FullName : string;
  resp_Avatar : string;
  resp_Bio : string;
  resp_Location : string;
  resp_Website : string;
  resp_DateOfBirth : option Time;
  resp_IsActive : bool;
  resp_IsVerified : bool;
  resp_Roles : list string;
  resp_LastLoginAt : option Time;
  resp_EmailVerifiedAt : option Time;
  resp_LoginCount : Z;
  resp_Preferences : json.value;
  resp_CreatedAt : Time;
  resp_UpdatedAt : Time
}.

Record UserListResponse := mkUserListResponse {
  Users : list UserResponse;
  Total : Z;
  list_Page : Z;
  list_Limit : Z
}.

Record UsersQueryParams := mkUsersQueryParams {
  Page : Z;
  Limit : Z;
  Search : string;
  Role : string;
  query_IsActive : option bool;
  SortBy : string;
  SortDir : string
}.

(** [User.ToUserResponse]. *)
Definition ToUserResponse (u : User) : UserResponse :=
  mkUserResponse (GetIDString u) (Username u) (Email u) (FirstName u)
    (LastName u) (GetFullName u) (Avatar u) (Bio u) (Location u)
    (Website u) (DateOfBirth u) (IsActive u) (IsVerified u) (Roles u)
    (LastLoginAt u) (EmailVerifiedAt u) (LoginCount u) (Preferences u)
    (CreatedAt u) (UpdatedAt u).

Definition putString (key : string) (field : option string)
           (updates : gmap string any) : gmap string any :=
  match field with
  | Some v => <[key := AString (TrimSpace v)]> updates
  | None => updates
  end.

(** [UpdateUserRequest.ToMap]. *)
Definition ToMap (r : UpdateUserRequest) : gmap string any :=
  putString "website" (update_Website r)
    (putString "location" (update_Location r)
      (putString "bio" (update_Bio r)
        (putString "last_name" (update_LastName r)
          (putString "first_name" (update_FirstName r)
            (putString "email" (update_Email r)
              (putString "username" (update_Username r) ∅)))))).

(** [errors = append(errors, err.Error())] when [err != nil]. *)
Definition appendErr (errors : list string) (err : option error)
  : list string :=
  match err with
  | Some e => (errors ++ [Error e])%list
  | None => errors
  end.

Definition appendIf (errors : list string) (cond : bool) (msg : string)
  : list string :=
  if cond then (errors ++ [msg])%list else errors.

(** [CreateUserRequest.Validate]: the request with its fields trimmed,
    and the list of reasons. *)
Definition CreateUserRequest_Validate (r : CreateUserRequest)
  : CreateUserRequest * list string :=
  let r := mkCreateUserRequest
             (TrimSpace (create_Username r)) (TrimSpace (create_Email r))
             (create_Password r)
             (TrimSpace (create_FirstName r)) (TrimSpace (create_LastName r)) in
  let errors := [] in
  let errors := appendErr errors (ValidateUsername (create_Username r)) in
  let errors := appendErr errors (ValidateEmail (create_Email r)) in
  let errors := appendErr errors (ValidatePassword (create_Password r)) in
  let errors :=
    appendIf errors
      (negb (String.eqb (create_FirstName r) "")
       && (50 <? String.length (create_FirstName r))%nat)
      "first name cannot exceed 50 characters" in
  let errors :=
    appendIf errors
      (negb (String.eqb (create_LastName r) "")
       && (50 <? String.length (create_LastName r))%nat)
      "last name cannot exceed 50 characters" in
  (r, errors).

(** [UpdateUserRequest.Validate]. *)
Definition UpdateUserRequest_Validate (r : UpdateUserRequest)
  : UpdateUserRequest * list string :=
  let r := mkUpdateUserRequest
             (TrimSpace <$> update_Username r) (TrimSpace <$> update_Email r)
             (TrimSpace <$> update_FirstName r)
             (TrimSpace <$> update_LastName r)
             (TrimSpace <$> update_Bio r) (TrimSpace <$> update_Location r)
             (TrimSpace <$> update_Website r) in
  let errors := [] in
  let errors := match update_Username r with
                | Some v => appendErr errors (ValidateUsername v)
                | None => errors end in
  let errors := match update_Email r with
                | Some v => appendErr errors (ValidateEmail v)
                | None => errors end in
  let errors := match update_FirstName r with
                | Some v => appendIf errors (50 <? String.length v)%nat
                              "first name cannot exceed 50 characters"
                | None => errors end in
  let errors := match update_LastName r with
                | Some v => appendIf errors (50 <? String.length v)%nat
                              "last name cannot exceed 50 characters"
                | None => errors end in
  let errors := match update_Bio r with
                | Some v => appendIf errors (500 <? String.length v)%nat
                              "bio cannot exceed 500 characters"
                | None => errors end in
  let errors := match update_Location r with
                | Some v => appendIf errors (100 <? String.length v)%nat
                              "location cannot exceed 100 characters"
                | None => errors end in
  let errors := match update_Website r with
                | Some v => appendIf errors
                              (negb (String.eqb v "") && negb (isValidURL v))
                              "invalid website URL format"
                | None => errors end in
  (r, errors).

(** [ChangePasswordRequest.Validate]. *)
Definition ChangePasswordRequest_Validate (r : ChangePasswordRequest)
  : list string :=
  let errors := [] in
  let errors := appendIf errors (String.eqb (CurrentPassword r) "")
                  "current password is required" in
  let errors := appendErr errors (ValidatePassword (NewPassword r)) in
  let errors := appendIf errors
                  (negb (String.eqb (NewPassword r) (ConfirmPassword r)))
                  "new password and confirm password do not match" in
  let errors := appendIf errors
                  (String.eqb (CurrentPassword r) (NewPassword r))
                  "new password must be different from current password" in
  errors.

(** [UsersQueryParams.SetDefaults]. *)
Definition SetDefaults (q : UsersQueryParams) : UsersQueryParams :=
  let page := if Page q <? 1 then 1 else Page q in
  let limit := if (Limit q <? 1) || (100 <? Limit q) then 20 else Limit q in
  let sortBy := if String.eqb (SortBy q) "" then "created_at" else SortBy q in
  let sortDir := if String.eqb (SortDir q) "" then "desc" else SortDir q in
  mkUsersQueryParams page limit (Search q) (Role q) (query_IsActive q)
                     sortBy sortDir.

End models.

(* ===================================================================== *)
(** ** Package [utils]: internal/shared/utils/password.go                 *)
(* ===================================================================== *)

Module utils.

Import strings regexp.

Definition BcryptCost : Z := 12.

Record PasswordService := mkPasswordService { cost : Z }.

Definition NewPasswordService : PasswordService :=
  mkPasswordService BcryptCost.

(** [PasswordService.ValidatePassword]. *)
Definition PasswordService_ValidatePassword (ps : PasswordService)
           (password : string) : option error :=
  if (String.length password <? 8)%nat
  then Some (errors_New "password must be at least 8 characters long")
  else if (128 <? String.length password)%nat
  then Some (errors_New "password cannot exceed 128 characters")
  else
    let hasUpper := search (Class isUpper) password in
    let hasLower := search (Class isLower) password in
    let hasDigit := search (Class isDigit) password in
    if negb hasUpper || negb hasLower || negb hasDigit
    then Some (errors_New
      "password must contain at least one uppercase letter, one lowercase letter, and one digit")
    else None.

Definition defaultPasswordService : PasswordService := NewPasswordService.

(** The package-level [ValidatePassword]. *)
Definition ValidatePassword (password : string) : option error :=
  PasswordService_ValidatePassword defaultPasswordService password.

End utils.

(* ===================================================================== *)
(** ** Package [encoding/json] on the types of package models             *)
(* ===================================================================== *)

Module encoding_json.

Import models.
Local Open Scope Z_scope.

Definition typeError : error :=
  errors_New "json: cannot unmarshal value into Go struct field".

(** The encoder writes a Go string rune by rune; a byte that starts no
    well-formed UTF-8 sequence is written as U+FFFD.  [rune2], [rune3]
    and [rune4] are the well-formed sequences of two, three and four
    bytes (the table of package utf8). *)
Definition inN (lo hi : N) (c : ascii) : bool :=
  let n := N_of_ascii c in ((lo <=? n) && (n <=? hi))%N.

Definition cont (c : ascii) : bool := inN 128 191 c.

Definition rune2 (a b : ascii) : bool := inN 194 223 a && cont b.

Definition rune3 (a b c : ascii) : bool :=
  ((inN 224 224 a && inN 160 191 b)
   || (inN 225 236 a && cont b)
   || (inN 237 237 a && inN 128 159 b)
   || (inN 238 239 a && cont b))
  && cont c.

Definition rune4 (a b c d : ascii) : bool :=
  ((inN 240 240 a && inN 144 191 b)
   || (inN 241 243 a && cont b)
   || (inN 244 244 a && inN 128 143 b))
  && cont c && cont d.

(** U+FFFD in UTF-8. *)
Definition replacement (rest : string) : string :=
  String (ascii_of_N 239) (String (ascii_of_N 191) (String (ascii_of_N 189) rest)).

Fixpoint ToValidUTF8 (s : string) : string :=
  match s with
  | EmptyString => EmptyString
  | String a r1 =>
      if strings.isASCII a then String a (ToValidUTF8 r1)
      else
        match r1 with
        | String b r2 =>
            if rune2 a b then String a (String b (ToValidUTF8 r2))
            else
              match r2 with
              | String c r3 =>
                  if rune3 a b c
                  then String a (String b (String c (ToValidUTF8 r3)))
                  else
                    match r3 with
                    | String d r4 =>
                        if rune4 a b c d
                        then String a (String b (String c (String d (ToValidUTF8 r4))))
                        else replacement (ToValidUTF8 r1)
                    | EmptyString => replacement (ToValidUTF8 r1)
                    end
              | EmptyString => replacement (ToValidUTF8 r1)
              end
        | EmptyString => replacement (ToValidUTF8 r1)
        end
  end.

(** A Go string as the encoder writes it. *)
Definition encString (s : string) : json.value := json.String (ToValidUTF8 s).

Definition encOptTime (t : option Time) : json.value :=
  match t with
  | Some t => json.Timestamp t
  | None => json.Null
  end.

Definition encStrings (l : list string) : json.value :=
  json.Array (List.map encString l).

(** [time.Time.MarshalJSON] fails on a year outside 0..9999; instants
    are nanoseconds since the Unix epoch. *)
Definition timeInRange (t : Time) : bool :=
  (-62167219200 * 10^9 <=? t) && (t <? 253402300800 * 10^9).

(** The document has a JSON text. *)
Fixpoint supported (v : json.value) : bool :=
  match v with
  | json.Unsupported => false
  | json.Timestamp t => timeInRange t
  | json.Array l => List.forallb supported l
  | json.Object fields =>
      List.forallb (fun kv => match kv with (_, x) => supported x end) fields
  | _ => true
  end.

(** [json.Marshal] of a Go value, given the document the encoder builds
    for it: the encoder gives up on a value that has no JSON form. *)
Definition Marshal (doc : json.value) : result json.value :=
  if supported doc then Ok doc
  else Err (errors_New "json: unsupported value").

(** The document that [json.Marshal(user)] builds: the struct tags of
    [User] and of the embedded [BaseModel]; [deleted_at] is omitted when empty; the fields tagged
    "-" ([Password], [Salt], [FailedLogins], [LastFailedAt]) are left
    out. *)
Definition Marshal_User (u : User) : json.value :=
  json.Object
    ([ ("id", json.String (Hex (ID u)));
       ("created_at", json.Timestamp (CreatedAt u));
       ("updated_at", json.Timestamp (UpdatedAt u)) ]
     ++ match DeletedAt u with
        | Some t => [("deleted_at", json.Timestamp t)]
        | None => []
        end
     ++ [ ("username", encString (Username u));
          ("email", encString (Email u));
          ("first_name", encString (FirstName u));
          ("last_name", encString (LastName u));
          ("avatar", encString (Avatar u));
          ("bio", encString (Bio u));
          ("location", encString (Location u));
          ("website", encString (Website u));
          ("date_of_birth", encOptTime (DateOfBirth u));
          ("is_active", json.Bool (IsActive u));
          ("is_verified", json.Bool (IsVerified u));
          ("roles", encStrings (Roles u));
          ("last_login_at", encOptTime (LastLoginAt u));
          ("email_verified_at", encOptTime (EmailVerifiedAt u));
          ("login_count", json.Number (LoginCount u));
          ("preferences", Preferences u) ])%list.

(** The document that [json.Marshal(userResponse)] builds. *)
Definition Marshal_UserResponse (r : UserResponse) : json.value :=
  json.Object
    [ ("id", encString (resp_ID r));
      ("username", encString (resp_Username r));
      ("email", encString (resp_Email r));
      ("first_name", encString (resp_FirstName r));
      ("last_name", encString (resp_LastName r));
      ("full_name", encString (resp_FullName r));
      ("avatar", encString (resp_Avatar r));
      ("bio", encString (resp_Bio r));
      ("location", encString (resp_Location r));
      ("website", encString (resp_Website r));
      ("date_of_birth", encOptTime (resp_DateOfBirth r));
      ("is_active", json.Bool (resp_IsActive r));
      ("is_verified", json.Bool (resp_IsVerified r));
      ("roles", encStrings (resp_Roles r));
      ("last_login_at", encOptTime (resp_LastLoginAt r));
      ("email_verified_at", encOptTime (resp_EmailVerifiedAt r));
      ("login_count", json.Number (resp_LoginCount r));
      ("preferences", resp_Preferences r);
      ("created_at", json.Timestamp (resp_CreatedAt r));
      ("updated_at", json.Timestamp (resp_UpdatedAt r)) ].

(** The document that [json.Marshal(userListResponse)] builds. *)
Definition Marshal_UserListResponse (l : UserListResponse) : json.value :=
  json.Object
    [ ("users", json.Array (List.map Marshal_UserResponse (Users l)));
      ("total", json.Number (Total l));
      ("page", json.Number (list_Page l));
      ("limit", json.Number (list_Limit l)) ].

(** Decoders of one JSON value into a field that holds [old].  A JSON
    null leaves the field as it is; [None] is an [UnmarshalTypeError]. *)
Definition decString (old : string) (v : json.value) : option string :=
  match v with json.String s => Some s | json.Null => Some old | _ => None end.

Definition decBool (old : bool) (v : json.value) : option bool :=
  match v with json.Bool b => Some b | json.Null => Some old | _ => None end.

Definition decInt (old : Z) (v : json.value) : option Z :=
  match v with json.Number z => Some z | json.Null => Some old | _ => None end.

Definition decTime (old : Time) (v : json.value) : option Time :=
  match v with json.Timestamp t => Some t | json.Null => Some old | _ => None end.

Definition decOptTime (old : option Time) (v : json.value)
  : option (option Time) :=
  match v with
  | json.Timestamp t => Some (Some t)
  | json.Null => Some None
  | _ => None
  end.

Fixpoint decStringList (l : list json.value) : option (list string) :=
  match l with
  | [] => Some []
  | json.String s :: r =>
      match decStringList r with Some t => Some (s :: t) | None => None end
  | json.Null :: r =>
      match decStringList r with Some t => Some ("" :: t) | None => None end
  | _ :: _ => None
  end.

Definition decStrings (old : list string) (v : json.value)
  : option (list string) :=
  match v with
  | json.Array l => decStringList l
  | json.Null => Some []
  | _ => None
  end.

Definition decMap (old : json.value) (v : json.value) : option json.value :=
  match v with
  | json.Object fs => Some (json.Object fs)
  | json.Null => Some json.Null
  | _ => None
  end.

(** [ObjectID.UnmarshalJSON]: the empty string is the nil id; otherwise
    24 hexadecimal digits. *)
Definition decObjectID (old : ObjectID) (v : json.value) : option ObjectID :=
  match v with
  | json.Null => Some old
  | json.String s =>
      if String.eqb s "" then Some NilObjectID
      else match ObjectIDFromHex s with Ok id => Some id | Err _ => None end
  | _ => None
  end.

(** The decoder remembers its first type error and goes on. *)
Definition store {A T} (set : A -> T -> T) (d : option A) (acc : T * option error)
  : T * option error :=
  match d with
  | Some x => (set x (fst acc), snd acc)
  | None => (fst acc, match snd acc with
                      | Some e => Some e
                      | None => Some typeError
                      end)
  end.

Definition setBase (f : BaseModel -> BaseModel) (u : User) : User :=
  set_Base (f (Base u)) u.

(** One member of a JSON object, decoded into a [User]; a key that is
    no struct tag of [User] is skipped. *)
Definition decodeUserField (acc : User * option error)
           (kv : string * json.value) : User * option error :=
  let u := fst acc in
  let '(k, v) := kv in
  if String.eqb k "id" then store (fun x => setBase (setb_ID x)) (decObjectID (ID u) v) acc
  else if String.eqb k "created_at" then store (fun x => setBase (setb_CreatedAt x)) (decTime (CreatedAt u) v) acc
  else if String.eqb k "updated_at" then store (fun x => setBase (setb_UpdatedAt x)) (decTime (UpdatedAt u) v) acc
  else if String.eqb k "deleted_at" then store (fun x => setBase (setb_DeletedAt x)) (decOptTime (DeletedAt u) v) acc
  else if String.eqb k "username" then store set_Username (decString (Username u) v) acc
  else if String.eqb k "email" then store set_Email (decString (Email u) v) acc
  else if String.eqb k "first_name" then store set_FirstName (decString (FirstName u) v) acc
  else if String.eqb k "last_name" then store set_LastName (decString (LastName u) v) acc
  else if String.eqb k "avatar" then store set_Avatar (decString (Avatar u) v) acc
  else if String.eqb k "bio" then store set_Bio (decString (Bio u) v) acc
  else if String.eqb k "location" then store set_Location (decString (Location u) v) acc
  else if String.eqb k "website" then store set_Website (decString (Website u) v) acc
  else if String.eqb k "date_of_birth" then store set_DateOfBirth (decOptTime (DateOfBirth u) v) acc
  else if String.eqb k "is_active" then store set_IsActive (decBool (IsActive u) v) acc
  else if String.eqb k "is_verified" then store set_IsVerified (decBool (IsVerified u) v) acc
  else if String.eqb k "roles" then store set_Roles (decStrings (Roles u) v) acc
  else if String.eqb k "last_login_at" then store set_LastLoginAt (decOptTime (LastLoginAt u) v) acc
  else if String.eqb k "email_verified_at" then store set_EmailVerifiedAt (decOptTime (EmailVerifiedAt u) v) acc
  else if String.eqb k "login_count" then store set_LoginCount (decInt (LoginCount u) v) acc
  else if String.eqb k "preferences" then store set_Preferences (decMap (Preferences u) v) acc
  else acc.

(** [json.Unmarshal(data, &user)] on a [user] that holds [u0]: the value
    of [user] afterwards, and the error. *)
Definition Unmarshal_User (data : json.value) (u0 : User)
  : User * option error :=
  match data with
  | json.Object fields => fold_left decodeUserField fields (u0, None)
  | json.Null => (u0, None)
  | _ => (u0, Some typeError)
  end.

Definition zeroUserResponse : UserResponse :=
  mkUserResponse "" "" "" "" "" "" "" "" "" "" None false false [] None None
                 0 json.Null 0 0.

Definition setr_ID (x : string) (r : UserResponse) : UserResponse :=
  mkUserResponse x (resp_Username r) (resp_Email r) (resp_FirstName r) (resp_LastName r) (resp_FullName r) (resp_Avatar r) (resp_Bio r) (resp_Location r) (resp_Website r) (resp_DateOfBirth r) (resp_IsActive r) (resp_IsVerified r) (resp_Roles r) (resp_LastLoginAt r) (resp_EmailVerifiedAt r) (resp_LoginCount r) (resp_Preferences r) (resp_CreatedAt r) (resp_UpdatedAt r).
Definition setr_Username (x : string) (r : UserResponse) : UserResponse :=
  mkUserResponse (resp_ID r) x (resp_Email r) (resp_FirstName r) (resp_LastName r) (resp_FullName r) (resp_Avatar r) (resp_Bio r) (resp_Location r) (resp_Website r) (resp_DateOfBirth r) (resp_IsActive r) (resp_IsVerified r) (resp_Roles r) (resp_LastLoginAt r) (resp_EmailVerifiedAt r) (resp_LoginCount r) (resp_Preferences r) (resp_CreatedAt r) (resp_UpdatedAt r).
Definition setr_Email (x : string) (r : UserResponse) : UserResponse :=
  mkUserResponse (resp_ID r) (resp_Username r) x (resp_FirstName r) (resp_LastName r) (resp_FullName r) (resp_Avatar r) (resp_Bio r) (resp_Location r) (resp_Website r) (resp_DateOfBirth r) (resp_IsActive r) (resp_IsVerified r) (resp_Roles r) (resp_LastLoginAt r) (resp_EmailVerifiedAt r) (resp_LoginCount r) (resp_Preferences r) (resp_CreatedAt r) (resp_UpdatedAt r).
Definition setr_FirstName (x : string) (r : UserResponse) : UserResponse :=
  mkUserResponse (resp_ID r) (resp_Username r) (resp_Email r) x (resp_LastName r) (resp_FullName r) (resp_Avatar r) (resp_Bio r) (resp_Location r) (resp_Website r) (resp_DateOfBirth r) (resp_IsActive r) (resp_IsVerified r) (resp_Roles r) (resp_LastLoginAt r) (resp_EmailVerifiedAt r) (resp_LoginCount r) (resp_Preferences r) (resp_CreatedAt r) (resp_UpdatedAt r).
Definition setr_LastName (x : string) (r : UserResponse) : UserResponse :=
  mkUserResponse (resp_ID r) (resp_Username r) (resp_Email r) (resp_FirstName r) x (resp_FullName r) (resp_Avatar r) (resp_Bio r) (resp_Location r) (resp_Website r) (resp_DateOfBirth r) (resp_IsActive r) (resp_IsVerified r) (resp_Roles r) (resp_LastLoginAt r) (resp_EmailVerifiedAt r) (resp_LoginCount r) (resp_Preferences r) (resp_CreatedAt r) (resp_UpdatedAt r).
Definition setr_FullName (x : string) (r : UserResponse) : UserResponse :=
  mkUserResponse (resp_ID r) (resp_Username r) (resp_Email r) (resp_FirstName r) (resp_LastName r) x (resp_Avatar r) (resp_Bio r) (resp_Location r) (resp_Website r) (resp_DateOfBirth r) (resp_IsActive r) (resp_IsVerified r) (resp_Roles r) (resp_LastLoginAt r) (resp_EmailVerifiedAt r) (resp_LoginCount r) (resp_Preferences r) (resp_CreatedAt r) (resp_UpdatedAt r).
Definition setr_Avatar (x : string) (r : UserResponse) : UserResponse :=
  mkUserResponse (resp_ID r) (resp_Username r) (resp_Email r) (resp_FirstName r) (resp_LastName r) (resp_FullName r) x (resp_Bio r) (resp_Location r) (resp_Website r) (resp_DateOfBirth r) (resp_IsActive r) (resp_IsVerified r) (resp_Roles r) (resp_LastLoginAt r) (resp_EmailVerifiedAt r) (resp_LoginCount r) (resp_Preferences r) (resp_CreatedAt r) (resp_UpdatedAt r).
Definition setr_Bio (x : string) (r : UserResponse) : UserResponse :=
  mkUserResponse (resp_ID r) (resp_Username r) (resp_Email r) (resp_FirstName r) (resp_LastName r) (resp_FullName r) (resp_Avatar r) x (resp_Location r) (resp_Website r) (resp_DateOfBirth r) (resp_IsActive r) (resp_IsVerified r) (resp_Roles r) (resp_LastLoginAt r) (resp_EmailVerifiedAt r) (resp_LoginCount r) (resp_Preferences r) (resp_CreatedAt r) (resp_UpdatedAt r).
Definition setr_Location (x : string) (r : UserResponse) : UserResponse :=
  mkUserResponse (resp_ID r) (resp_Username r) (resp_Email r) (resp_FirstName r) (resp_LastName r) (resp_FullName r) (resp_Avatar r) (resp_Bio r) x (resp_Website r) (resp_DateOfBirth r) (resp_IsActive r) (resp_IsVerified r) (resp_Roles r) (resp_LastLoginAt r) (resp_EmailVerifiedAt r) (resp_LoginCount r) (resp_Preferences r) (resp_CreatedAt r) (resp_UpdatedAt r).
Definition setr_Website (x : string) (r : UserResponse) : UserResponse :=
  mkUserResponse (resp_ID r) (resp_Username r) (resp_Email r) (resp_FirstName r) (resp_LastName r) (resp_FullName r) (resp_Avatar r) (resp_Bio r) (resp_Location r) x (resp_DateOfBirth r) (resp_IsActive r) (resp_IsVerified r) (resp_Roles r) (resp_LastLoginAt r) (resp_EmailVerifiedAt r) (resp_LoginCount r) (resp_Preferences r) (resp_CreatedAt r) (resp_UpdatedAt r).
Definition setr_DateOfBirth (x : option Time) (r : UserResponse) : UserResponse :=
  mkUserResponse (resp_ID r) (resp_Username r) (resp_Email r) (resp_FirstName r) (resp_LastName r) (resp_FullName r) (resp_Avatar r) (resp_Bio r) (resp_Location r) (resp_Website r) x (resp_IsActive r) (resp_IsVerified r) (resp_Roles r) (resp_LastLoginAt r) (resp_EmailVerifiedAt r) (resp_LoginCount r) (resp_Preferences r) (resp_CreatedAt r) (resp_UpdatedAt r).
Definition setr_IsActive (x : bool) (r : UserResponse) : UserResponse :=
  mkUserResponse (resp_ID r) (resp_Username r) (resp_Email r) (resp_FirstName r) (resp_LastName r) (resp_FullName r) (resp_Avatar r) (resp_Bio r) (resp_Location r) (resp_Website r) (resp_DateOfBirth r) x (resp_IsVerified r) (resp_Roles r) (resp_LastLoginAt r) (resp_EmailVerifiedAt r) (resp_LoginCount r) (resp_Preferences r) (resp_CreatedAt r) (resp_UpdatedAt r).
Definition setr_IsVerified (x : bool) (r : UserResponse) : UserResponse :=
  mkUserResponse (resp_ID r) (resp_Username r) (resp_Email r) (resp_FirstName r) (resp_LastName r) (resp_FullName r) (resp_Avatar r) (resp_Bio r) (resp_Location r) (resp_Website r) (resp_DateOfBirth r) (resp_IsActive r) x (resp_Roles r) (resp_LastLoginAt r) (resp_EmailVerifiedAt r) (resp_LoginCount r) (resp_Preferences r) (resp_CreatedAt r) (resp_UpdatedAt r).
Definition setr_Roles (x : list string) (r : UserResponse) : UserResponse :=
  mkUserResponse (resp_ID r) (resp_Username r) (resp_Email r) (resp_FirstName r) (resp_LastName r) (resp_FullName r) (resp_Avatar r) (resp_Bio r) (resp_Location r) (resp_Website r) (resp_DateOfBirth r) (resp_IsActive r) (resp_IsVerified r) x (resp_LastLoginAt r) (resp_EmailVerifiedAt r) (resp_LoginCount r) (resp_Preferences r) (resp_CreatedAt r) (resp_UpdatedAt r).
Definition setr_LastLoginAt (x : option Time) (r : UserResponse) : UserResponse :=
  mkUserResponse (resp_ID r) (resp_Username r) (resp_Email r) (resp_FirstName r) (resp_LastName r) (resp_FullName r) (resp_Avatar r) (resp_Bio r) (resp_Location r) (resp_Website r) (resp_DateOfBirth r) (resp_IsActive r) (resp_IsVerified r) (resp_Roles r) x (resp_EmailVerifiedAt r) (resp_LoginCount r) (resp_Preferences r) (resp_CreatedAt r) (resp_UpdatedAt r).
Definition setr_EmailVerifiedAt (x : option Time) (r : UserResponse) : UserResponse :=
  mkUserResponse (resp_ID r) (resp_Username r) (resp_Email r) (resp_FirstName r) (resp_LastName r) (resp_FullName r) (resp_Avatar r) (resp_Bio r) (resp_Location r) (resp_Website r) (resp_DateOfBirth r) (resp_IsActive r) (resp_IsVerified r) (resp_Roles r) (resp_LastLoginAt r) x (resp_LoginCount r) (resp_Preferences r) (resp_CreatedAt r) (resp_UpdatedAt r).
Definition setr_LoginCount (x : Z) (r : UserResponse) : UserResponse :=
  mkUserResponse (resp_ID r) (resp_Username r) (resp_Email r) (resp_FirstName r) (resp_LastName r) (resp_FullName r) (resp_Avatar r) (resp_Bio r) (resp_Location r) (resp_Website r) (resp_DateOfBirth r) (resp_IsActive r) (resp_IsVerified r) (resp_Roles r) (resp_LastLoginAt r) (resp_EmailVerifiedAt r) x (resp_Preferences r) (resp_CreatedAt r) (resp_UpdatedAt r).
Definition setr_Preferences (x : json.value) (r : UserResponse) : UserResponse :=
  mkUserResponse (resp_ID r) (resp_Username r) (resp_Email r) (resp_FirstName r) (resp_LastName r) (resp_FullName r) (resp_Avatar r) (resp_Bio r) (resp_Location r) (resp_Website r) (resp_DateOfBirth r) (resp_IsActive r) (resp_IsVerified r) (resp_Roles r) (resp_LastLoginAt r) (resp_EmailVerifiedAt r) (resp_LoginCount r) x (resp_CreatedAt r) (resp_UpdatedAt r).
Definition setr_CreatedAt (x : Time) (r : UserResponse) : UserResponse :=
  mkUserResponse (resp_ID r) (resp_Username r) (resp_Email r) (resp_FirstName r) (resp_LastName r) (resp_FullName r) (resp_Avatar r) (resp_Bio r) (resp_Location r) (resp_Website r) (resp_DateOfBirth r) (resp_IsActive r) (resp_IsVerified r) (resp_Roles r) (resp_LastLoginAt r) (resp_EmailVerifiedAt r) (resp_LoginCount r) (resp_Preferences r) x (resp_UpdatedAt r).
Definition setr_UpdatedAt (x : Time) (r : UserResponse) : UserResponse :=
  mkUserResponse (resp_ID r) (resp_Username r) (resp_Email r) (resp_FirstName r) (resp_LastName r) (resp_FullName r) (resp_Avatar r) (resp_Bio r) (resp_Location r) (resp_Website r) (resp_DateOfBirth r) (resp_IsActive r) (resp_IsVerified r) (resp_Roles r) (resp_LastLoginAt r) (resp_EmailVerifiedAt r) (resp_LoginCount r) (resp_Preferences r) (resp_CreatedAt r) x.

Definition decodeResponseField (acc : UserResponse * option error)
           (kv : string * json.value) : UserResponse * option error :=
  let r := fst acc in
  let '(k, v) := kv in
  if String.eqb k "id" then store setr_ID (decString (resp_ID r) v) acc
  else if String.eqb k "username" then store setr_Username (decString (resp_Username r) v) acc
  else if String.eqb k "email" then store setr_Email (decString (resp_Email r) v) acc
  else if String.eqb k "first_name" then store setr_FirstName (decString (resp_FirstName r) v) acc
  else if String.eqb k "last_name" then store setr_LastName (decString (resp_LastName r) v) acc
  else if String.eqb k "full_name" then store setr_FullName (decString (resp_FullName r) v) acc
  else if String.eqb k "avatar" then store setr_Avatar (decString (resp_Avatar r) v) acc
  else if String.eqb k "bio" then store setr_Bio (decString (resp_Bio r) v) acc
  else if String.eqb k "location" then store setr_Location (decString (resp_Location r) v) acc
  else if String.eqb k "website" then store setr_Website (decString (resp_Website r) v) acc
  else if String.eqb k "date_of_birth" then store setr_DateOfBirth (decOptTime (resp_DateOfBirth r) v) acc
  else if String.eqb k "is_active" then store setr_IsActive (decBool (resp_IsActive r) v) acc
  else if String.eqb k "is_verified" then store setr_IsVerified (decBool (resp_IsVerified r) v) acc
  else if String.eqb k "roles" then store setr_Roles (decStrings (resp_Roles r) v) acc
  else if String.eqb k "last_login_at" then store setr_LastLoginAt (decOptTime (resp_LastLoginAt r) v) acc
  else if String.eqb k "email_verified_at" then store setr_EmailVerifiedAt (decOptTime (resp_EmailVerifiedAt r) v) acc
  else if String.eqb k "login_count" then store setr_LoginCount (decInt (resp_LoginCount r) v) acc
  else if String.eqb k "preferences" then store setr_Preferences (decMap (resp_Preferences r) v) acc
  else if String.eqb k "created_at" then store setr_CreatedAt (decTime (resp_CreatedAt r) v) acc
  else if String.eqb k "updated_at" then store setr_UpdatedAt (decTime (resp_UpdatedAt r) v) acc
  else acc.

Definition Unmarshal_UserResponse (data : json.value) (r0 : UserResponse)
  : UserResponse * option error :=
  match data with
  | json.Object fields => fold_left decodeResponseField fields (r0, None)
  | json.Null => (r0, None)
  | _ => (r0, Some typeError)
  end.

(** The elements of a JSON array decoded into a [[]UserResponse]. *)
Fixpoint decResponses (l : list json.value)
  : list UserResponse * option error :=
  match l with
  | [] => ([], None)
  | v :: rest =>
      let '(r, e1) := Unmarshal_UserResponse v zeroUserResponse in
      let '(rs, e2) := decResponses rest in
      (r :: rs, match e1 with Some e => Some e | None => e2 end)
  end.

Definition decodeListField (acc : UserListResponse * option error)
           (kv : string * json.value) : UserListResponse * option error :=
  let l := fst acc in
  let '(k, v) := kv in
  if String.eqb k "users" then
    match v with
    | json.Array vs =>
        let '(rs, e) := decResponses vs in
        (mkUserListResponse rs (Total l) (list_Page l) (list_Limit l),
         match snd acc with Some e0 => Some e0 | None => e end)
    | json.Null =>
        (mkUserListResponse [] (Total l) (list_Page l) (list_Limit l), snd acc)
    | _ => store (fun (_ : unit) x => x) None acc
    end
  else if String.eqb k "total" then
    store (fun x l => mkUserListResponse (Users l) x (list_Page l) (list_Limit l))
          (decInt (Total l) v) acc
  else if String.eqb k "page" then
    store (fun x l => mkUserListResponse (Users l) (Total l) x (list_Limit l))
          (decInt (list_Page l) v) acc
  else if String.eqb k "limit" then
    store (fun x l => mkUserListResponse (Users l) (Total l) (list_Page l) x)
          (decInt (list_Limit l) v) acc
  else acc.

Definition Unmarshal_UserListResponse (data : json.value)
  : UserListResponse * option error :=
  let zero := mkUserListResponse [] 0 0 0 in
  match data with
  | json.Object fields => fold_left decodeListField fields (zero, None)
  | json.Null => (zero, None)
  | _ => (zero, Some typeError)
  end.

(** [json.Unmarshal(data, &stats)] for a [map[string]interface{}]. *)
Definition Unmarshal_map (data : json.value) : json.value * option error :=
  match data with
  | json.Object fields => (json.Object fields, None)
  | json.Null => (json.Null, None)
  | _ => (json.Null, Some typeError)
  end.

End encoding_json.

(* ===================================================================== *)
(** ** The world: document store, cache, clock, random source             *)
(* ===================================================================== *)

(** What an operation asks of the two backends, in the order of the calls,
    with the error each call handed back ([None]: the call succeeded). *)
Inductive Event :=
| CacheGet (key : string) (failure : option error)
| CacheSet (key : string) (value : json.value) (ttl : Z) (failure : option error)
| CacheDel (key : string) (failure : option error)
| StoreCall (op : string) (failure : option error).

(** - [docs]: the documents of the collection "users", in natural order;
    - [unique_indexes]: whether [EnsureIndexes] created the unique indexes
      on username and email (its failure at start-up is only logged);
    - [regex]: the regular expression engine of the store, case
      insensitive; [None] for a pattern it rejects;
    - [cache]: the keys of the cache with their value and the instant at
      which they expire;
    - [now]: the clock;
    - [NewObjectID], [rand_Read], [draws]: the identifier generator and
      the random source ([None] when it fails), and how often they have
      been drawn from;
    - [store_faults], [cache_faults]: for the coming calls of each
      backend, whether the call fails and with which message (an
      exhausted list is a healthy backend);
    - [trace]: the calls made so far. *)
Record World := mkWorld {
  docs : list models.User;
  unique_indexes : bool;
  regex : string -> option (string -> bool);
  cache : gmap string (json.value * Time);
  now : Time;
  NewObjectID : nat -> models.ObjectID;
  rand_Read : nat -> option string;
  draws : nat;
  store_faults : list (option string);
  cache_faults : list (option string);
  trace : list Event
}.

Definition with_docs (d : list models.User) (w : World) : World :=
  mkWorld d (unique_indexes w) (regex w) (cache w) (now w) (NewObjectID w)
          (rand_Read w) (draws w) (store_faults w) (cache_faults w) (trace w).
Definition with_cache (c : gmap string (json.value * Time)) (w : World) : World :=
  mkWorld (docs w) (unique_indexes w) (regex w) c (now w) (NewObjectID w)
          (rand_Read w) (draws w) (store_faults w) (cache_faults w) (trace w).
Definition with_now (t : Time) (w : World) : World :=
  mkWorld (docs w) (unique_indexes w) (regex w) (cache w) t (NewObjectID w)
          (rand_Read w) (draws w) (store_faults w) (cache_faults w) (trace w).
Definition with_draws (n : nat) (w : World) : World :=
  mkWorld (docs w) (unique_indexes w) (regex w) (cache w) (now w) (NewObjectID w)
          (rand_Read w) n (store_faults w) (cache_faults w) (trace w).
Definition with_store_faults (f : list (option string)) (w : World) : World :=
  mkWorld (docs w) (unique_indexes w) (regex w) (cache w) (now w) (NewObjectID w)
          (rand_Read w) (draws w) f (cache_faults w) (trace w).
Definition with_cache_faults (f : list (option string)) (w : World) : World :=
  mkWorld (docs w) (unique_indexes w) (regex w) (cache w) (now w) (NewObjectID w)
          (rand_Read w) (draws w) (store_faults w) f (trace w).
Definition with_trace (t : list Event) (w : World) : World :=
  mkWorld (docs w) (unique_indexes w) (regex w) (cache w) (now w) (NewObjectID w)
          (rand_Read w) (draws w) (store_faults w) (cache_faults w) t.

Definition emit (ev : Event) (w : World) : World :=
  with_trace (trace w ++ [ev])%list w.

(** A Go function with a context: it reads and changes the world and
    returns a value or an error. *)
Definition M (A : Type) : Type := World -> result A * World.

Definition ret {A} (a : A) : M A := fun w => (Ok a, w).

Definition fail {A} (e : error) : M A := fun w => (Err e, w).

Definition bind {A B} (m : M A) (k : A -> M B) : M B :=
  fun w => match m w with
           | (Ok a, w') => k a w'
           | (Err e, w') => (Err e, w')
           end.

(** [v, err := f()] without an early return: the error becomes a value. *)
Definition try {A} (m : M A) : M (result A) :=
  fun w => let '(r, w') := m w in (Ok r, w').

(** [if err != nil { return fmt.Errorf(msg + ": %w", err) }]. *)
Definition wrap {A} (msg : string) (m : M A) : M A :=
  fun w => match m w with
           | (Ok a, w') => (Ok a, w')
           | (Err e, w') => (Err (Wrapf msg e), w')
           end.

Definition gets {A} (f : World -> A) : M A := fun w => (Ok (f w), w).

Definition modify (f : World -> World) : M unit := fun w => (Ok tt, f w).

Declare Scope go_scope.
Delimit Scope go_scope with go.
Notation "x <- m ;; k" := (bind m (fun x => k))
  (at level 100, m at next level, right associativity) : go_scope.
Notation "m ;;; k" := (bind m (fun _ => k))
  (at level 100, right associativity) : go_scope.
Local Open Scope go_scope.

(** [for _, x := range l { body(x) }]. *)
Fixpoint forEach {A} (l : list A) (body : A -> M unit) : M unit :=
  match l with
  | [] => ret tt
  | x :: r => body x ;;; forEach r body
  end.

(** What [rand.Read] returns for the [n]-th draw. *)
Definition randomBytes (w : World) (n : nat) : result string :=
  match rand_Read w n with
  | Some bytes => Ok bytes
  | None => Err (errors_New "crypto/rand: read failed")
  end.

(** The next decision of a fault list, and the rest of the list. *)
Definition next_fault (l : list (option string))
  : option string * list (option string) :=
  match l with
  | [] => (None, [])
  | f :: r => (f, r)
  end.

(* ===================================================================== *)
(** ** internal/database/redis.go over the cache of the world             *)
(* ===================================================================== *)

Module database.

(** A call of the Redis client: it fails when the fault list says so. *)
Definition redis_call {A} (ev : option error -> Event)
           (run : World -> result A * World) : M A :=
  fun w =>
    let '(f, rest) := next_fault (cache_faults w) in
    let w := with_cache_faults rest w in
    match f with
    | Some msg =>
        let e := DriverError Redis msg in (Err e, emit (ev (Some e)) w)
    | None =>
        let '(r, w') := run w in
        (r, emit (ev (match r with Ok _ => None | Err e => Some e end)) w')
    end.

(** [RedisCache.Get]: an absent (or expired) key is [redis.Nil], turned
    into the error "key not found". *)
Definition Get (key : string) : M json.value :=
  redis_call (CacheGet key)
    (fun w =>
       match cache w !! key with
       | Some (v, deadline) =>
           if (now w <? deadline)%Z then (Ok v, w)
           else (Err (errors_New ("key not found: " ++ key)), w)
       | None => (Err (errors_New ("key not found: " ++ key)), w)
       end).

(** [RedisCache.Set], for a value that is a string or a byte slice. *)
Definition Set_ (key : string) (value : json.value) (expiration : Z)
  : M unit :=
  redis_call (CacheSet key value expiration)
    (fun w =>
       (Ok tt, with_cache (<[key := (value, (now w + expiration)%Z)]> (cache w)) w)).

(** [RedisCache.Delete] of one key. *)
Definition Delete (key : string) : M unit :=
  redis_call (CacheDel key)
    (fun w => (Ok tt, with_cache (delete key (cache w)) w)).

End database.

(* ===================================================================== *)
(** ** The MongoDB driver over the documents of the world                 *)
(* ===================================================================== *)

Module mongo.

Import models.
Local Open Scope Z_scope.

Definition int64_wrap (z : Z) : Z := (z + 2^63) mod 2^64 - 2^63.

(** A call of the driver: it fails when the fault list says so. *)
Definition call {A} (op : string) (run : World -> result A * World) : M A :=
  fun w =>
    let '(f, rest) := next_fault (store_faults w) in
    let w := with_store_faults rest w in
    match f with
    | Some msg =>
        let e := DriverError Mongo msg in
        (Err e, emit (StoreCall op (Some e)) w)
    | None =>
        let '(r, w') := run w in
        (r, emit (StoreCall op (match r with Ok _ => None | Err e => Some e end)) w')
    end.

Definition alive (u : User) : bool :=
  match DeletedAt u with None => true | Some _ => false end.

(** The unique indexes on username and email: [d] may stand at position
    [skip] of the collection. *)
Definition clashes (d : User) (others : list User) : bool :=
  existsb (fun o => String.eqb (Username o) (Username d)
                    || String.eqb (Email o) (Email d)) others.

Definition duplicateKey : error :=
  DriverError Mongo "E11000 duplicate key error collection: users".

(** [collection.FindOne(ctx, filter).Decode(&user)]: [None] is
    [mongo.ErrNoDocuments]. *)
Definition FindOne (filter : User -> bool) : M (option User) :=
  call "FindOne" (fun w => (Ok (List.find filter (docs w)), w)).

(** [collection.CountDocuments]. *)
Definition CountDocuments (filter : User -> bool) : M Z :=
  call "CountDocuments"
       (fun w => (Ok (Z.of_nat (List.length (List.filter filter (docs w)))), w)).

(** [collection.InsertOne]: the inserted id. *)
Definition InsertOne (d : User) : M ObjectID :=
  call "InsertOne"
       (fun w =>
          let '(d, w) :=
            if String.eqb (ID d) NilObjectID
            then (set_Base (setb_ID (NewObjectID w (draws w)) (Base d)) d,
                  with_draws (S (draws w)) w)
            else (d, w) in
          if existsb (fun o => String.eqb (ID o) (ID d)) (docs w)
             || (unique_indexes w && clashes d (docs w))
          then (Err duplicateKey, w)
          else (Ok (ID d), with_docs (docs w ++ [d])%list w)).

(** ["$set": updates] on a document: every key that names a field of the
    document replaces it.  [setBSON] is one key. *)
Definition setBSON (key : string) (v : any) (u : User) : User :=
  match v with
  | AString x =>
      if String.eqb key "username" then set_Username x u
      else if String.eqb key "email" then set_Email x u
      else if String.eqb key "first_name" then set_FirstName x u
      else if String.eqb key "last_name" then set_LastName x u
      else if String.eqb key "password" then set_Password x u
      else if String.eqb key "salt" then set_Salt x u
      else if String.eqb key "avatar" then set_Avatar x u
      else if String.eqb key "bio" then set_Bio x u
      else if String.eqb key "location" then set_Location x u
      else if String.eqb key "website" then set_Website x u
      else u
  | ABool x =>
      if String.eqb key "is_active" then set_IsActive x u
      else if String.eqb key "is_verified" then set_IsVerified x u
      else u
  | AInt x =>
      if String.eqb key "login_count" then set_LoginCount x u
      else if String.eqb key "failed_logins" then set_FailedLogins x u
      else u
  | ATime x =>
      if String.eqb key "updated_at" then set_Base (setb_UpdatedAt x (Base u)) u
      else if String.eqb key "created_at" then set_Base (setb_CreatedAt x (Base u)) u
      else if String.eqb key "deleted_at" then set_Base (setb_DeletedAt (Some x) (Base u)) u
      else if String.eqb key "email_verified_at" then set_EmailVerifiedAt (Some x) u
      else if String.eqb key "last_login_at" then set_LastLoginAt (Some x) u
      else if String.eqb key "last_failed_at" then set_LastFailedAt (Some x) u
      else if String.eqb key "date_of_birth" then set_DateOfBirth (Some x) u
      else u
  | ANil =>
      if String.eqb key "email_verified_at" then set_EmailVerifiedAt None u
      else if String.eqb key "last_login_at" then set_LastLoginAt None u
      else if String.eqb key "last_failed_at" then set_LastFailedAt None u
      else if String.eqb key "date_of_birth" then set_DateOfBirth None u
      else u
  end.

(** The BSON names of the fields of a user document. *)
Definition bsonFields : list string :=
  [ "username"; "email"; "first_name"; "last_name"; "password"; "salt";
    "avatar"; "bio"; "location"; "website"; "is_active"; "is_verified";
    "login_count"; "failed_logins"; "updated_at"; "created_at";
    "deleted_at"; "email_verified_at"; "last_login_at"; "last_failed_at";
    "date_of_birth" ].

Definition applySet (updates : gmap string any) (u : User) : User :=
  fold_left (fun u key => match updates !! key with
                          | Some v => setBSON key v u
                          | None => u
                          end)
            bsonFields u.

(** The first document that passes [filter] is replaced by [f] of it;
    [None] when no document passes. *)
Fixpoint updateFirst (filter : User -> bool) (f : User -> User)
         (before l : list User) : option (User * list User * list User) :=
  match l with
  | [] => None
  | d :: r =>
      if filter d then Some (f d, before, r)
      else updateFirst filter f (before ++ [d])%list r
  end.

(** [collection.UpdateOne(ctx, filter, {"$set": updates})]: the matched
    count. *)
Definition UpdateOne (filter : User -> bool) (updates : gmap string any)
  : M Z :=
  call "UpdateOne"
       (fun w =>
          match updateFirst filter (applySet updates) [] (docs w) with
          | None => (Ok 0, w)
          | Some (d, before, after) =>
              if unique_indexes w && clashes d (before ++ after)%list
              then (Err duplicateKey, w)
              else (Ok 1, with_docs (before ++ d :: after)%list w)
          end).

(** The order of two documents on a sort key; a key that is no field
    of the documents leaves them equal. *)
Definition leDoc (key : string) (a b : User) : bool :=
  if String.eqb key "created_at" then CreatedAt a <=? CreatedAt b
  else if String.eqb key "updated_at" then UpdatedAt a <=? UpdatedAt b
  else if String.eqb key "login_count" then LoginCount a <=? LoginCount b
  else if String.eqb key "username" then String.leb (Username a) (Username b)
  else if String.eqb key "email" then String.leb (Email a) (Email b)
  else if String.eqb key "first_name" then String.leb (FirstName a) (FirstName b)
  else if String.eqb key "last_name" then String.leb (LastName a) (LastName b)
  else true.

Fixpoint insertSorted (le : User -> User -> bool) (x : User) (l : list User)
  : list User :=
  match l with
  | [] => [x]
  | y :: r => if le x y then x :: y :: r else y :: insertSorted le x r
  end.

(** The sort stage: ascending for a direction 1, descending for -1;
    documents that are equal on the key keep their natural order. *)
Definition sortDocs (key : string) (direction : Z) (l : list User)
  : list User :=
  let le := if direction <? 0
            then (fun a b => leDoc key b a)
            else (fun a b => leDoc key a b) in
  fold_right (insertSorted le) [] l.

(** [collection.Find] with skip, limit and sort: the documents that the
    cursor it returns is to deliver, in their order.  The server refuses
    a negative skip; a limit of zero is no limit, a negative limit is
    its absolute value. *)
Definition Find (filter : User -> bool) (sortKey : option (string * Z))
           (skip limit : Z) : M (list User) :=
  call "Find"
       (fun w =>
          if skip <? 0
          then (Err (DriverError Mongo "skip value must be non-negative"), w)
          else
            let hits := List.filter filter (docs w) in
            let hits := match sortKey with
                        | Some (k, d) => sortDocs k d hits
                        | None => hits
                        end in
            let hits := skipn (Z.to_nat skip) hits in
            let hits := if limit =? 0 then hits
                        else firstn (Z.to_nat (Z.abs limit)) hits in
            (Ok hits, w)).

Definition count (p : User -> bool) (l : list User) : Z :=
  Z.of_nat (List.length (List.filter p l)).

(** [collection.Aggregate] with the pipeline of [GetUserStats]: the
    documents that the cursor is to deliver, one result document, or none
    on an empty match. *)
Definition AggregateStats : M (list json.value) :=
  call "Aggregate"
       (fun w =>
          let live := List.filter alive (docs w) in
          match live with
          | [] => (Ok [], w)
          | _ =>
              (Ok [ json.Object
                      [ ("_id", json.Null);
                        ("active_users", json.Number (count IsActive live));
                        ("avg_login_count",
                         json.Fraction (fold_right Z.add 0 (List.map LoginCount live))
                                       (Z.of_nat (List.length live)));
                        ("total_users", json.Number (Z.of_nat (List.length live)));
                        ("verified_users", json.Number (count IsVerified live)) ] ],
               w)
          end).

(** [cursor.Next] on a cursor that has a document left to deliver: the
    cursor may have to ask the server for it.  When that fails, [Next]
    returns false and the cursor keeps the error for [cursor.Err]. *)
Definition Next : M unit := call "Next" (fun w => (Ok tt, w)).

(** [cursor.Decode(&v)] of the document [d] the cursor stands on. *)
Definition Decode {A} (d : A) : M A := call "Decode" (fun w => (Ok d, w)).

End mongo.

(* ===================================================================== *)
(** ** Package [repositories]: internal/repositories/user_repository.go   *)
(* ===================================================================== *)

Module repositories.

Import models.
Local Open Scope Z_scope.

Definition notFound : error := errors_New "user not found".

(** [UserRepository.ExistsByUsername]. *)
Definition ExistsByUsername (username : string) : M bool :=
  count <- wrap "failed to check username existence"
             (mongo.CountDocuments
                (fun d => String.eqb (Username d) username && mongo.alive d)) ;;
  ret (0 <? count).

(** [UserRepository.ExistsByEmail]. *)
Definition ExistsByEmail (email : string) : M bool :=
  count <- wrap "failed to check email existence"
             (mongo.CountDocuments
                (fun d => String.eqb (Email d) email && mongo.alive d)) ;;
  ret (0 <? count).

(** [UserRepository.Create]: the user with the inserted id. *)
Definition Create (user : User) : M User :=
  exists_ <- wrap "failed to check username existence"
               (ExistsByUsername (Username user)) ;;
  if exists_ : bool then fail (errors_New "username already exists") else
  exists_ <- wrap "failed to check email existence"
               (ExistsByEmail (Email user)) ;;
  if exists_ : bool then fail (errors_New "email already exists") else
  oid <- wrap "failed to create user" (mongo.InsertOne user) ;;
  ret (set_Base (setb_ID oid (Base user)) user).

Definition parseID (id : string) : M ObjectID :=
  match ObjectIDFromHex id with
  | Ok objectID => ret objectID
  | Err err => fail (Wrapf "invalid user ID format" err)
  end.

(** [err = FindOne(...).Decode(&user)] and the two cases of [err]:
    [mongo.ErrNoDocuments] becomes "user not found", any other error is
    wrapped. *)
Definition decodeOne (msg : string) (found : M (option User)) : M User :=
  r <- wrap msg found ;;
  match r with
  | Some user => ret user
  | None => fail notFound
  end.

(** [UserRepository.GetByID]. *)
Definition GetByID (id : string) : M User :=
  objectID <- parseID id ;;
  decodeOne "failed to get user by ID"
    (mongo.FindOne (fun d => String.eqb (ID d) objectID && mongo.alive d)).

(** [UserRepository.GetByUsername]. *)
Definition GetByUsername (username : string) : M User :=
  decodeOne "failed to get user by username"
    (mongo.FindOne (fun d => String.eqb (Username d) username && mongo.alive d)).

(** [UserRepository.GetByEmail]. *)
Definition GetByEmail (email : string) : M User :=
  decodeOne "failed to get user by email"
    (mongo.FindOne (fun d => String.eqb (Email d) email && mongo.alive d)).

(** [UserRepository.Update]. *)
Definition Update (id : string) (updates : gmap string any) : M unit :=
  objectID <- parseID id ;;
  t <- gets now ;;
  let updates := <["updated_at" := ATime t]> updates in
  matched <- wrap "failed to update user"
               (mongo.UpdateOne
                  (fun d => String.eqb (ID d) objectID && mongo.alive d)
                  updates) ;;
  if matched =? 0 then fail notFound else ret tt.

(** [UserRepository.SoftDelete]. *)
Definition SoftDelete (id : string) : M unit :=
  t <- gets now ;;
  Update id (<["is_active" := ABool false]> (<["deleted_at" := ATime t]> ∅)).

(** [UserRepository.MarkAsVerified]. *)
Definition MarkAsVerified (id : string) : M unit :=
  t <- gets now ;;
  Update id (<["email_verified_at" := ATime t]> (<["is_verified" := ABool true]> ∅)).

(** The four "$regex" clauses, or-ed: [None] when the store rejects the
    pattern. *)
Definition searchClause (w : World) (pattern : string)
  : option (User -> bool) :=
  match regex w pattern with
  | Some m => Some (fun d => m (Username d) || m (Email d)
                             || m (FirstName d) || m (LastName d))
  | None => None
  end.

Definition badRegex : error :=
  DriverError Mongo "Regular expression is invalid".

(** The filter that [GetAll] builds from the parameters. *)
Definition listFilter (w : World) (params : UsersQueryParams)
  : option (User -> bool) :=
  let bySearch :=
    if String.eqb (Search params) "" then Some (fun _ => true)
    else searchClause w (Search params) in
  match bySearch with
  | None => None
  | Some bySearch =>
      Some (fun d =>
              mongo.alive d
              && bySearch d
              && (String.eqb (Role params) ""
                  || existsb (String.eqb (Role params)) (Roles d))
              && match query_IsActive params with
                 | Some b => Bool.eqb (IsActive d) b
                 | None => true
                 end)
  end.

(** A driver call whose filter holds a pattern: the store answers a
    rejected pattern with an error. *)
Definition withFilter {A} (op : string) (filter : option (User -> bool))
           (k : (User -> bool) -> M A) : M A :=
  match filter with
  | Some f => k f
  | None => mongo.call op (fun w => (Err badRegex, w))
  end.

(** The loop [for cursor.Next(ctx) { ... cursor.Decode(&user) ...
    users = append(users, &user) }] over a cursor that has [pending] to
    deliver: the users appended when [Next] returns false, and what
    [cursor.Err()] holds then.  The loop ends when the cursor is
    exhausted, or when [Next] fails; an error of [Decode] leaves the
    function. *)
Fixpoint decodeAll (pending : list User) (users : list User)
  : M (list User * option error) :=
  match pending with
  | [] => ret (users, None)
  | d :: rest =>
      next <- try mongo.Next ;;
      match next with
      | Err err => ret (users, Some err)
      | Ok _ =>
          user <- wrap "failed to decode user" (mongo.Decode d) ;;
          decodeAll rest (users ++ [user])%list
      end
  end.

(** [UserRepository.GetAll]: the parameters after [SetDefaults], the
    page and the total. *)
Definition GetAll (params : UsersQueryParams)
  : M (UsersQueryParams * list User * Z) :=
  let params := SetDefaults params in
  filter <- gets (fun w => listFilter w params) ;;
  total <- wrap "failed to count users"
             (withFilter "CountDocuments" filter mongo.CountDocuments) ;;
  let sortDirection := if String.eqb (SortDir params) "desc" then -1 else 1 in
  let skip := mongo.int64_wrap ((Page params - 1) * Limit params) in
  cursor <- wrap "failed to find users"
              (withFilter "Find" filter
                 (fun f => mongo.Find f (Some (SortBy params, sortDirection))
                                      skip (Limit params))) ;;
  res <- decodeAll cursor [] ;;
  match snd res with
  | Some err => fail (Wrapf "cursor error" err)
  | None => ret (params, fst res, total)
  end.

(** [UserRepository.Search]: after the loop it returns the users without
    a look at [cursor.Err()]. *)
Definition Search (query : string) (limit : Z) : M (list User) :=
  filter <- gets (fun w => match searchClause w query with
                           | Some f => Some (fun d => mongo.alive d && f d)
                           | None => None
                           end) ;;
  cursor <- wrap "failed to search users"
              (withFilter "Find" filter (fun f => mongo.Find f None 0 limit)) ;;
  res <- decodeAll cursor [] ;;
  ret (fst res).

(** [UserRepository.GetUserStats]: [result] stays nil when [Next]
    returns false, be the cursor empty or failed. *)
Definition GetUserStats : M json.value :=
  cursor <- wrap "failed to get user stats" mongo.AggregateStats ;;
  match cursor with
  | [] => ret json.Null
  | doc :: _ =>
      next <- try mongo.Next ;;
      match next with
      | Err _ => ret json.Null
      | Ok _ => wrap "failed to decode stats" (mongo.Decode doc)
      end
  end.

End repositories.

(* ===================================================================== *)
(** ** Package [users]: internal/modules/users/service.go                 *)
(* ===================================================================== *)

Module users.

Import models encoding_json.
Local Open Scope Z_scope.

(** [%d] of [fmt.Sprintf]. *)
Definition itoa (z : Z) : string := NilZero.string_of_int (Z.to_int z).

(** [strings.Join]. *)
Definition Join (l : list string) (sep : string) : string :=
  String.concat sep l.

(** *** Cache key constants *)

Definition CacheKeyUser (id : string) : string := "user:id:" ++ id.
Definition CacheKeyUserByEmail (email : string) : string := "user:email:" ++ email.
Definition CacheKeyUserUsername (username : string) : string :=
  "user:username:" ++ username.
Definition CacheKeyUserStats : string := "user:stats".
Definition CacheKeyUserList (hash : string) : string := "user:list:" ++ hash.
Definition CacheKeyUserExists (field value : string) : string :=
  "user:exists:" ++ field ++ ":" ++ value.

Definition Minute : Z := 60 * 1000000000.
Definition UserCacheExpiration : Z := 15 * Minute.
Definition UserListCacheExpiration : Z := 5 * Minute.
Definition UserStatsCacheExpiration : Z := 30 * Minute.
Definition UserExistsCacheExpiration : Z := 10 * Minute.

(** *** Helper methods for caching *)

(** [UserService.getUserFromCache]. *)
Definition getUserFromCache (key : string) : M User :=
  cached <- database.Get key ;;
  match Unmarshal_User cached zeroUser with
  | (_, Some err) => fail err
  | (user, None) => ret user
  end.

(** [UserService.cacheUser]: a user that [json.Marshal] refuses is
    logged and not cached. *)
Definition cacheUser (user : User) : M unit :=
  match Marshal (Marshal_User user) with
  | Err err => ret tt
  | Ok userJSON =>
      let keys := [ CacheKeyUser (GetIDString user);
                    CacheKeyUserByEmail (Email user);
                    CacheKeyUserUsername (Username user) ] in
      forEach keys
        (fun key => _ <- try (database.Set_ key userJSON UserCacheExpiration) ;;
                    ret tt)
  end.

(** [UserService.invalidateUserCaches]. *)
Definition invalidateUserCaches (user : User) : M unit :=
  let keys := [ CacheKeyUser (GetIDString user);
                CacheKeyUserByEmail (Email user);
                CacheKeyUserUsername (Username user);
                CacheKeyUserExists "email" (Email user);
                CacheKeyUserExists "username" (Username user) ] in
  forEach keys (fun key => _ <- try (database.Delete key) ;; ret tt).

(** [UserService.invalidateUserListCaches]: the body of the source
    computes the pattern "user:list:*" and writes it to the debug log;
    it makes no call to the cache. *)
Definition invalidateUserListCaches : M unit :=
  let pattern := "user:list:*" in
  ret tt.

(** [UserService.invalidateUserStats]. *)
Definition invalidateUserStats : M unit :=
  _ <- try (database.Delete CacheKeyUserStats) ;; ret tt.

(** [UserService.checkUserExists]. *)
Definition checkUserExists (field value : string) : M bool :=
  let cacheKey := CacheKeyUserExists field value in
  r <- try (database.Get cacheKey) ;;
  match r with
  | Ok cached =>
      ret (match cached with json.Bool true => true | _ => false end)
  | Err _ =>
      exists_ <-
        (if String.eqb field "email" then repositories.ExistsByEmail value
         else if String.eqb field "username"
              then repositories.ExistsByUsername value
              else fail (errors_New ("unsupported field: " ++ field))) ;;
      _ <- try (database.Set_ cacheKey (json.Bool exists_)
                              UserExistsCacheExpiration) ;;
      ret exists_
  end.

(** [UserService.getUserListFromCache]. *)
Definition getUserListFromCache (key : string) : M UserListResponse :=
  cached <- database.Get key ;;
  match Unmarshal_UserListResponse cached with
  | (_, Some err) => fail err
  | (result, None) => ret result
  end.

(** [UserService.cacheUserList]. *)
Definition cacheUserList (key : string) (l : UserListResponse) : M unit :=
  match Marshal (Marshal_UserListResponse l) with
  | Err err => ret tt
  | Ok listJSON =>
      _ <- try (database.Set_ key listJSON UserListCacheExpiration) ;; ret tt
  end.

(** [UserService.isCacheableQuery]. *)
Definition isCacheableQuery (params : UsersQueryParams) : bool :=
  String.eqb (Search params) "" && String.eqb (Role params) ""
  && match query_IsActive params with None => true | Some _ => false end.

(** [UserService.buildUserListCacheKey]. *)
Definition buildUserListCacheKey (params : UsersQueryParams) : string :=
  CacheKeyUserList
    ("page:" ++ itoa (Page params) ++ ":limit:" ++ itoa (Limit params)
     ++ ":sort:" ++ SortBy params ++ ":" ++ SortDir params).

(** The user that [CreateUser] builds: it draws the instant, an
    identifier and 32 random bytes from the world. *)
Definition newUser (username email password : string) : M User :=
  w <- gets (fun w => w) ;;
  modify (with_draws (S (draws w))) ;;;
  match NewUser (now w) (NewObjectID w (draws w)) (randomBytes w (draws w))
                username email password with
  | Ok u => ret u
  | Err e => fail e
  end.

(** *** The operations of the service *)

(** [UserService.CreateUser]. *)
Definition CreateUser (req : CreateUserRequest) : M User :=
  let '(req, errors) := CreateUserRequest_Validate req in
  if (0 <? List.length errors)%nat
  then fail (errors_New ("validation failed: " ++ Join errors ", "))
  else
  exists_ <- wrap "failed to validate username"
               (checkUserExists "username" (create_Username req)) ;;
  if exists_ : bool
  then fail (errors_New ("username '" ++ create_Username req ++ "' already exists"))
  else
  exists_ <- wrap "failed to validate email"
               (checkUserExists "email" (create_Email req)) ;;
  if exists_ : bool
  then fail (errors_New ("email '" ++ create_Email req ++ "' already exists"))
  else
  user <- wrap "failed to create user"
            (newUser (create_Username req) (create_Email req)
                     (create_Password req)) ;;
  let user := set_LastName (create_LastName req)
                (set_FirstName (create_FirstName req) user) in
  user <- wrap "failed to save user" (repositories.Create user) ;;
  cacheUser user ;;;
  invalidateUserListCaches ;;;
  invalidateUserStats ;;;
  ret user.

(** The three reads share one shape: the cache first, then the store,
    then [cacheUser]. *)
Definition cachedRead (cacheKey : string) (fromStore : M User) : M User :=
  r <- try (getUserFromCache cacheKey) ;;
  match r with
  | Ok cached => ret cached
  | Err _ =>
      user <- fromStore ;;
      cacheUser user ;;;
      ret user
  end.

(** [UserService.GetUserByID]. *)
Definition GetUserByID (id : string) : M User :=
  cachedRead (CacheKeyUser id) (repositories.GetByID id).

(** [UserService.GetUserByEmail]. *)
Definition GetUserByEmail (email : string) : M User :=
  cachedRead (CacheKeyUserByEmail email) (repositories.GetByEmail email).

(** [UserService.GetUserByUsername]. *)
Definition GetUserByUsername (username : string) : M User :=
  cachedRead (CacheKeyUserUsername username)
             (repositories.GetByUsername username).

(** The uniqueness check of [UpdateUser] for one of the two keys. *)
Definition checkUnique (updates : gmap string any) (field : string)
           (current : string) : M unit :=
  match asString updates field with
  | Some newValue =>
      if negb (String.eqb newValue current) then
        exists_ <- wrap ("failed to validate " ++ field)
                     (checkUserExists field newValue) ;;
        if exists_ : bool
        then fail (errors_New (field ++ " '" ++ newValue ++ "' already exists"))
        else ret tt
      else ret tt
  | None => ret tt
  end.

(** [UserService.UpdateUser]. *)
Definition UpdateUser (id : string) (req : UpdateUserRequest) : M User :=
  let '(req, errors) := UpdateUserRequest_Validate req in
  if (0 <? List.length errors)%nat
  then fail (errors_New ("validation failed: " ++ Join errors ", "))
  else
  user <- GetUserByID id ;;
  let updates := ToMap req in
  checkUnique updates "username" (Username user) ;;;
  checkUnique updates "email" (Email user) ;;;
  wrap "failed to update user" (repositories.Update id updates) ;;;
  invalidateUserCaches user ;;;
  invalidateUserListCaches ;;;
  updatedUser <- wrap "failed to retrieve updated user"
                   (repositories.GetByID id) ;;
  cacheUser updatedUser ;;;
  ret updatedUser.

(** [UserService.DeleteUser]. *)
Definition DeleteUser (id : string) : M unit :=
  user <- GetUserByID id ;;
  wrap "failed to delete user" (repositories.SoftDelete id) ;;;
  invalidateUserCaches user ;;;
  invalidateUserListCaches ;;;
  invalidateUserStats ;;;
  ret tt.

(** The conversion of a cached [UserResponse] back to a [User]: through
    JSON, the errors dropped. *)
Definition userOfResponse (userResp : UserResponse) : User :=
  match Marshal (Marshal_UserResponse userResp) with
  | Ok userJSON => fst (Unmarshal_User userJSON zeroUser)
  | Err _ => zeroUser
  end.

(** [UserService.GetUsers]. *)
Definition GetUsers (params : UsersQueryParams) : M (list User * Z) :=
  let params := SetDefaults params in
  let fromStore : M (list User * Z) :=
    res <- wrap "failed to get users" (repositories.GetAll params) ;;
    let '(params, users, total) := res in
    (if isCacheableQuery params
     then cacheUserList (buildUserListCacheKey params)
            (mkUserListResponse (List.map ToUserResponse users) total
                                (Page params) (Limit params))
     else ret tt) ;;;
    ret (users, total) in
  if isCacheableQuery params
  then
    r <- try (getUserListFromCache (buildUserListCacheKey params)) ;;
    match r with
    | Ok cached => ret (List.map userOfResponse (Users cached), Total cached)
    | Err _ => fromStore
    end
  else fromStore.

(** [UserService.SearchUsers]. *)
Definition SearchUsers (query : string) (limit : Z) : M (list User) :=
  if String.eqb query "" then ret []
  else wrap "failed to search users" (repositories.Search query limit).

(** [UserService.ChangePassword]. *)
Definition ChangePassword (id : string) (req : ChangePasswordRequest)
  : M unit :=
  let errors := ChangePasswordRequest_Validate req in
  if (0 <? List.length errors)%nat
  then fail (errors_New ("validation failed: " ++ Join errors ", "))
  else
  user <- GetUserByID id ;;
  if negb (CheckPassword user (CurrentPassword req))
  then fail (errors_New "current password is incorrect")
  else
  w <- gets (fun w => w) ;;
  modify (with_draws (S (draws w))) ;;;
  match SetPassword (now w) (randomBytes w (draws w)) user (NewPassword req) with
  | (_, Some err) => fail (Wrapf "failed to set new password" err)
  | (user, None) =>
      let updates := <["salt" := AString (Salt user)]>
                       (<["password" := AString (Password user)]> ∅) in
      wrap "failed to update password" (repositories.Update id updates) ;;;
      invalidateUserCaches user ;;;
      ret tt
  end.

(** [UserService.VerifyUser]. *)
Definition VerifyUser (id : string) : M unit :=
  user <- GetUserByID id ;;
  if IsVerified user then fail (errors_New "user is already verified")
  else
  wrap "failed to verify user" (repositories.MarkAsVerified id) ;;;
  invalidateUserCaches user ;;;
  invalidateUserStats ;;;
  ret tt.

(** [UserService.GetUserStats]. *)
Definition GetUserStats : M json.value :=
  let cacheKey := CacheKeyUserStats in
  r <- try (database.Get cacheKey) ;;
  let hit := match r with
             | Ok cached =>
                 match Unmarshal_map cached with
                 | (stats, None) => Some stats
                 | (_, Some _) => None
                 end
             | Err _ => None
             end in
  match hit with
  | Some stats => ret stats
  | None =>
      stats <- wrap "failed to get user stats" repositories.GetUserStats ;;
      match Marshal stats with
      | Ok statsJSON =>
          _ <- try (database.Set_ cacheKey statsJSON UserStatsCacheExpiration) ;;
          ret tt
      | Err _ => ret tt
      end ;;;
      ret stats
  end.

End users.

(* ===================================================================== *)
(** ** Vocabulary of the specification                                    *)
(* ===================================================================== *)

Module spec.

Import strings regexp models.

(** The four character classes the specification counts for the
    credential hashing helper.  A symbol is a printable ASCII byte that
    is neither a letter nor a digit nor the space. *)
Definition isSymbol (c : ascii) : bool :=
  byte_in "!" "~" c && negb (isLetter c) && negb (isDigit c).

(** The text has a byte of the class: the unanchored patterns "[A-Z]",
    "[a-z]" and "\d" of the validators. *)
Definition hasClass (p : ascii -> bool) (password : string) : bool :=
  search (Class p) password.

Definition classCount (password : string) : nat :=
  (if search (Class isUpper) password then 1 else 0)
  + (if search (Class isLower) password then 1 else 0)
  + (if search (Class isDigit) password then 1 else 0)
  + (if search (Class isSymbol) password then 1 else 0).

(** A policy is a set of accepted passwords; [stricter p q]: [p] accepts
    only what [q] accepts, and rejects something that [q] accepts. *)
Definition accepts (validate : string -> option error) (password : string)
  : Prop := validate password = None.

Definition stricter (p q : string -> option error) : Prop :=
  (forall password, accepts p password -> accepts q password)
  /\ (exists password, accepts q password /\ ~ accepts p password).

(** Two texts that differ only in the case of their ASCII letters. *)
Inductive sameFold : string -> string -> Prop :=
| fold_nil : sameFold EmptyString EmptyString
| fold_cons a b s t :
    toLowerByte a = toLowerByte b -> sameFold s t ->
    sameFold (String a s) (String b t).

(** Two inputs that differ only in letter case and in the white space
    around them. *)
Definition sameModuloCaseAndSpace (a b : string) : Prop :=
  sameFold (TrimSpace a) (TrimSpace b).

(** The page of a list query, 1-indexed: the hits in sort order,
    [(page - 1) * limit] of them skipped, [limit] of them kept. *)
Definition pageOf (filter : User -> bool) (q : UsersQueryParams)
           (l : list User) : list User :=
  firstn (Z.to_nat (Limit q))
    (skipn (Z.to_nat ((Page q - 1) * Limit q))
       (mongo.sortDocs (SortBy q)
          (if String.eqb (SortDir q) "desc" then (-1)%Z else 1%Z)
          (List.filter filter l))).

(** *** What an operation does to the two backends *)

(** An error that comes from the cache path: an error of the Redis
    client, the "key not found" of [RedisCache.Get], or the failure to
    decode a cached document. *)
Definition from_cache (e : error) : bool :=
  match root e with
  | DriverError Redis _ => true
  | DriverError Mongo _ => false
  | errors_New m =>
      HasPrefix m "key not found: "
      || String.eqb m (Error encoding_json.typeError)
  | Wrapf _ _ => false
  end.

(** The operation never returns an error that comes from the cache. *)
Definition NoCacheErr {A} (m : M A) : Prop :=
  forall w e w', m w = (Err e, w') -> from_cache e = false.

(** The calls the operation makes all satisfy [P]. *)
Definition Emits (P : Event -> Prop) {A} (m : M A) : Prop :=
  forall w r w', m w = (r, w') ->
    exists evs, trace w' = (trace w ++ evs)%list /\ Forall P evs.

Definition cacheEvent (ev : Event) : Prop :=
  match ev with StoreCall _ _ => False | _ => True end.

Definition notDelete (ev : Event) : Prop :=
  match ev with CacheDel _ _ => False | _ => True end.

(** Whenever a call to the store fails during the operation, the
    operation returns an error, and that error wraps the one of the
    store. *)
Definition PropagatesStore {A} (m : M A) : Prop :=
  forall w r w', m w = (r, w') ->
    exists evs, trace w' = (trace w ++ evs)%list
      /\ forall op e, In (StoreCall op (Some e)) evs ->
                      exists e', r = Err e' /\ root e' = e.

(** A healthy cache stays healthy. *)
Definition KeepsCacheHealthy {A} (m : M A) : Prop :=
  forall w r w', m w = (r, w') -> cache_faults w = [] -> cache_faults w' = [].

(** The footprint of an operation: it keeps a healthy cache healthy,
    every call it makes satisfies [P], and a failed call to the store
    makes it return an error that wraps the one of the store. *)
Definition Foot (P : Event -> Prop) {A} (m : M A) : Prop :=
  forall w r w', m w = (r, w') ->
    (cache_faults w = [] -> cache_faults w' = [])
    /\ exists evs, trace w' = (trace w ++ evs)%list
         /\ Forall P evs
         /\ forall op e, In (StoreCall op (Some e)) evs ->
                         exists e', failure r = Some e' /\ root e' = e.

(** The body of a driver call leaves the trace and the fault list of
    the cache alone. *)
Definition quiet {A} (run : World -> result A * World) : Prop :=
  forall w, trace (snd (run w)) = trace w
            /\ cache_faults (snd (run w)) = cache_faults w.

(** The two halves of the error policy of the service layer. *)
Definition ErrorPolicy {A} (m : M A) : Prop :=
  NoCacheErr m /\ PropagatesStore m.

(** *** States of the cache and of the store *)

(** A read of [key] misses: the key is absent, or expired, or its
    document does not decode into a user. *)
Definition cache_miss (w : World) (key : string) : Prop :=
  match cache w !! key with
  | None => True
  | Some (v, deadline) =>
      (deadline <= now w)%Z
      \/ snd (encoding_json.Unmarshal_User v zeroUser) <> None
  end.

(** The entry that [cacheUser] writes for a user. *)
Definition userEntry (w : World) (u : User) : json.value * Time :=
  (encoding_json.Marshal_User u, (now w + users.UserCacheExpiration)%Z).

(** The three cache namespace keys of a user. *)
Definition keyID (u : User) : string := users.CacheKeyUser (GetIDString u).
Definition keyEmail (u : User) : string := users.CacheKeyUserByEmail (Email u).
Definition keyUsername (u : User) : string :=
  users.CacheKeyUserUsername (Username u).

(** The cache after [cacheUser]. *)
Definition warmed (w : World) (u : User)
  : gmap string (json.value * Time) :=
  <[keyUsername u := userEntry w u]>
    (<[keyEmail u := userEntry w u]>
       (<[keyID u := userEntry w u]> (cache w))).

(** The calls of [cacheUser], all successful. *)
Definition warmCalls (u : User) : list Event :=
  List.map (fun key => CacheSet key (encoding_json.Marshal_User u)
                                users.UserCacheExpiration None)
           [keyID u; keyEmail u; keyUsername u].

(** The five keys that [invalidateUserCaches] deletes. *)
Definition invalidatedKeys (u : User) : list string :=
  [ keyID u; keyEmail u; keyUsername u;
    users.CacheKeyUserExists "email" (Email u);
    users.CacheKeyUserExists "username" (Username u) ].

(** The filters of the three reads of the repository. *)
Definition byID (oid : ObjectID) (d : User) : bool :=
  String.eqb (ID d) oid && mongo.alive d.
Definition byEmail (email : string) (d : User) : bool :=
  String.eqb (Email d) email && mongo.alive d.
Definition byUsername (username : string) (d : User) : bool :=
  String.eqb (Username d) username && mongo.alive d.

(** The cache and the calls after [cacheUser]: the three entries when
    [json.Marshal] writes the user, nothing when it refuses. *)
Definition afterCacheUser (w : World) (u : User)
  : gmap string (json.value * Time) :=
  if encoding_json.supported (encoding_json.Marshal_User u)
  then warmed w u else cache w.

Definition cacheUserCalls (u : User) : list Event :=
  if encoding_json.supported (encoding_json.Marshal_User u)
  then warmCalls u else [].





(** The collection with the first document that passes [filter]
    replaced by [f] of it, and the collection without that document. *)
Fixpoint replaceFirst (filter : User -> bool) (f : User -> User)
         (l : list User) : list User :=
  match l with
  | [] => []
  | d :: r => if filter d then f d :: r else d :: replaceFirst filter f r
  end.

Fixpoint others (filter : User -> bool) (l : list User) : list User :=
  match l with
  | [] => []
  | d :: r => if filter d then r else d :: others filter r
  end.

(** The unique indexes, when they exist, are no obstacle to an update
    of [u] that keeps its username and email: no other document has
    them. *)
Definition uniqueAmongOthers (w : World) (oid : ObjectID) (u : User)
  : Prop :=
  unique_indexes w = true ->
  mongo.clashes u (others (byID oid) (docs w)) = false.

(** The document of [u] after [MarkAsVerified] at instant [t]. *)
Definition verifiedAt (t : Time) (u : User) : User :=
  set_Base (setb_UpdatedAt t (Base u))
           (set_EmailVerifiedAt (Some t) (set_IsVerified true u)).

(** The cache holds nothing that would hide the state of the store from
    [VerifyUser id]: the key of [id] misses, or it holds an unverified
    user with that id. *)
Definition verifyReady (w : World) (id : string) : Prop :=
  cache_miss w (users.CacheKeyUser id)
  \/ exists v deadline c,
       cache w !! users.CacheKeyUser id = Some (v, deadline)
       /\ (now w < deadline)%Z
       /\ encoding_json.Unmarshal_User v zeroUser = (c, None)
       /\ IsVerified c = false
       /\ GetIDString c = id.

(** The cache without the given keys, deleted one after the other, and
    the delete calls, all successful. *)
Definition purged (keys : list string)
           (c : gmap string (json.value * Time))
  : gmap string (json.value * Time) :=
  fold_left (fun c k => delete k c) keys c.

Definition purgeCalls (keys : list string) : list Event :=
  List.map (fun k => CacheDel k None) keys.

(** Everything of the world but the documents, the cache and the
    trace. *)
Definition sameAmbient (w w' : World) : Prop :=
  unique_indexes w' = unique_indexes w /\ regex w' = regex w
  /\ now w' = now w /\ NewObjectID w' = NewObjectID w
  /\ rand_Read w' = rand_Read w /\ draws w' = draws w
  /\ store_faults w' = store_faults w /\ cache_faults w' = cache_faults w.

(** From [w] to [w'] the calls [evs] were made, and nothing else of
    the ambient world changed. *)
Definition frame (w w' : World) (evs : list Event) : Prop :=
  trace w' = (trace w ++ evs)%list /\ sameAmbient w w'.

(** The delete calls among the events. *)
Definition deletedKeys (evs : list Event) : list string :=
  flat_map (fun ev => match ev with CacheDel k _ => [k] | _ => [] end) evs.

(** The bytes the validators let through. *)
Definition plainByte (c : ascii) : bool :=
  wordByte c || localByte c || domainByte c || Ascii.eqb c "@".

(** A pattern whose classes do not tell the two cases of a letter apart
    does not tell two such texts apart. *)
Fixpoint caseBlind (r : re) : Prop :=
  match r with
  | Class p => forall c, p (toLowerByte c) = p c
  | Cat a b | Alt a b => caseBlind a /\ caseBlind b
  | Star a => caseBlind a
  | Void | Eps => True
  end.

(** Every byte of a matched text is in [q] when every class of the
    pattern is within [q]. *)
Fixpoint classesWithin (q : ascii -> bool) (r : re) : Prop :=
  match r with
  | Class p => forall c, p c = true -> q c = true
  | Cat a b | Alt a b => classesWithin q a /\ classesWithin q b
  | Star a => classesWithin q a
  | Void | Eps => True
  end.

(** The eight words of a chaining value are 32-bit words. *)
Definition wf_state (s : sha256.state) : Prop :=
  Forall (fun x => (0 <= x < 2^32)%Z) (sha256.state_words s).

(** The eight words as one number below 2^256. *)
Definition pack (s : sha256.state) : Z :=
  fold_left (fun acc x => (acc * 2^32 + x)%Z) (sha256.state_words s) 0%Z.

(** [n] hexadecimal digits of a number, the least significant first. *)
Fixpoint enc (n : nat) (i : Z) : string :=
  match n with
  | O => EmptyString
  | S n' => String (hex.digit (Z.to_N (i mod 16))) (enc n' (i / 16))
  end.

(** A family of valid passwords, one for every number. *)
Definition cand (i : Z) : string := "Aa0" ++ enc 65 i.

(** The second half of the testable property on [checkPassword], as
    the specification words it: with any other password, false. *)
Definition C3_as_stated : Prop :=
  forall now oid bytes username email password u,
    String.length bytes = 32%nat ->
    NewUser now oid (Ok bytes) username email password = Ok u ->
    forall other, other <> password -> CheckPassword u other = false.

(** The operation leaves the documents of the store alone. *)
Definition KeepsDocs {A} (m : M A) : Prop :=
  forall w, docs (snd (m w)) = docs w.

(** No two users that are not deleted share a username or an email. *)
Definition distinctUsers (l : list User) : Prop :=
  List.NoDup (List.map Username (List.filter mongo.alive l))
  /\ List.NoDup (List.map Email (List.filter mongo.alive l)).

(** The outcome of an operation that inserts a user: on success the
    collection [l] has the returned user at its end, and no user of [l]
    that is not deleted has its username or its email; on an error the
    collection is as it was. *)
Definition insertsOne (l : list User) (r : result User) (l' : list User)
  : Prop :=
  match r with
  | Ok u =>
      l' = (l ++ [u])%list
      /\ forall d, In d l -> mongo.alive d = true ->
           Username d <> Username u /\ Email d <> Email u
  | Err _ => l' = l
  end.

(** The document of [u] after [SoftDelete] at instant [t]. *)
Definition deletedAt (t : Time) (u : User) : User :=
  set_Base (setb_DeletedAt (Some t) (setb_UpdatedAt t (Base u)))
           (set_IsActive false u).

(** The cache holds no other user under the key of [id]: the key
    misses, or it holds a user with that id. *)
Definition holdsNoOther (w : World) (id : string) : Prop :=
  cache_miss w (users.CacheKeyUser id)
  \/ exists v deadline c,
       cache w !! users.CacheKeyUser id = Some (v, deadline)
       /\ (now w < deadline)%Z
       /\ encoding_json.Unmarshal_User v zeroUser = (c, None)
       /\ GetIDString c = id.

End spec.

(* ===================================================================== *)
(** ** Sample worlds, for the concrete runs                               *)
(* ===================================================================== *)

Module sample.

Import models.
Local Open Scope Z_scope.

(** Identifiers 00..01, 00..02, ... *)
Definition oid_of (n : nat) : ObjectID :=
  string_of_list_ascii
    (List.repeat "000"%char 11 ++ [ascii_of_nat (S n)])%list.

Definition oid1 : ObjectID := oid_of 0.

(** Thirty-two bytes of the random source. *)
Definition entropy : string := "0123456789abcdef0123456789abcdef".

(** An empty store and an empty cache, both healthy, at instant 1000;
    the store accepts no search pattern. *)
Definition empty : World :=
  mkWorld [] true (fun _ => None) ∅ 1000 oid_of (fun _ => Some entropy)
          0 [] [] [].

Definition requestAlice : CreateUserRequest :=
  mkCreateUserRequest " Alice_1 " "Alice@Example.com" "Passw0rdX" "Al" "Ice".

Definition defaultQuery : UsersQueryParams :=
  mkUsersQueryParams 0 0 "" "" None "" "".

(** The world after [CreateUser requestAlice] on [empty]. *)
Definition withAlice : World := snd (users.CreateUser requestAlice empty).

(** Alice as the store holds her. *)
Definition alice : User :=
  match docs withAlice with
  | u :: _ => u
  | [] => zeroUser
  end.

Definition aliceID : string := GetIDString alice.

(** The same store behind a cache that has lost every key. *)
Definition cold : World := with_cache ∅ withAlice.



(** The store of [withAlice] with a pattern engine for literal
    patterns, case insensitive, behind an empty cache. *)
Definition literalEngine (pattern : string) : option (string -> bool) :=
  Some (fun text => regexp.search (regexp.Str (strings.ToLower pattern))
                                  (strings.ToLower text)).

Definition searchable : World :=
  mkWorld (docs withAlice) true literalEngine ∅ 1000 oid_of
          (fun _ => Some entropy) (draws withAlice) [] [] [].

(** A partial update that names the email only. *)
Definition emailChange : UpdateUserRequest :=
  mkUpdateUserRequest None (Some "new@example.com") None None None None None.

(** A second user, created after Alice, and her world. *)
Definition requestBob : CreateUserRequest :=
  mkCreateUserRequest "bob_1" "bob@example.com" "Passw0rdY" "Bo" "B".

Definition withBob : World := snd (users.CreateUser requestBob withAlice).

Definition bobID : string :=
  match docs withBob with
  | _ :: u :: _ => GetIDString u
  | _ => EmptyString
  end.

(** The world when [EnsureIndexes] failed at start-up. *)
Definition withoutIndexes (w : World) : World :=
  mkWorld (docs w) false (regex w) (cache w) (now w) (NewObjectID w)
          (rand_Read w) (draws w) (store_faults w) (cache_faults w) (trace w).

(** Partial updates that name the username only. *)
Definition takeBob : UpdateUserRequest :=
  mkUpdateUserRequest (Some "bob_1") None None None None None None.

Definition takeAlice : UpdateUserRequest :=
  mkUpdateUserRequest (Some "Alice_1") None None None None None None.

End sample.

(* ===================================================================== *)
(** * Properties                                                          *)
(* ===================================================================== *)

Example TrimSpace_ex1 : strings.TrimSpace "  Bob_1 	" = "Bob_1".
Proof. reflexivity. Qed.

Example sha256_abc :
  hex.EncodeToString (sha256.Sum256 "abc")
  = "ba7816bf8f01cfea414140de5dae2223b00361a396177a9cb410ff61f20015ad".
Proof. vm_compute. reflexivity. Qed.

Example sha256_empty :
  hex.EncodeToString (sha256.Sum256 "")
  = "e3b0c44298fc1c149afbf4c8996fb92427ae41e4649b934ca495991b7852b855".
Proof. vm_compute. reflexivity. Qed.

Example sha256_two_blocks :
  hex.EncodeToString
    (sha256.Sum256 "abcdbcdecdefdefgefghfghighijhijkijkljklmklmnlmnomnopnopq")
  = "248d6a61d20638b8e5c026930c3e6039a33ce45964ff2167f6ecedd419db06c1".
Proof. vm_compute. reflexivity. Qed.

(* ===================================================================== *)
(** ** The matcher of package regexp is the relation [matches]            *)
(* ===================================================================== *)

Section RegexpFacts.

Import regexp.

Lemma append_cons c (s t : string) : String c s ++ t = String c (s ++ t).
Proof. reflexivity. Qed.

Lemma append_nil_inv (s1 s2 : string) :
  s1 ++ s2 = EmptyString -> s1 = EmptyString /\ s2 = EmptyString.
Proof. destruct s1; [auto | discriminate]. Qed.

Lemma append_cons_inv (s1 s2 : string) c s :
  s1 ++ s2 = String c s ->
  (s1 = EmptyString /\ s2 = String c s)
  \/ exists s1', s1 = String c s1' /\ s = s1' ++ s2.
Proof.
  destruct s1 as [|a s1]; intros H; [left; auto|].
  rewrite append_cons in H. injection H as -> <-. right. eauto.
Qed.

Lemma append_empty_r (s : string) : s ++ EmptyString = s.
Proof.
  induction s as [|c s IH]; [reflexivity | now rewrite append_cons, IH].
Qed.

Lemma append_assoc (a b c : string) : (a ++ b) ++ c = a ++ (b ++ c).
Proof.
  induction a as [|x a IH]; [reflexivity | now rewrite !append_cons, IH].
Qed.

Lemma matches_void_inv s : matches Void s -> False.
Proof. inversion 1. Qed.

Lemma matches_eps_inv s : matches Eps s -> s = EmptyString.
Proof. inversion 1; reflexivity. Qed.

Lemma matches_class_inv p s :
  matches (Class p) s -> exists c, s = String c EmptyString /\ p c = true.
Proof. inversion 1; subst; eauto. Qed.

Lemma matches_cat_inv r1 r2 s :
  matches (Cat r1 r2) s ->
  exists s1 s2, s = s1 ++ s2 /\ matches r1 s1 /\ matches r2 s2.
Proof. inversion 1; subst; eauto. Qed.

Lemma matches_alt_inv r1 r2 s :
  matches (Alt r1 r2) s -> matches r1 s \/ matches r2 s.
Proof. inversion 1; subst; auto. Qed.

Lemma matches_cons c s1 s2 r1 r2 :
  matches r1 (String c s1) -> matches r2 s2 ->
  matches (Cat r1 r2) (String c (s1 ++ s2)).
Proof. intros H1 H2. rewrite <- append_cons. constructor; assumption. Qed.

Lemma nullable_matches r : nullable r = true <-> matches r EmptyString.
Proof.
  induction r; simpl.
  - split; [discriminate | intros H; destruct (matches_void_inv _ H)].
  - split; [constructor | reflexivity].
  - split; [discriminate|].
    intros H. apply matches_class_inv in H as (c & E & _). discriminate.
  - rewrite andb_true_iff, IHr1, IHr2. split.
    + intros [H1 H2]. change EmptyString with (EmptyString ++ EmptyString).
      constructor; assumption.
    + intros H. apply matches_cat_inv in H as (s1 & s2 & E & H1 & H2).
      symmetry in E. apply append_nil_inv in E as [-> ->]. auto.
  - rewrite orb_true_iff, IHr1, IHr2. split.
    + intros [H|H]; [apply MAltL | apply MAltR]; assumption.
    + apply matches_alt_inv.
  - split; [constructor | reflexivity].
Qed.

Lemma star_cons_inv r c s :
  matches (Star r) (String c s) ->
  exists s1 s2, s = s1 ++ s2 /\ matches r (String c s1) /\ matches (Star r) s2.
Proof.
  intros H. remember (Star r) as r' eqn:Er. remember (String c s) as t eqn:Et.
  revert s Et. induction H; intros s' Et; try discriminate.
  injection Er as ->.
  apply append_cons_inv in Et as [[-> ->] | (s1' & -> & ->)].
  - apply IHmatches2; reflexivity.
  - exists s1', s2. auto.
Qed.

Lemma deriv_matches c r : forall s,
  matches (deriv c r) s <-> matches r (String c s).
Proof.
  induction r; intros s; simpl.
  - split; intros H; [destruct (matches_void_inv _ H) | inversion H].
  - split; intros H; [destruct (matches_void_inv _ H) | inversion H].
  - destruct (p c) eqn:Hp; split; intros H.
    + apply matches_eps_inv in H as ->. constructor; assumption.
    + apply matches_class_inv in H as (c' & E & _).
      injection E as -> ->. constructor.
    + destruct (matches_void_inv _ H).
    + apply matches_class_inv in H as (c' & E & Hc).
      injection E as -> ->. congruence.
  - destruct (nullable r1) eqn:Hn; split; intros H.
    + apply matches_alt_inv in H as [H|H].
      * apply matches_cat_inv in H as (s1 & s2 & -> & H1 & H2).
        apply IHr1 in H1. apply matches_cons; assumption.
      * apply IHr2 in H. apply nullable_matches in Hn.
        change (String c s) with (EmptyString ++ String c s).
        constructor; assumption.
    + apply matches_cat_inv in H as (s1 & s2 & E & H1 & H2).
      symmetry in E.
      apply append_cons_inv in E as [[-> ->] | (s1' & -> & ->)].
      * apply MAltR, IHr2; assumption.
      * apply MAltL. constructor; [apply IHr1|]; assumption.
    + apply matches_cat_inv in H as (s1 & s2 & -> & H1 & H2).
      apply IHr1 in H1. apply matches_cons; assumption.
    + apply matches_cat_inv in H as (s1 & s2 & E & H1 & H2).
      symmetry in E.
      apply append_cons_inv in E as [[-> ->] | (s1' & -> & ->)].
      * apply nullable_matches in H1. congruence.
      * constructor; [apply IHr1|]; assumption.
  - split; intros H; apply matches_alt_inv in H as [H|H];
      solve [apply MAltL, IHr1; assumption | apply MAltR, IHr2; assumption].
  - split; intros H.
    + apply matches_cat_inv in H as (s1 & s2 & -> & H1 & H2).
      apply IHr in H1. rewrite <- append_cons. constructor; assumption.
    + apply star_cons_inv in H as (s1 & s2 & -> & H1 & H2).
      constructor; [apply IHr|]; assumption.
Qed.

Lemma fullMatch_matches s : forall r,
  fullMatch r s = true <-> matches r s.
Proof.
  induction s as [|c s IH]; intros r; simpl.
  - apply nullable_matches.
  - rewrite IH. apply deriv_matches.
Qed.

Lemma star_any s : matches (Star AnyByte) s.
Proof.
  induction s as [|c s IH]; [constructor|].
  change (String c s) with (String c EmptyString ++ s).
  constructor; [constructor; reflexivity | assumption].
Qed.

(** A class is found in a text exactly when one of its bytes is in it. *)
Lemma search_class p s :
  search (Class p) s = true
  <-> exists s1 c s2, s = s1 ++ String c s2 /\ p c = true.
Proof.
  unfold search. rewrite fullMatch_matches. split.
  - intros H. apply matches_cat_inv in H as (s1 & t & -> & _ & H).
    apply matches_cat_inv in H as (t1 & s2 & -> & H & _).
    apply matches_class_inv in H as (c & -> & Hc).
    exists s1, c, s2. auto.
  - intros (s1 & c & s2 & -> & Hp).
    constructor; [apply star_any|].
    change (String c s2) with (String c EmptyString ++ s2).
    constructor; [constructor; assumption | apply star_any].
Qed.

(** Every byte of a text that matches a repeated class is in the class. *)
Lemma star_class_forallb p s :
  matches (Star (Class p)) s -> strings.forallb p s = true.
Proof.
  intros H. remember (Star (Class p)) as r eqn:Er.
  induction H; try discriminate; [reflexivity|].
  injection Er as ->. apply matches_class_inv in H as (c & -> & Hc).
  rewrite append_cons. simpl. rewrite Hc. simpl. auto.
Qed.

Lemma forallb_star_class p s :
  strings.forallb p s = true -> matches (Star (Class p)) s.
Proof.
  induction s as [|c s IH]; simpl; [constructor|].
  rewrite andb_true_iff. intros [Hc Hs].
  change (String c s) with (String c EmptyString ++ s).
  constructor; [constructor; assumption | auto].
Qed.

Lemma plus_class p s :
  fullMatch (Plus (Class p)) s = true
  <-> s <> EmptyString /\ strings.forallb p s = true.
Proof.
  rewrite fullMatch_matches. unfold Plus. split.
  - intros H. apply matches_cat_inv in H as (s1 & s2 & -> & H1 & H2).
    apply matches_class_inv in H1 as (c & -> & Hc).
    rewrite append_cons. simpl. split; [discriminate|].
    rewrite Hc. simpl. apply star_class_forallb; assumption.
  - intros [Hne Hall]. destruct s as [|c s]; [congruence|].
    simpl in Hall. apply andb_true_iff in Hall as [Hc Hs].
    change (String c s) with (String c EmptyString ++ s).
    constructor; [constructor; assumption | apply forallb_star_class; assumption].
Qed.

End RegexpFacts.

(* ===================================================================== *)
(** ** The two password policies                                          *)
(* ===================================================================== *)

Section PasswordPolicy.

Import strings regexp.

(** What [models.ValidatePassword] accepts. *)
Lemma ValidatePassword_accepts password :
  models.ValidatePassword password = None
  <-> (8 <= String.length password <= 128)%nat
      /\ spec.hasClass isUpper password = true
      /\ spec.hasClass isLower password = true
      /\ spec.hasClass isDigit password = true.
Proof.
  unfold models.ValidatePassword, spec.hasClass.
  destruct (Nat.ltb_spec (String.length password) 8);
    [split; [discriminate | lia]|].
  destruct (Nat.ltb_spec 128 (String.length password));
    [split; [discriminate | lia]|].
  destruct (search (Class isUpper) password),
           (search (Class isLower) password),
           (search (Class isDigit) password); simpl;
    split; try discriminate; try tauto; intuition (try lia; discriminate).
Qed.

(** C4 (as stated, refuted): the policy of the credential hashing helper
    is not strictly stronger than the service-level policy; no password
    is accepted by [models.ValidatePassword] and rejected by
    [utils.ValidatePassword]. *)
Lemma C4_helper_not_stricter :
  ~ spec.stricter utils.ValidatePassword models.ValidatePassword.
Proof.
  intros [_ (password & Hq & Hp)]. apply Hp. exact Hq.
Qed.

(** C4 (amended): the credential hashing helper enforces the very policy
    of the service level: 8 to 128 bytes with at least one uppercase
    letter, one lowercase letter and one digit.  Every password it
    accepts therefore has at least 3 of the 4 character classes, and the
    symbol class plays no part in the decision. *)
Theorem C4_helper_policy_is_service_policy (password : string) :
  utils.ValidatePassword password = models.ValidatePassword password
  /\ (spec.accepts utils.ValidatePassword password
      <-> (8 <= String.length password <= 128)%nat
          /\ spec.hasClass isUpper password = true
          /\ spec.hasClass isLower password = true
          /\ spec.hasClass isDigit password = true)
  /\ (spec.accepts utils.ValidatePassword password
      -> (3 <= spec.classCount password)%nat).
Proof.
  split; [reflexivity|]. split.
  - apply ValidatePassword_accepts.
  - intros H. apply ValidatePassword_accepts in H as (_ & Hu & Hl & Hd).
    unfold spec.classCount, spec.hasClass in *. rewrite Hu, Hl, Hd.
    destruct (search (Class spec.isSymbol) password); simpl; lia.
Qed.

(** Three of the four classes are not enough for the helper: uppercase,
    lowercase and symbol without a digit is rejected. *)
Example helper_rejects_three_classes :
  spec.classCount "Abcdefg!" = 3%nat
  /\ utils.ValidatePassword "Abcdefg!" <> None.
Proof. split; [reflexivity | discriminate]. Qed.

End PasswordPolicy.

(* ===================================================================== *)
(** ** Listing: defaults and pages                                        *)
(* ===================================================================== *)

Section Listing.

Import models.
Local Open Scope Z_scope.

Lemma SetDefaults_range q :
  1 <= Page (SetDefaults q) /\ 1 <= Limit (SetDefaults q) <= 100.
Proof.
  unfold SetDefaults; simpl.
  destruct (Z.ltb_spec (Page q) 1), (Z.ltb_spec (Limit q) 1),
           (Z.ltb_spec 100 (Limit q)); simpl; lia.
Qed.

Lemma SetDefaults_idempotent q : SetDefaults (SetDefaults q) = SetDefaults q.
Proof.
  destruct q as [page limit search role active sortBy sortDir].
  unfold SetDefaults; simpl.
  assert (Hp : (if (if page <? 1 then 1 else page) <? 1 then 1
                else if page <? 1 then 1 else page)
               = if page <? 1 then 1 else page).
  { destruct (Z.ltb_spec page 1); [reflexivity|].
    destruct (Z.ltb_spec page 1); [lia | reflexivity]. }
  assert (Hl : forall l : Z, 1 <= l <= 100 ->
                 (if (l <? 1) || (100 <? l) then 20 else l) = l).
  { intros l Hl. destruct (Z.ltb_spec l 1); [lia|].
    destruct (Z.ltb_spec 100 l); [lia | reflexivity]. }
  rewrite Hp, Hl.
  - destruct (String.eqb sortBy "") eqn:Eb, (String.eqb sortDir "") eqn:Ed;
      simpl; rewrite ?Eb, ?Ed; reflexivity.
  - destruct (Z.ltb_spec limit 1), (Z.ltb_spec 100 limit); simpl; lia.
Qed.

Lemma int64_wrap_id z : 0 <= z < 2^63 -> mongo.int64_wrap z = z.
Proof.
  intros H. unfold mongo.int64_wrap.
  rewrite Z.mod_small; lia.
Qed.

Lemma decodeAll_run pending : forall users w,
  store_faults w = [] ->
  exists w',
    repositories.decodeAll pending users w
    = (Ok ((users ++ pending)%list, None), w')
    /\ docs w' = docs w /\ cache w' = cache w /\ store_faults w' = [].
Proof.
  induction pending as [|d rest IH]; intros users w Hs.
  - exists w. rewrite app_nil_r. repeat split; assumption.
  - destruct w as [ds ui rx c t no rr dr sf cf tr]. simpl in Hs. subst sf.
    cbn [repositories.decodeAll].
    unfold bind, try, wrap, mongo.Next, mongo.Decode, mongo.call. simpl.
    match goal with
    | |- context [repositories.decodeAll rest ?us ?w0] =>
        destruct (IH us w0 eq_refl) as (w' & Hrun & Hd & Hc & Hf)
    end.
    exists w'. rewrite Hrun, <- app_assoc. repeat split; assumption.
Qed.

Lemma GetAll_run w q f :
  store_faults w = [] ->
  repositories.listFilter w (SetDefaults q) = Some f ->
  (Page (SetDefaults q) - 1) * Limit (SetDefaults q) < 2^63 ->
  exists w',
    repositories.GetAll q w
    = (Ok (SetDefaults q, spec.pageOf f (SetDefaults q) (docs w),
           Z.of_nat (List.length (List.filter f (docs w)))), w')
    /\ docs w' = docs w /\ cache w' = cache w.
Proof.
  intros Hs Hf Hov.
  pose proof (SetDefaults_range q) as (Hp & Hl1 & Hl2).
  unfold repositories.GetAll, repositories.withFilter.
  remember (SetDefaults q) as q' eqn:Eq.
  unfold bind at 1. unfold gets. rewrite Hf.
  unfold bind at 1. unfold wrap at 1.
  unfold mongo.CountDocuments, mongo.call. rewrite Hs. cbn.
  unfold bind at 1. unfold wrap at 1. unfold mongo.Find, mongo.call. cbn.
  rewrite int64_wrap_id by nia.
  destruct (Z.ltb_spec ((Page q' - 1) * Limit q') 0); [nia|].
  destruct (Z.eqb_spec (Limit q') 0); [lia|].
  rewrite Z.abs_eq by lia. cbn.
  unfold bind at 1.
  match goal with
  | |- context [repositories.decodeAll ?l [] ?w0] =>
      destruct (decodeAll_run l [] w0) as (w' & Hrun & Hd & Hc & _);
        [destruct w; reflexivity|]
  end.
  rewrite Hrun. cbn. exists w'. split; [reflexivity|].
  destruct w. cbn in *. split; assumption.
Qed.

(** C6: [SetDefaults] replaces a page below 1 by 1 and a limit outside
    [1,100] by 20, [GetAll] applies it before it queries, and on a
    healthy store whose filter is accepted the query of an out-of-range
    page or limit returns the page of the defaults: the hits in sort
    order from offset [(page - 1) * limit] on (page 1 starts at the
    first hit), at most [limit] of them, with the total count.  (A page
    that is in range fails only when [(page - 1) * limit] leaves the
    64-bit integers.) *)
Theorem C6_list_defaults w q f :
  store_faults w = [] ->
  repositories.listFilter w (SetDefaults q) = Some f ->
  (Page q < 1 \/ (Page q - 1) * Limit (SetDefaults q) < 2^63) ->
  Page (SetDefaults q) = (if Page q <? 1 then 1 else Page q)
  /\ Limit (SetDefaults q)
     = (if (Limit q <? 1) || (100 <? Limit q) then 20 else Limit q)
  /\ repositories.GetAll q w = repositories.GetAll (SetDefaults q) w
  /\ exists w',
       repositories.GetAll q w
       = (Ok (SetDefaults q, spec.pageOf f (SetDefaults q) (docs w),
              Z.of_nat (List.length (List.filter f (docs w)))), w')
       /\ docs w' = docs w.
Proof.
  intros Hs Hf Hov.
  split; [reflexivity|]. split; [reflexivity|]. split.
  - unfold repositories.GetAll. rewrite SetDefaults_idempotent. reflexivity.
  - destruct (GetAll_run w q f Hs Hf) as (w' & Hrun & Hd & _).
    + assert (Hpage : Page (SetDefaults q)
                      = if Page q <? 1 then 1 else Page q) by reflexivity.
      rewrite Hpage. destruct (Z.ltb_spec (Page q) 1); lia.
    + eauto.
Qed.

Lemma C6_witness :
  exists f,
    store_faults sample.withAlice = []
    /\ repositories.listFilter sample.withAlice (SetDefaults sample.defaultQuery)
       = Some f
    /\ Page (SetDefaults sample.defaultQuery) = 1
    /\ Limit (SetDefaults sample.defaultQuery) = 20
    /\ exists w',
         repositories.GetAll sample.defaultQuery sample.withAlice
         = (Ok (SetDefaults sample.defaultQuery,
                spec.pageOf f (SetDefaults sample.defaultQuery)
                            (docs sample.withAlice),
                Z.of_nat (List.length (List.filter f (docs sample.withAlice)))),
            w')
         /\ docs w' = docs sample.withAlice.
Proof.
  eexists. split; [vm_compute; reflexivity|]. split; [exact eq_refl|].
  assert (Hs : store_faults sample.withAlice = []) by (vm_compute; reflexivity).
  assert (Hpage : Page sample.defaultQuery < 1
                  \/ (Page sample.defaultQuery - 1)
                     * Limit (SetDefaults sample.defaultQuery) < 2^63)
    by (left; vm_compute; reflexivity).
  destruct (C6_list_defaults sample.withAlice sample.defaultQuery _
              Hs eq_refl Hpage)
    as (Hp & Hl & _ & Hrun).
  split; [exact Hp|]. split; [exact Hl|]. exact Hrun.
Defined.

End Listing.

(* ===================================================================== *)
(** ** Facts on bytes, trimming and lowering                              *)
(* ===================================================================== *)

Section StringFacts.

Import strings regexp models.

Ltac each_byte c :=
  destruct c as [[] [] [] [] [] [] [] []]; vm_compute;
  repeat split; intros; congruence.

Lemma plainByte_ascii c :
  spec.plainByte c = true -> isASCII c = true /\ asciiSpace c = false.
Proof. each_byte c. Qed.

Lemma toLowerByte_not_upper c : isUpper (toLowerByte c) = false.
Proof. each_byte c. Qed.

Lemma toLowerByte_idem c : toLowerByte (toLowerByte c) = toLowerByte c.
Proof. each_byte c. Qed.

Lemma plainByte_lower c : spec.plainByte (toLowerByte c) = spec.plainByte c.
Proof. each_byte c. Qed.

Lemma wordByte_lower c : wordByte (toLowerByte c) = wordByte c.
Proof. each_byte c. Qed.

Lemma localByte_lower c : localByte (toLowerByte c) = localByte c.
Proof. each_byte c. Qed.

Lemma domainByte_lower c : domainByte (toLowerByte c) = domainByte c.
Proof. each_byte c. Qed.

Lemma isLetter_lower c : isLetter (toLowerByte c) = isLetter c.
Proof. each_byte c. Qed.

Lemma at_lower c : Ascii.eqb "@" (toLowerByte c) = Ascii.eqb "@" c.
Proof. each_byte c. Qed.

Lemma dot_lower c : Ascii.eqb "." (toLowerByte c) = Ascii.eqb "." c.
Proof. each_byte c. Qed.

Lemma ascii_byteIs c n :
  isASCII c = true -> (128 <= n)%N -> byteIs n c = false.
Proof.
  unfold isASCII, byteIs. intros H Hn. apply N.ltb_lt in H.
  apply N.eqb_neq. lia.
Qed.

Lemma ascii_not_lead c :
  isASCII c = true ->
  byteIs 194 c = false /\ byteIs 225 c = false /\ byteIs 226 c = false
  /\ byteIs 227 c = false /\ byteIs 133 c = false /\ byteIs 160 c = false
  /\ (forall a b, space3 a b c = false).
Proof.
  intros H. repeat split; try (apply ascii_byteIs; [assumption | lia]).
  intros a b. unfold space3.
  rewrite !(ascii_byteIs c) by (assumption || lia).
  assert (Hc : (128 <=? N_of_ascii c)%N = false).
  { apply N.leb_gt. apply N.ltb_lt. exact H. }
  rewrite Hc. simpl. rewrite !andb_false_r. reflexivity.
Qed.

Lemma forallb_app p (s t : string) :
  forallb p (s ++ t) = forallb p s && forallb p t.
Proof.
  induction s as [|c s IH]; [reflexivity|].
  rewrite append_cons. simpl. rewrite IH, andb_assoc. reflexivity.
Qed.

Lemma forallb_impl (p q : ascii -> bool) s :
  (forall c, p c = true -> q c = true) ->
  forallb p s = true -> forallb q s = true.
Proof.
  intros Hpq. induction s as [|c s IH]; simpl; [auto|].
  rewrite !andb_true_iff. intros [Hc Hs]. auto.
Qed.

Lemma rev_append_app s : forall acc,
  rev_append s acc = rev s ++ acc.
Proof.
  unfold rev. induction s as [|c s IH]; intros acc; simpl; [reflexivity|].
  rewrite IH, (IH (String c EmptyString)), append_assoc. reflexivity.
Qed.

Lemma rev_cons c s : rev (String c s) = rev s ++ String c EmptyString.
Proof. unfold rev at 1. simpl. apply rev_append_app. Qed.

Lemma rev_app (s t : string) : rev (s ++ t) = rev t ++ rev s.
Proof.
  induction s as [|c s IH].
  - simpl. rewrite append_empty_r. reflexivity.
  - rewrite append_cons, !rev_cons, IH, append_assoc. reflexivity.
Qed.

Lemma rev_involutive s : rev (rev s) = s.
Proof.
  induction s as [|c s IH]; [reflexivity|].
  rewrite rev_cons, rev_app, IH. reflexivity.
Qed.

Lemma forallb_rev p s : forallb p (rev s) = forallb p s.
Proof.
  induction s as [|c s IH]; [reflexivity|].
  rewrite rev_cons, forallb_app, IH. simpl.
  rewrite andb_true_r, andb_comm. reflexivity.
Qed.

Lemma rev_length s : String.length (rev s) = String.length s.
Proof.
  induction s as [|c s IH]; [reflexivity|].
  rewrite rev_cons. simpl. rewrite <- IH.
  generalize (rev s). intros t. induction t as [|d t IHt]; [reflexivity|].
  rewrite append_cons. simpl. rewrite IHt. reflexivity.
Qed.

(** A text of plain bytes has no white space to trim. *)
Lemma trimLeft_plain s :
  forallb spec.plainByte s = true -> TrimLeftSpace s = s.
Proof.
  unfold TrimLeftSpace. destruct s as [|c s]; [reflexivity|].
  simpl. rewrite andb_true_iff. intros [Hc _].
  apply plainByte_ascii in Hc as [Ha Hs]. rewrite Hs.
  apply ascii_not_lead in Ha as (H1 & H2 & H3 & H4 & _).
  destruct s as [|b [|d s]]; [reflexivity | |];
    unfold space2, space3; rewrite H1, ?H2, ?H3, ?H4; reflexivity.
Qed.

Lemma trimTrailing_plain t :
  forallb spec.plainByte t = true ->
  trimLoop dropTrailingSpace (String.length t) t = t.
Proof.
  destruct t as [|c t]; [reflexivity|].
  simpl. rewrite andb_true_iff. intros [Hc _].
  apply plainByte_ascii in Hc as [Ha Hs]. rewrite Hs.
  apply ascii_not_lead in Ha as (_ & _ & _ & _ & H5 & H6 & H7).
  destruct t as [|b [|a t]]; [reflexivity | |];
    unfold space2; rewrite H5, H6, andb_false_r, ?H7; reflexivity.
Qed.

Lemma trimRight_plain s :
  forallb spec.plainByte s = true -> TrimRightSpace s = s.
Proof.
  unfold TrimRightSpace. intros H. rewrite <- forallb_rev in H.
  rewrite <- (rev_length s), trimTrailing_plain by assumption.
  apply rev_involutive.
Qed.

Lemma TrimSpace_plain s :
  forallb spec.plainByte s = true -> TrimSpace s = s.
Proof.
  intros H. unfold TrimSpace. rewrite trimLeft_plain by assumption.
  apply trimRight_plain; assumption.
Qed.

Lemma ToLower_plain s :
  forallb spec.plainByte (ToLower s) = forallb spec.plainByte s.
Proof.
  unfold ToLower. induction s as [|c s IH]; simpl; [reflexivity|].
  rewrite plainByte_lower, IH. reflexivity.
Qed.

Lemma ToLower_no_upper s :
  forallb (fun c => negb (isUpper c)) (ToLower s) = true.
Proof.
  unfold ToLower. induction s as [|c s IH]; simpl; [reflexivity|].
  rewrite toLowerByte_not_upper. exact IH.
Qed.

Lemma ToLower_idem s : ToLower (ToLower s) = ToLower s.
Proof.
  unfold ToLower. induction s as [|c s IH]; simpl; [reflexivity|].
  rewrite toLowerByte_idem, IH. reflexivity.
Qed.

Lemma sameFold_ToLower s t : spec.sameFold s t -> ToLower s = ToLower t.
Proof. unfold ToLower. induction 1; simpl; congruence. Qed.

Lemma sameFold_length s t :
  spec.sameFold s t -> String.length s = String.length t.
Proof. induction 1; simpl; congruence. Qed.

Lemma sameFold_app_inv s1 : forall s2 t,
  spec.sameFold (s1 ++ s2) t ->
  exists t1 t2, t = t1 ++ t2 /\ spec.sameFold s1 t1 /\ spec.sameFold s2 t2.
Proof.
  induction s1 as [|c s1 IH]; intros s2 t H.
  - exists EmptyString, t. repeat split; [constructor | exact H].
  - rewrite append_cons in H. inversion H as [|a b s' t' Hab Hst]; subst.
    apply IH in Hst as (t1 & t2 & -> & H1 & H2).
    exists (String b t1), t2. repeat split; [constructor|]; assumption.
Qed.

Lemma matches_sameFold r s :
  matches r s -> spec.caseBlind r -> forall t, spec.sameFold s t -> matches r t.
Proof.
  induction 1 as [|p c Hp|r1 r2 s1 s2 H1 IH1 H2 IH2|r1 r2 s H IH|r1 r2 s H IH
                  |r|r s1 s2 H1 IH1 H2 IH2]; simpl; intros Hb t Hst.
  - inversion Hst; subst. constructor.
  - inversion Hst as [|a b s' t' Hab Hst']; subst. inversion Hst'; subst.
    constructor. rewrite <- Hb, <- Hab, Hb. assumption.
  - destruct Hb as [Hb1 Hb2].
    apply sameFold_app_inv in Hst as (t1 & t2 & -> & Hs1 & Hs2).
    constructor; auto.
  - apply MAltL. apply IH; tauto.
  - apply MAltR. apply IH; tauto.
  - inversion Hst; subst. constructor.
  - apply sameFold_app_inv in Hst as (t1 & t2 & -> & Hs1 & Hs2).
    constructor; auto.
Qed.

Lemma matches_forallb q r s :
  matches r s -> spec.classesWithin q r -> forallb q s = true.
Proof.
  induction 1; simpl; intros Hq; try reflexivity.
  - rewrite (Hq c) by assumption. reflexivity.
  - rewrite forallb_app, IHmatches1, IHmatches2 by tauto. reflexivity.
  - apply IHmatches; tauto.
  - apply IHmatches; tauto.
  - rewrite forallb_app, IHmatches1, IHmatches2 by tauto. reflexivity.
Qed.

End StringFacts.

(* ===================================================================== *)
(** ** The constructor [NewUser]                                          *)
(* ===================================================================== *)

Section Constructor.

Import strings regexp models.

Lemma ValidateUsername_accepts username :
  ValidateUsername username = None
  <-> (3 <= String.length (TrimSpace username) <= 30)%nat
      /\ fullMatch usernameRegex (TrimSpace username) = true.
Proof.
  unfold ValidateUsername.
  destruct (Nat.ltb_spec (String.length (TrimSpace username)) 3);
    [split; [discriminate | lia]|].
  destruct (Nat.ltb_spec 30 (String.length (TrimSpace username)));
    [split; [discriminate | lia]|].
  destruct (fullMatch usernameRegex (TrimSpace username)); simpl;
    split; try discriminate; intuition (try lia; discriminate).
Qed.

Lemma ValidateEmail_accepts email :
  ValidateEmail email = None
  <-> fullMatch emailRegex (TrimSpace email) = true
      /\ (String.length (TrimSpace email) <= 255)%nat.
Proof.
  unfold ValidateEmail.
  destruct (String.eqb_spec (TrimSpace email) "") as [E|E].
  - rewrite E. split; [discriminate|]. intros [H _]. discriminate H.
  - destruct (fullMatch emailRegex (TrimSpace email)); simpl;
      [|split; [discriminate | intros [H _]; discriminate H]].
    destruct (Nat.ltb_spec 255 (String.length (TrimSpace email)));
      split; try discriminate; intuition lia.
Qed.

Lemma usernameRegex_within : spec.classesWithin spec.plainByte usernameRegex.
Proof.
  unfold usernameRegex, Plus. cbn [spec.classesWithin].
  repeat split; intros c; unfold spec.plainByte; intros ->; reflexivity.
Qed.

Lemma lit_plain (a : ascii) :
  spec.plainByte a = true -> forall c, Ascii.eqb a c = true -> spec.plainByte c = true.
Proof. intros Ha c Hc. apply Ascii.eqb_eq in Hc as <-. exact Ha. Qed.

Lemma isLetter_plain c : isLetter c = true -> spec.plainByte c = true.
Proof. unfold spec.plainByte, wordByte. intros ->. reflexivity. Qed.

Lemma emailRegex_within : spec.classesWithin spec.plainByte emailRegex.
Proof.
  unfold emailRegex, tld, Plus, Lit. cbn [spec.classesWithin]. repeat split;
    try (apply lit_plain; reflexivity);
    try exact isLetter_plain;
    intros c; unfold spec.plainByte; intros ->;
    rewrite ?orb_true_r; reflexivity.
Qed.

(** A username that [ValidateUsername] accepts is, once trimmed, made of
    plain ASCII bytes. *)
Lemma ValidateUsername_ascii username :
  ValidateUsername username = None ->
  forallb spec.plainByte (TrimSpace username) = true
  /\ forallb isASCII (TrimSpace username) = true.
Proof.
  intros H. apply ValidateUsername_accepts in H as [_ H].
  apply fullMatch_matches in H.
  pose proof (matches_forallb _ _ _ H usernameRegex_within) as Hp.
  split; [assumption|].
  eapply forallb_impl; [|exact Hp]. intros c Hc.
  apply plainByte_ascii in Hc. tauto.
Qed.

(** The same for an email that [ValidateEmail] accepts. *)
Lemma ValidateEmail_ascii email :
  ValidateEmail email = None ->
  forallb spec.plainByte (TrimSpace email) = true
  /\ forallb isASCII (TrimSpace email) = true.
Proof.
  intros H. apply ValidateEmail_accepts in H as [H _].
  apply fullMatch_matches in H.
  pose proof (matches_forallb _ _ _ H emailRegex_within) as Hp.
  split; [assumption|].
  eapply forallb_impl; [|exact Hp]. intros c Hc.
  apply plainByte_ascii in Hc. tauto.
Qed.

Lemma usernameRegex_caseBlind : spec.caseBlind usernameRegex.
Proof.
  unfold usernameRegex, Plus. cbn [spec.caseBlind].
  repeat split; exact wordByte_lower.
Qed.

Lemma emailRegex_caseBlind : spec.caseBlind emailRegex.
Proof.
  unfold emailRegex, tld, Plus, Lit. cbn [spec.caseBlind]. repeat split;
    first [exact localByte_lower | exact domainByte_lower
          | exact isLetter_lower | exact at_lower | exact dot_lower].
Qed.

Lemma ValidateUsername_fold a b :
  spec.sameModuloCaseAndSpace a b ->
  ValidateUsername a = None -> ValidateUsername b = None.
Proof.
  intros Hab H. apply ValidateUsername_accepts in H as [Hlen Hm].
  apply ValidateUsername_accepts.
  rewrite <- (sameFold_length _ _ Hab). split; [assumption|].
  apply fullMatch_matches. apply fullMatch_matches in Hm.
  exact (matches_sameFold _ _ Hm usernameRegex_caseBlind _ Hab).
Qed.

Lemma ValidateEmail_fold a b :
  spec.sameModuloCaseAndSpace a b ->
  ValidateEmail a = None -> ValidateEmail b = None.
Proof.
  intros Hab H. apply ValidateEmail_accepts in H as [Hm Hlen].
  apply ValidateEmail_accepts.
  rewrite <- (sameFold_length _ _ Hab). split; [|assumption].
  apply fullMatch_matches. apply fullMatch_matches in Hm.
  exact (matches_sameFold _ _ Hm emailRegex_caseBlind _ Hab).
Qed.

(** When [NewUser] succeeds, and with which user. *)
Lemma NewUser_ok now oid rnd username email password u :
  NewUser now oid rnd username email password = Ok u
  <-> ValidateUsername username = None
      /\ ValidateEmail email = None
      /\ ValidatePassword password = None
      /\ exists bytes,
           rnd = Ok bytes
           /\ u = mkUser (NewBaseModel now oid)
                    (ToLower (TrimSpace username))
                    (ToLower (TrimSpace email)) "" ""
                    (hashPassword password (hex.EncodeToString bytes))
                    (hex.EncodeToString bytes)
                    "" "" "" "" None true false [RoleUser]
                    None None 0%Z 0%Z None (json.Object []).
Proof.
  unfold NewUser, generateSalt.
  destruct (ValidateUsername username);
    [split; [discriminate | intros [H _]; discriminate H]|].
  destruct (ValidateEmail email);
    [split; [discriminate | intros (_ & H & _); discriminate H]|].
  destruct (ValidatePassword password);
    [split; [discriminate | intros (_ & _ & H & _); discriminate H]|].
  destruct rnd as [bytes|e].
  - split.
    + intros [= <-]. repeat split. exists bytes. auto.
    + intros (_ & _ & _ & bytes' & [= <-] & ->). reflexivity.
  - split; [discriminate|]. intros (_ & _ & _ & bytes & H & _). discriminate H.
Qed.

(** C10: the username and the email that [NewUser] stores are the
    inputs trimmed of surrounding white space and lowercased; the stored
    texts have no uppercase letter left and nothing left to trim; and a
    second request whose username and email differ from the first only
    in letter case and surrounding white space is accepted as well and
    stores the same username and email. *)
Theorem C10_NewUser_normalises now oid rnd username email password u :
  NewUser now oid rnd username email password = Ok u ->
  Username u = ToLower (TrimSpace username)
  /\ Email u = ToLower (TrimSpace email)
  /\ forallb (fun c => negb (isUpper c)) (Username u) = true
  /\ forallb (fun c => negb (isUpper c)) (Email u) = true
  /\ TrimSpace (Username u) = Username u
  /\ TrimSpace (Email u) = Email u
  /\ forall now' oid' bytes' username' email' password',
       spec.sameModuloCaseAndSpace username username' ->
       spec.sameModuloCaseAndSpace email email' ->
       ValidatePassword password' = None ->
       exists u',
         NewUser now' oid' (Ok bytes') username' email' password' = Ok u'
         /\ Username u' = Username u /\ Email u' = Email u.
Proof.
  intros H. apply NewUser_ok in H as (Hu & He & Hp & bytes & -> & ->).
  simpl.
  pose proof (ValidateUsername_ascii _ Hu) as [Hup _].
  pose proof (ValidateEmail_ascii _ He) as [Hep _].
  repeat split; try apply ToLower_no_upper.
  - apply TrimSpace_plain. rewrite ToLower_plain. assumption.
  - apply TrimSpace_plain. rewrite ToLower_plain. assumption.
  - intros now' oid' bytes' username' email' password' Hsu Hse Hp'.
    eexists. split.
    + apply NewUser_ok. repeat split.
      * exact (ValidateUsername_fold _ _ Hsu Hu).
      * exact (ValidateEmail_fold _ _ Hse He).
      * exact Hp'.
      * exists bytes'. split; reflexivity.
    + simpl. split; symmetry; apply sameFold_ToLower; assumption.
Qed.

Lemma C10_witness :
  exists u,
    NewUser 1000%Z sample.oid1 (Ok sample.entropy)
            " Alice_1 " "Alice@Example.com" "Passw0rdX" = Ok u
    /\ Username u = "alice_1" /\ Email u = "alice@example.com"
    /\ exists u',
         NewUser 2000%Z (sample.oid_of 1) (Ok sample.entropy)
                 "ALICE_1" "  alice@EXAMPLE.com" "Passw0rdX" = Ok u'
         /\ Username u' = Username u /\ Email u' = Email u.
Proof.
  pose (u := match NewUser 1000%Z sample.oid1 (Ok sample.entropy)
                           " Alice_1 " "Alice@Example.com" "Passw0rdX" with
             | Ok u => u
             | Err _ => zeroUser
             end).
  assert (H : NewUser 1000%Z sample.oid1 (Ok sample.entropy)
                      " Alice_1 " "Alice@Example.com" "Passw0rdX" = Ok u)
    by (vm_compute; reflexivity).
  exists u. split; [exact H|].
  destruct (C10_NewUser_normalises _ _ _ _ _ _ _ H)
    as (Hu & He & _ & _ & _ & _ & Hsame).
  split; [rewrite Hu; vm_compute; reflexivity|].
  split; [rewrite He; vm_compute; reflexivity|].
  apply Hsame.
  - unfold spec.sameModuloCaseAndSpace. vm_compute. repeat constructor.
  - unfold spec.sameModuloCaseAndSpace. vm_compute. repeat constructor.
  - vm_compute. reflexivity.
Defined.

End Constructor.

(* ===================================================================== *)
(** ** Password hashes and their collisions                               *)
(* ===================================================================== *)

Section Hashing.

Import models.
Local Open Scope Z_scope.

Lemma add32_range x y : 0 <= sha256.add32 x y < 2^32.
Proof. unfold sha256.add32, sha256.w32. apply Z.mod_pos_bound. lia. Qed.

Lemma compress_wf h b : spec.wf_state (sha256.compress h b).
Proof.
  unfold sha256.compress, spec.wf_state, sha256.state_words. cbn [sha256.ha sha256.hb sha256.hc sha256.hd sha256.he sha256.hf sha256.hg sha256.hh].
  repeat constructor; apply add32_range.
Qed.

Lemma init_wf : spec.wf_state sha256.init.
Proof.
  unfold spec.wf_state, sha256.state_words, sha256.init.
  cbn [sha256.ha sha256.hb sha256.hc sha256.hd sha256.he sha256.hf sha256.hg sha256.hh].
  repeat constructor; lia.
Qed.

Lemma fold_compress_wf bl : forall h, spec.wf_state h -> spec.wf_state (fold_left sha256.compress bl h).
Proof.
  induction bl as [|b bl IH]; intros h Hh; simpl; [assumption|].
  apply IH, compress_wf.
Qed.

Lemma digest_state_wf msg : spec.wf_state (sha256.digest_state msg).
Proof. unfold sha256.digest_state. apply fold_compress_wf, init_wf. Qed.

Lemma pack_range s : spec.wf_state s -> 0 <= spec.pack s < 2^256.
Proof.
  destruct s as [a b c d e f g h]. unfold spec.wf_state, spec.pack, sha256.state_words. simpl.
  intros H. repeat match goal with H : Forall _ (_ :: _) |- _ => inversion H; clear H; subst end.
  lia.
Qed.

Lemma pack_step acc acc' x x' :
  0 <= x < 2^32 -> 0 <= x' < 2^32 ->
  acc * 2^32 + x = acc' * 2^32 + x' -> acc = acc' /\ x = x'.
Proof. intros Hx Hx' E. lia. Qed.

Lemma pack_inj s t : spec.wf_state s -> spec.wf_state t -> spec.pack s = spec.pack t -> s = t.
Proof.
  destruct s as [a b c d e f g h], t as [a' b' c' d' e' f' g' h'].
  unfold spec.wf_state, spec.pack, sha256.state_words. simpl.
  intros H H'. repeat match goal with H : Forall _ (_ :: _) |- _ => inversion H; clear H; subst end.
  intros E.
  repeat match goal with
         | E : _ * 2^32 + _ = _ * 2^32 + _ |- _ =>
             apply pack_step in E; [destruct E as [E ?] | assumption | assumption]
         end.
  subst. reflexivity.
Qed.

Lemma bounded_search (P : Z -> Prop) (dec : forall i, {P i} + {~ P i}) :
  forall n, 0 <= n ->
    (exists i, 0 <= i <= n /\ P i) \/ (forall i, 0 <= i <= n -> ~ P i).
Proof.
  apply (natlike_ind (fun n => (exists i, 0 <= i <= n /\ P i) \/ (forall i, 0 <= i <= n -> ~ P i))).
  - destruct (dec 0) as [H|H]; [left; exists 0; split; [lia | assumption]|].
    right. intros i Hi. replace i with 0 by lia. assumption.
  - intros n Hn [(i & Hi & HP) | Hnone].
    + left. exists i. split; [lia | assumption].
    + destruct (dec (Z.succ n)) as [H|H].
      * left. exists (Z.succ n). split; [lia | assumption].
      * right. intros i Hi. destruct (Z.eq_dec i (Z.succ n)) as [->|Hne]; [assumption|].
        apply Hnone. lia.
Qed.

Lemma pigeonhole : forall n, 0 <= n -> forall f : Z -> Z,
  (forall i, 0 <= i <= n -> 0 <= f i < n) ->
  exists i j, 0 <= i < j /\ j <= n /\ f i = f j.
Proof.
  apply (natlike_ind (fun n => forall f : Z -> Z,
    (forall i, 0 <= i <= n -> 0 <= f i < n) ->
    exists i j, 0 <= i < j /\ j <= n /\ f i = f j)).
  - intros f Hf. specialize (Hf 0). lia.
  - intros n Hn IH f Hf.
    destruct (bounded_search (fun i => f i = f (Z.succ n)) (fun i => Z.eq_dec _ _) n Hn)
      as [(i & Hi & E) | Hnone].
    + exists i, (Z.succ n). repeat split; first [lia | assumption].
    + set (v := f (Z.succ n)) in *.
      destruct (IH (fun i => if f i <? v then f i else f i - 1)) as (i & j & Hij & Hj & E).
      * intros i Hi.
        assert (Hfi := Hf i ltac:(lia)). assert (Hfn := Hf (Z.succ n) ltac:(lia)).
        assert (Hne := Hnone i Hi). cbv beta in Hne. fold v in Hfn.
        destruct (Z.ltb_spec (f i) v); lia.
      * assert (Hni := Hnone i ltac:(lia)). assert (Hnj := Hnone j ltac:(lia)).
        cbv beta in Hni, Hnj, E.
        exists i, j.
        destruct (Z.ltb_spec (f i) v), (Z.ltb_spec (f j) v);
          repeat split; lia.
Qed.

Lemma digit_inj a b : (a < 16)%N -> (b < 16)%N -> hex.digit a = hex.digit b -> a = b.
Proof.
  intros Ha Hb E.
  assert (D : forall n, (n < 16)%N -> hex.fromHexChar (hex.digit n) = Some n).
  { intros n Hn. destruct n as [|p]; [reflexivity|].
    do 4 (try (destruct p as [p|p|]; try reflexivity; try lia)). }
  pose proof (D a Ha) as Da. rewrite E, (D b Hb) in Da. congruence.
Qed.

Lemma enc_length n : forall i, String.length (spec.enc n i) = n.
Proof. induction n as [|n IH]; intros i; simpl; [reflexivity | now rewrite IH]. Qed.

Lemma enc_inj n : forall i j,
  0 <= i < 16 ^ Z.of_nat n -> 0 <= j < 16 ^ Z.of_nat n ->
  spec.enc n i = spec.enc n j -> i = j.
Proof.
  induction n as [|n IH]; intros i j Hi Hj E.
  - simpl in Hi, Hj. lia.
  - rewrite Nat2Z.inj_succ, Z.pow_succ_r in Hi, Hj by lia.
    simpl in E. injection E as Ed Er.
    apply digit_inj in Ed.
    + apply IH in Er.
      * apply Z2N.inj in Ed; try (apply Z.mod_pos_bound; lia).
        rewrite (Z.div_mod i 16), (Z.div_mod j 16) by lia. congruence.
      * split; [apply Z.div_pos; lia | apply Z.div_lt_upper_bound; lia].
      * split; [apply Z.div_pos; lia | apply Z.div_lt_upper_bound; lia].
    + pose proof (Z.mod_pos_bound i 16 ltac:(lia)). lia.
    + pose proof (Z.mod_pos_bound j 16 ltac:(lia)). lia.
Qed.

Lemma length_append (a b : string) :
  String.length (a ++ b) = (String.length a + String.length b)%nat.
Proof. induction a as [|c a IH]; [reflexivity|]. rewrite append_cons. simpl. now rewrite IH. Qed.

Lemma cand_valid i : ValidatePassword (spec.cand i) = None.
Proof.
  apply ValidatePassword_accepts. unfold spec.cand.
  rewrite length_append, enc_length. split; [simpl; lia|].
  unfold spec.hasClass. repeat split; apply search_class.
  - exists "", "A"%char, ("a0" ++ spec.enc 65 i). split; reflexivity.
  - exists "A", "a"%char, ("0" ++ spec.enc 65 i). split; reflexivity.
  - exists "Aa", "0"%char, (spec.enc 65 i). split; reflexivity.
Qed.

Lemma cand_inj i j : 0 <= i <= 2^256 -> 0 <= j <= 2^256 -> spec.cand i = spec.cand j -> i = j.
Proof.
  intros Hi Hj E. unfold spec.cand in E.
  assert (Hpre : forall x y : string, "Aa0" ++ x = "Aa0" ++ y -> x = y).
  { intros x y Hxy. rewrite !append_cons in Hxy. injection Hxy as Hxy. exact Hxy. }
  apply Hpre in E. apply (enc_inj 65); [| |assumption].
  - change (Z.of_nat 65) with 65. lia.
  - change (Z.of_nat 65) with 65. lia.
Qed.

(** Collisions exist: it is not the case that [CheckPassword] returns
    false for every password other than the original one.  SHA-256 maps
    the 2^256 + 1 valid passwords "Aa0" followed by 65 hexadecimal
    digits, each followed by the salt, to 2^256 digests: two of them
    have the same digest, and the user built with the one accepts the
    other.  (No such pair is known.) *)
Lemma CheckPassword_accepts_a_second_password : ~ spec.C3_as_stated.
Proof.
  intros H.
  set (bytes := "0123456789abcdef0123456789abcdef").
  set (salt := hex.EncodeToString bytes).
  destruct (pigeonhole (2^256) ltac:(lia)
              (fun i => spec.pack (sha256.digest_state (spec.cand i ++ salt))))
    as (i & j & Hij & Hj & E).
  { intros i _. apply pack_range, digest_state_wf. }
  apply pack_inj in E; try apply digest_state_wf.
  assert (Hne : spec.cand j <> spec.cand i).
  { intros Ec. apply cand_inj in Ec; lia. }
  assert (Hnew : exists u,
             NewUser 0 NilObjectID (Ok bytes) "alice" "alice@example.com" (spec.cand i) = Ok u
             /\ Password u = hashPassword (spec.cand i) salt /\ Salt u = salt).
  { eexists. split.
    - apply NewUser_ok. split; [vm_compute; reflexivity|].
      split; [vm_compute; reflexivity|]. split; [apply cand_valid|].
      exists bytes. split; reflexivity.
    - split; reflexivity. }
  destruct Hnew as (u & Hnew & Hpw & Hsalt).
  specialize (H 0 NilObjectID bytes "alice" "alice@example.com" (spec.cand i) u
                eq_refl Hnew (spec.cand j) Hne).
  unfold CheckPassword in H. rewrite Hpw, Hsalt in H.
  unfold hashPassword, sha256.Sum256 in H. rewrite E in H.
  rewrite String.eqb_refl in H. discriminate H.
Qed.

End Hashing.

Section CheckPassword.

Import models.

Lemma hex_byte c :
  let n := N_of_ascii c in
  hex.fromHexChar (hex.digit (n / 16)) = Some (n / 16)%N
  /\ hex.fromHexChar (hex.digit (n mod 16)) = Some (n mod 16)%N
  /\ ascii_of_N (n / 16 * 16 + n mod 16) = c.
Proof.
  destruct c as [[] [] [] [] [] [] [] []]; vm_compute; repeat split.
Qed.

(** Decoding what [hex.EncodeToString] wrote gives the bytes back. *)
Lemma DecodeString_EncodeToString s :
  hex.DecodeString (hex.EncodeToString s) = Some s.
Proof.
  induction s as [|c s IH]; [reflexivity|].
  destruct (hex_byte c) as (H1 & H2 & H3).
  cbn [hex.EncodeToString hex.DecodeString].
  cbv zeta in H1, H2, H3. rewrite H1, H2, IH, H3. reflexivity.
Qed.






End CheckPassword.

(* ===================================================================== *)
(** ** Reasoning about operations                                         *)
(* ===================================================================== *)

Section MonadFacts.

Context {A B : Type}.

Lemma bind_inv (m : M A) (k : A -> M B) w r w' :
  bind m k w = (r, w') ->
  (exists a w1, m w = (Ok a, w1) /\ k a w1 = (r, w'))
  \/ (exists e, m w = (Err e, w') /\ r = Err e).
Proof.
  unfold bind. destruct (m w) as [[a|e] w1]; intros H.
  - left. eauto.
  - right. injection H as <- <-. eauto.
Qed.

Lemma bind_ok_inv (m : M A) (k : A -> M B) w b w' :
  bind m k w = (Ok b, w') ->
  exists a w1, m w = (Ok a, w1) /\ k a w1 = (Ok b, w').
Proof.
  intros H. apply bind_inv in H as [H | (e & _ & H)]; [assumption | discriminate].
Qed.

Lemma try_inv (m : M A) w r w' :
  try m w = (r, w') -> exists r0, m w = (r0, w') /\ r = Ok r0.
Proof.
  unfold try. destruct (m w) as [r0 w1]. intros [= <- <-]. eauto.
Qed.

Lemma wrap_inv msg (m : M A) w r w' :
  wrap msg m w = (r, w') ->
  (exists a, m w = (Ok a, w') /\ r = Ok a)
  \/ (exists e, m w = (Err e, w') /\ r = Err (Wrapf msg e)).
Proof.
  unfold wrap. destruct (m w) as [[a|e] w1]; intros [= <- <-]; eauto.
Qed.

Lemma wrap_ok_inv msg (m : M A) w a w' :
  wrap msg m w = (Ok a, w') -> m w = (Ok a, w').
Proof.
  intros H. apply wrap_inv in H as [(a' & H & [= ->]) | (e & _ & H)];
    [assumption | discriminate].
Qed.

End MonadFacts.

Section NoCacheErrRules.

Import spec.

Lemma nce_ret {A} (a : A) : NoCacheErr (ret a).
Proof. intros w e w' H. discriminate H. Qed.

Lemma nce_fail {A} (e : error) :
  from_cache e = false -> NoCacheErr (@fail A e).
Proof. intros He w e' w' [= <- <-]. exact He. Qed.

Lemma nce_bind {A B} (m : M A) (k : A -> M B) :
  NoCacheErr m -> (forall a, NoCacheErr (k a)) -> NoCacheErr (bind m k).
Proof.
  intros Hm Hk w e w' H.
  apply bind_inv in H as [(a & w1 & _ & H) | (e' & H & [= ->])].
  - exact (Hk a _ _ _ H).
  - exact (Hm _ _ _ H).
Qed.

Lemma nce_try {A} (m : M A) : NoCacheErr (try m).
Proof. intros w e w' H. apply try_inv in H as (r0 & _ & H). discriminate H. Qed.

Lemma nce_wrap {A} msg (m : M A) : NoCacheErr m -> NoCacheErr (wrap msg m).
Proof.
  intros Hm w e w' H.
  apply wrap_inv in H as [(a & _ & H) | (e' & H & [= ->])]; [discriminate H|].
  exact (Hm _ _ _ H).
Qed.

Lemma nce_gets {A} (f : World -> A) : NoCacheErr (gets f).
Proof. intros w e w' H. discriminate H. Qed.

Lemma nce_modify f : NoCacheErr (modify f).
Proof. intros w e w' H. discriminate H. Qed.

Lemma nce_forEach {A} (l : list A) (body : A -> M unit) :
  (forall x, NoCacheErr (body x)) -> NoCacheErr (forEach l body).
Proof.
  intros Hb. induction l as [|x l IH]; simpl.
  - apply nce_ret.
  - apply nce_bind; [apply Hb | intros _; exact IH].
Qed.

(** A call of the MongoDB driver returns errors of that driver only. *)
Lemma nce_mongo_call {A} op (run : World -> result A * World) :
  (forall w e w', run w = (Err e, w') -> from_cache e = false) ->
  NoCacheErr (mongo.call op run).
Proof.
  intros Hrun w e w'. unfold mongo.call.
  destruct (next_fault (store_faults w)) as [[msg|] rest].
  - intros [= <- <-]. reflexivity.
  - destruct (run _) as [[a|e0] w1] eqn:E; intros [= <- <-].
    exact (Hrun _ _ _ E).
Qed.

End NoCacheErrRules.

(* ===================================================================== *)
(** ** Where the errors of an operation come from                         *)
(* ===================================================================== *)

Import models encoding_json spec.
Local Open Scope Z_scope.

Lemma from_cache_wrap msg e : from_cache (Wrapf msg e) = from_cache e.
Proof. reflexivity. Qed.

Lemma ValidateUsername_error u e :
  ValidateUsername u = Some e -> from_cache e = false.
Proof.
  unfold ValidateUsername.
  repeat match goal with |- context [if ?b then _ else _] => destruct b end;
    intros [= <-]; reflexivity.
Qed.

Lemma ValidateEmail_error u e :
  ValidateEmail u = Some e -> from_cache e = false.
Proof.
  unfold ValidateEmail.
  repeat match goal with |- context [if ?b then _ else _] => destruct b end;
    intros [= <-]; reflexivity.
Qed.

Lemma ValidatePassword_error u e :
  ValidatePassword u = Some e -> from_cache e = false.
Proof.
  unfold ValidatePassword.
  repeat match goal with |- context [if ?b then _ else _] => destruct b end;
    intros [= <-]; reflexivity.
Qed.

Lemma randomBytes_error w n e : randomBytes w n = Err e -> from_cache e = false.
Proof. unfold randomBytes. destruct (rand_Read w n); intros [= <-]. reflexivity. Qed.

Lemma NewUser_error now oid rnd u e p x :
  (forall e0, rnd = Err e0 -> from_cache e0 = false) ->
  NewUser now oid rnd u e p = Err x -> from_cache x = false.
Proof.
  intros Hr. unfold NewUser, generateSalt.
  destruct (ValidateUsername u) eqn:E1; [intros [= <-]; eauto using ValidateUsername_error|].
  destruct (ValidateEmail e) eqn:E2; [intros [= <-]; eauto using ValidateEmail_error|].
  destruct (ValidatePassword p) eqn:E3; [intros [= <-]; eauto using ValidatePassword_error|].
  destruct rnd; [discriminate|]. intros [= <-]. rewrite from_cache_wrap. auto.
Qed.

Lemma SetPassword_error now rnd u p u' x :
  (forall e0, rnd = Err e0 -> from_cache e0 = false) ->
  SetPassword now rnd u p = (u', Some x) -> from_cache x = false.
Proof.
  intros Hr. unfold SetPassword, generateSalt.
  destruct (ValidatePassword p) eqn:E3; [intros [= <- <-]; eauto using ValidatePassword_error|].
  destruct rnd; [discriminate|]. intros [= <- <-]. rewrite from_cache_wrap. auto.
Qed.

Lemma ObjectIDFromHex_error s e : ObjectIDFromHex s = Err e -> from_cache e = false.
Proof.
  unfold ObjectIDFromHex. destruct (negb _); [intros [= <-]; reflexivity|].
  destruct (hex.DecodeString s); [discriminate|]. intros [= <-]. reflexivity.
Qed.

Lemma nce_redis_call {A} ev (run : World -> result A * World) :
  NoCacheErr (try (database.redis_call ev run)).
Proof. apply nce_try. Qed.

Ltac run_cases :=
  repeat match goal with
         | |- context [if ?b then _ else _] => destruct b
         | |- context [match ?x with _ => _ end] => destruct x
         end.

Lemma nce_FindOne f : NoCacheErr (mongo.FindOne f).
Proof. apply nce_mongo_call. intros w e w' H. discriminate H. Qed.

Lemma nce_CountDocuments f : NoCacheErr (mongo.CountDocuments f).
Proof. apply nce_mongo_call. intros w e w' H. discriminate H. Qed.

Lemma nce_InsertOne d : NoCacheErr (mongo.InsertOne d).
Proof.
  apply nce_mongo_call. intros w e w'.
  destruct (String.eqb (ID d) NilObjectID);
    destruct (_ || _); intros [= <- <-]; reflexivity.
Qed.

Lemma nce_UpdateOne f u : NoCacheErr (mongo.UpdateOne f u).
Proof.
  apply nce_mongo_call. intros w e w'.
  destruct (mongo.updateFirst _ _ _ _) as [[[d b] a]|]; [|discriminate].
  destruct (_ && _); intros [= <- <-]; reflexivity.
Qed.

Lemma nce_Find f k s l : NoCacheErr (mongo.Find f k s l).
Proof.
  apply nce_mongo_call. intros w e w'.
  destruct (s <? 0); intros [= <- <-]; reflexivity.
Qed.

Lemma nce_AggregateStats : NoCacheErr mongo.AggregateStats.
Proof.
  apply nce_mongo_call. intros w e w'.
  destruct (List.filter _ _); discriminate.
Qed.

Lemma nce_Next : NoCacheErr mongo.Next.
Proof. apply nce_mongo_call. intros w e w' H. discriminate H. Qed.

Lemma nce_Decode {A} (d : A) : NoCacheErr (mongo.Decode d).
Proof. apply nce_mongo_call. intros w e w' H. discriminate H. Qed.

Lemma nce_withFilter {A} op filter (k : (User -> bool) -> M A) :
  (forall f, NoCacheErr (k f)) -> NoCacheErr (repositories.withFilter op filter k).
Proof.
  intros Hk. destruct filter as [f|]; simpl; [apply Hk|].
  apply nce_mongo_call. intros w e w' [= <- <-]. reflexivity.
Qed.

(** The rule for [bind] with what is known of the value handed on. *)
Lemma nce_bind_post {A B} (Q : A -> Prop) (m : M A) (k : A -> M B) :
  NoCacheErr m ->
  (forall w a w', m w = (Ok a, w') -> Q a) ->
  (forall a, Q a -> NoCacheErr (k a)) ->
  NoCacheErr (bind m k).
Proof.
  intros Hm Hq Hk w e w' H.
  apply bind_inv in H as [(a & w1 & H1 & H2) | (e0 & H1 & [= ->])].
  - exact (Hk a (Hq _ _ _ H1) _ _ _ H2).
  - exact (Hm _ _ _ H1).
Qed.

(** The loop over a cursor returns no error of the cache, and the error
    it leaves in the cursor is none of the cache either. *)
Lemma decodeAll_post pending : forall users,
  NoCacheErr (repositories.decodeAll pending users)
  /\ forall w us e w',
       repositories.decodeAll pending users w = (Ok (us, Some e), w') ->
       from_cache e = false.
Proof.
  induction pending as [|d rest IH]; intros users;
    cbn [repositories.decodeAll].
  - split; [apply nce_ret | intros w us e w' H; discriminate H].
  - split.
    + apply nce_bind; [apply nce_try|]. intros [[]|err]; [|apply nce_ret].
      apply nce_bind; [apply nce_wrap, nce_Decode|].
      intros user. apply IH.
    + intros w us e w' H.
      apply bind_ok_inv in H as (next & w1 & Hn & H).
      apply try_inv in Hn as (r0 & Hn & [= ->]). destruct r0 as [[]|err].
      * apply bind_ok_inv in H as (user & w2 & _ & H).
        destruct (IH (users ++ [user])%list) as [_ IHe]. exact (IHe _ _ _ _ H).
      * injection H as <- <- <-. exact (nce_Next _ _ _ Hn).
Qed.

Lemma nce_decodeAll pending users :
  NoCacheErr (repositories.decodeAll pending users).
Proof. apply decodeAll_post. Qed.

Lemma nce_GetAll params : NoCacheErr (repositories.GetAll params).
Proof.
  unfold repositories.GetAll.
  apply nce_bind; [apply nce_gets | intros filter].
  apply nce_bind;
    [apply nce_wrap, nce_withFilter; intros f; apply nce_CountDocuments
    | intros total].
  apply nce_bind;
    [apply nce_wrap, nce_withFilter; intros f; apply nce_Find
    | intros cursor].
  apply (nce_bind_post
           (fun res => forall e, snd res = Some e -> from_cache e = false)).
  - apply nce_decodeAll.
  - intros w [us oe] w' H e He. simpl in He. subst oe.
    destruct (decodeAll_post cursor []) as [_ Hp]. exact (Hp _ _ _ _ H).
  - intros res Hq. destruct (snd res) as [err|] eqn:E; [|apply nce_ret].
    apply nce_fail. rewrite from_cache_wrap. auto.
Qed.

Create HintDb service.
#[local] Hint Unfold
    users.CreateUser users.GetUserByID users.GetUserByEmail users.GetUserByUsername
    users.UpdateUser users.DeleteUser users.GetUsers users.SearchUsers
    users.ChangePassword users.VerifyUser users.GetUserStats
    users.cachedRead users.getUserFromCache users.cacheUser
    users.invalidateUserCaches users.invalidateUserListCaches
    users.invalidateUserStats users.checkUserExists users.getUserListFromCache
    users.cacheUserList users.newUser users.checkUnique
    repositories.ExistsByUsername repositories.ExistsByEmail repositories.Create
    repositories.parseID repositories.decodeOne repositories.GetByID
    repositories.GetByUsername repositories.GetByEmail repositories.Update
    repositories.SoftDelete repositories.MarkAsVerified
    repositories.Search repositories.GetUserStats : service.

Ltac nce_step :=
lazymatch goal with
| |- NoCacheErr (ret _) => apply nce_ret
| |- NoCacheErr (try _) => apply nce_try
| |- NoCacheErr (gets _) => apply nce_gets
| |- NoCacheErr (modify _) => apply nce_modify
| |- NoCacheErr (mongo.FindOne _) => apply nce_FindOne
| |- NoCacheErr (mongo.CountDocuments _) => apply nce_CountDocuments
| |- NoCacheErr (mongo.InsertOne _) => apply nce_InsertOne
| |- NoCacheErr (mongo.UpdateOne _ _) => apply nce_UpdateOne
| |- NoCacheErr (mongo.Find _ _ _ _) => apply nce_Find
| |- NoCacheErr mongo.AggregateStats => apply nce_AggregateStats
| |- NoCacheErr mongo.Next => apply nce_Next
| |- NoCacheErr (mongo.Decode _) => apply nce_Decode
| |- NoCacheErr (repositories.decodeAll _ _) => apply nce_decodeAll
| |- NoCacheErr (repositories.GetAll _) => apply nce_GetAll
| |- NoCacheErr (wrap _ _) => apply nce_wrap
| |- NoCacheErr (repositories.withFilter _ _ _) =>
    apply nce_withFilter; intros ?
| |- NoCacheErr (bind _ _) => apply nce_bind; [|intros ?]
| |- NoCacheErr (forEach _ _) => apply nce_forEach; intros ?
| |- NoCacheErr (fail _) =>
    apply nce_fail;
    first [reflexivity
          | rewrite ?from_cache_wrap;
            eauto using NewUser_error, SetPassword_error,
                        randomBytes_error, ObjectIDFromHex_error]
| |- NoCacheErr (match ?x with _ => _ end) => destruct x eqn:?
end.

Ltac nce := autounfold with service; repeat nce_step.

Lemma nce_GetUserByID id : NoCacheErr (users.GetUserByID id).
Proof. nce. Qed.

Lemma nce_CreateUser req : NoCacheErr (users.CreateUser req).
Proof. nce. Qed.

(* ===================================================================== *)
(** ** The footprint of an operation                                      *)
(* ===================================================================== *)

Lemma foot_nil P {A} (r : result A) w :
  (cache_faults w = [] -> cache_faults w = [])
  /\ exists evs, trace w = (trace w ++ evs)%list
       /\ Forall P evs
       /\ forall op e, In (StoreCall op (Some e)) evs ->
                       exists e', failure r = Some e' /\ root e' = e.
Proof.
  split; [auto|]. exists []. rewrite app_nil_r.
  repeat split; [constructor | intros op e []].
Qed.

Lemma foot_ret P {A} (a : A) : Foot P (ret a).
Proof. intros w r w' [= <- <-]. apply foot_nil. Qed.

Lemma foot_fail P {A} e : Foot P (@fail A e).
Proof. intros w r w' [= <- <-]. apply foot_nil. Qed.

Lemma foot_gets P {A} (f : World -> A) : Foot P (gets f).
Proof. intros w r w' [= <- <-]. apply foot_nil. Qed.

Lemma foot_draw P n : Foot P (modify (with_draws n)).
Proof.
  intros w r w' [= <- <-]. destruct w; simpl. 
  split; [auto|]. exists []. rewrite app_nil_r.
  repeat split; [constructor | intros op e []].
Qed.

Lemma foot_bind P {A B} (m : M A) (k : A -> M B) :
  Foot P m -> (forall a, Foot P (k a)) -> Foot P (bind m k).
Proof.
  intros Hm Hk w r w' H.
  apply bind_inv in H as [(a & w1 & H1 & H2) | (e & H & ->)].
  - destruct (Hm _ _ _ H1) as (Hc1 & evs1 & Ht1 & Hp1 & Hs1).
    destruct (Hk a _ _ _ H2) as (Hc2 & evs2 & Ht2 & Hp2 & Hs2).
    split; [auto|]. exists (evs1 ++ evs2)%list.
    rewrite Ht2, Ht1, app_assoc. split; [reflexivity|]. split.
    + apply List.Forall_app; auto.
    + intros op e Hin. apply in_app_or in Hin as [Hin|Hin]; [|eauto].
      destruct (Hs1 _ _ Hin) as (e' & He' & _). discriminate He'.
  - destruct (Hm _ _ _ H) as (Hc & evs & Ht & Hp & Hs).
    split; [assumption|]. exists evs. repeat split; try assumption.
Qed.

Lemma foot_try P {A} (m : M A) :
  Foot (fun ev => P ev /\ cacheEvent ev) m -> Foot P (try m).
Proof.
  intros Hm w r w' H. apply try_inv in H as (r0 & H & ->).
  destruct (Hm _ _ _ H) as (Hc & evs & Ht & Hp & _).
  split; [assumption|]. exists evs. split; [assumption|]. split.
  - eapply List.Forall_impl; [|exact Hp]. cbv beta. tauto.
  - intros op e Hin. rewrite List.Forall_forall in Hp.
    destruct (Hp _ Hin) as [_ []].
Qed.

Lemma foot_wrap P {A} msg (m : M A) : Foot P m -> Foot P (wrap msg m).
Proof.
  intros Hm w r w' H.
  apply wrap_inv in H as [(a & H & ->) | (e & H & ->)].
  - exact (Hm _ _ _ H).
  - destruct (Hm _ _ _ H) as (Hc & evs & Ht & Hp & Hs).
    split; [assumption|]. exists evs. repeat split; try assumption.
    intros op e0 Hin. destruct (Hs _ _ Hin) as (e' & [= <-] & Hr).
    exists (Wrapf msg e). split; [reflexivity | exact Hr].
Qed.

Lemma foot_forEach P {A} (l : list A) (body : A -> M unit) :
  (forall x, Foot P (body x)) -> Foot P (forEach l body).
Proof.
  intros Hb. induction l as [|x l IH]; simpl.
  - apply foot_ret.
  - apply foot_bind; [apply Hb | intros _; exact IH].
Qed.

Lemma foot_redis_call P {A} ev (run : World -> result A * World) :
  (forall f, P (ev f) /\ cacheEvent (ev f)) -> quiet run ->
  Foot P (database.redis_call ev run).
Proof.
  intros Hp Hq w r w'. unfold database.redis_call.
  assert (Hw : forall l, trace (with_cache_faults l w) = trace w) by (destruct w; reflexivity).
  assert (Hev : forall f op e, In (StoreCall op (Some e)) [ev f] -> False).
  { intros f op e [Hin|[]]. destruct (Hp f) as [_ Hc]. rewrite Hin in Hc. exact Hc. }
  destruct (next_fault (cache_faults w)) as [[msg|] rest] eqn:Ef.
  - intros [= <- <-]. split.
    + intros Hc. rewrite Hc in Ef. discriminate Ef.
    + eexists [_]. split; [unfold emit; simpl; rewrite ?Hw; reflexivity|].
      split; [constructor; [apply Hp | constructor]|].
      intros op e Hin. destruct (Hev _ _ _ Hin).
  - pose proof (Hq (with_cache_faults rest w)) as [Hqt Hqc].
    destruct (run _) as [r0 w1]. simpl in Hqt, Hqc. intros [= <- <-]. split.
    + intros Hc. rewrite Hc in Ef. injection Ef as <-.
      unfold emit. simpl. rewrite ?Hqc. destruct w; reflexivity.
    + eexists [_]. split; [unfold emit; simpl; rewrite ?Hqt, ?Hw; reflexivity|].
      split; [constructor; [apply Hp | constructor]|].
      intros op e Hin. destruct (Hev _ _ _ Hin).
Qed.

Lemma foot_mongo_call P {A} op (run : World -> result A * World) :
  (forall f, P (StoreCall op f)) -> quiet run ->
  (forall w e w', run w = (Err e, w') -> root e = e) ->
  Foot P (mongo.call op run).
Proof.
  intros Hp Hq Hroot w r w'. unfold mongo.call.
  assert (Hw : forall l, trace (with_store_faults l w) = trace w
                         /\ cache_faults (with_store_faults l w) = cache_faults w)
    by (destruct w; split; reflexivity).
  destruct (next_fault (store_faults w)) as [[msg|] rest].
  - intros [= <- <-]. split.
    + unfold emit. simpl. rewrite ?(proj2 (Hw rest)). auto.
    + eexists [_]. split; [unfold emit; simpl; rewrite ?(proj1 (Hw rest)); reflexivity|].
      split; [constructor; [apply Hp | constructor]|].
      intros op' e [[= <- <-]|[]]. eexists. split; reflexivity.
  - pose proof (Hq (with_store_faults rest w)) as [Hqt Hqc].
    destruct (run _) as [r0 w1] eqn:Er. simpl in Hqt, Hqc. intros [= <- <-]. split.
    + unfold emit. simpl. rewrite ?Hqc, ?(proj2 (Hw rest)). auto.
    + eexists [_]. split; [unfold emit; simpl; rewrite ?Hqt, ?(proj1 (Hw rest)); reflexivity|].
      split; [constructor; [apply Hp | constructor]|].
      intros op' e [Hin|[]]. destruct r0 as [a|e0]; [discriminate Hin|].
      injection Hin as <- <-. exists e0. split; [reflexivity|].
      exact (Hroot _ _ _ Er).
Qed.

Lemma quiet_pure {A} (f : World -> result A) : quiet (fun w => (f w, w)).
Proof. intros w. split; reflexivity. Qed.

Ltac quiet_run :=
  intros w; destruct w; simpl;
  repeat match goal with
         | |- context [match ?x with _ => _ end] => destruct x
         end; simpl; split; reflexivity.

Lemma foot_Get P key :
  (forall f, P (CacheGet key f)) -> Foot P (database.Get key).
Proof.
  intros Hp. apply foot_redis_call; [intros f; split; [apply Hp | exact I]|].
  quiet_run.
Qed.

Lemma foot_Set P key v ttl :
  (forall f, P (CacheSet key v ttl f)) -> Foot P (database.Set_ key v ttl).
Proof.
  intros Hp. apply foot_redis_call; [intros f; split; [apply Hp | exact I]|].
  quiet_run.
Qed.

Lemma foot_Delete P key :
  (forall f, P (CacheDel key f)) -> Foot P (database.Delete key).
Proof.
  intros Hp. apply foot_redis_call; [intros f; split; [apply Hp | exact I]|].
  quiet_run.
Qed.

Lemma foot_FindOne P f :
  (forall x, P (StoreCall "FindOne" x)) -> Foot P (mongo.FindOne f).
Proof.
  intros Hp. apply foot_mongo_call; [exact Hp | quiet_run |].
  intros w e w' H. discriminate H.
Qed.

Lemma foot_CountDocuments P f :
  (forall x, P (StoreCall "CountDocuments" x)) ->
  Foot P (mongo.CountDocuments f).
Proof.
  intros Hp. apply foot_mongo_call; [exact Hp | quiet_run |].
  intros w e w' H. discriminate H.
Qed.

Lemma foot_InsertOne P d :
  (forall x, P (StoreCall "InsertOne" x)) -> Foot P (mongo.InsertOne d).
Proof.
  intros Hp. apply foot_mongo_call; [exact Hp | |].
  - intros w. destruct (String.eqb (ID d) NilObjectID);
      destruct (_ || _); destruct w; split; reflexivity.
  - intros w e w'.
    destruct (String.eqb (ID d) NilObjectID);
      destruct (_ || _); intros [= <- <-]; reflexivity.
Qed.

Lemma foot_UpdateOne P f u :
  (forall x, P (StoreCall "UpdateOne" x)) -> Foot P (mongo.UpdateOne f u).
Proof.
  intros Hp. apply foot_mongo_call; [exact Hp | quiet_run |].
  intros w e w'.
  destruct (mongo.updateFirst _ _ _ _) as [[[d b] a]|]; [|discriminate].
  destruct (_ && _); intros [= <- <-]; reflexivity.
Qed.

Lemma foot_Find P f k s l :
  (forall x, P (StoreCall "Find" x)) -> Foot P (mongo.Find f k s l).
Proof.
  intros Hp. apply foot_mongo_call; [exact Hp | quiet_run |].
  intros w e w'. destruct (s <? 0); intros [= <- <-]; reflexivity.
Qed.

Lemma foot_AggregateStats P :
  (forall x, P (StoreCall "Aggregate" x)) -> Foot P mongo.AggregateStats.
Proof.
  intros Hp. apply foot_mongo_call; [exact Hp | quiet_run |].
  intros w e w'. destruct (List.filter _ _); discriminate.
Qed.

Lemma foot_withFilter P {A} op filter (k : (User -> bool) -> M A) :
  (forall x, P (StoreCall op x)) ->
  (forall f, Foot P (k f)) -> Foot P (repositories.withFilter op filter k).
Proof.
  intros Hp Hk. destruct filter as [f|]; simpl; [apply Hk|].
  apply foot_mongo_call; [exact Hp | quiet_run |].
  intros w e w' [= <- <-]. reflexivity.
Qed.

Lemma foot_Next P :
  (forall x, P (StoreCall "Next" x)) -> Foot P mongo.Next.
Proof.
  intros Hp. apply foot_mongo_call; [exact Hp | quiet_run |].
  intros w e w' H. discriminate H.
Qed.

Lemma foot_Decode P {A} (d : A) :
  (forall x, P (StoreCall "Decode" x)) -> Foot P (mongo.Decode d).
Proof.
  intros Hp. apply foot_mongo_call; [exact Hp | quiet_run |].
  intros w e w' H. discriminate H.
Qed.

(** The loop over a cursor: a failed call of the store either makes the
    loop return its error, or is the error the loop leaves in the
    cursor. *)
Lemma foot_decodeAll P pending :
  (forall op x, P (StoreCall op x)) ->
  forall users w r w',
    repositories.decodeAll pending users w = (r, w') ->
    (cache_faults w = [] -> cache_faults w' = [])
    /\ exists evs, trace w' = (trace w ++ evs)%list
         /\ Forall P evs
         /\ forall op e, In (StoreCall op (Some e)) evs ->
              (exists e', failure r = Some e' /\ root e' = e)
              \/ (exists us e', r = Ok (us, Some e') /\ root e' = e).
Proof.
  intros Hp. induction pending as [|d rest IH]; intros users w r w' H;
    cbn [repositories.decodeAll] in H.
  - injection H as <- <-. split; [auto|]. exists []. rewrite app_nil_r.
    repeat split; [constructor | intros op e []].
  - apply bind_inv in H as [(next & w1 & Hn & H) | (e0 & Hn & ->)].
    2: { apply try_inv in Hn as (r0 & _ & Hd). discriminate Hd. }
    apply try_inv in Hn as (r0 & Hn & [= ->]).
    destruct (foot_Next P (Hp _) _ _ _ Hn) as (C1 & e1 & T1 & P1 & S1).
    destruct r0 as [[]|err].
    + apply bind_inv in H as [(user & w2 & Hd & H) | (e0 & Hd & ->)].
      * destruct (foot_wrap P _ _ (foot_Decode P d (Hp _)) _ _ _ Hd)
          as (C2 & e2 & T2 & P2 & S2).
        destruct (IH _ _ _ _ H) as (C3 & e3 & T3 & P3 & S3).
        split; [auto|]. exists (e1 ++ e2 ++ e3)%list.
        split; [rewrite T3, T2, T1, <- !app_assoc; reflexivity|].
        split; [repeat (apply List.Forall_app; split); assumption|].
        intros op e Hin. apply in_app_or in Hin as [Hin|Hin];
          [destruct (S1 _ _ Hin) as (e' & F & _); discriminate F|].
        apply in_app_or in Hin as [Hin|Hin];
          [destruct (S2 _ _ Hin) as (e' & F & _); discriminate F|].
        exact (S3 _ _ Hin).
      * destruct (foot_wrap P _ _ (foot_Decode P d (Hp _)) _ _ _ Hd)
          as (C2 & e2 & T2 & P2 & S2).
        split; [auto|]. exists (e1 ++ e2)%list.
        split; [rewrite T2, T1, <- !app_assoc; reflexivity|].
        split; [apply List.Forall_app; split; assumption|].
        intros op e Hin. apply in_app_or in Hin as [Hin|Hin];
          [destruct (S1 _ _ Hin) as (e' & F & _); discriminate F|].
        left. exact (S2 _ _ Hin).
    + injection H as <- <-. split; [exact C1|]. exists e1.
      split; [exact T1|]. split; [exact P1|].
      intros op e Hin. right.
      destruct (S1 _ _ Hin) as (e' & [= <-] & Hr). exists users, err. auto.
Qed.

(** [GetAll] looks at [cursor.Err()] after the loop: every failed call
    of the store makes it return an error. *)
Lemma foot_GetAll P params :
  (forall op x, P (StoreCall op x)) -> Foot P (repositories.GetAll params).
Proof.
  intros Hp. unfold repositories.GetAll.
  apply foot_bind; [apply foot_gets | intros filter].
  apply foot_bind;
    [apply foot_wrap, foot_withFilter;
       [apply Hp | intros f; apply foot_CountDocuments, Hp]
    | intros total].
  apply foot_bind;
    [apply foot_wrap, foot_withFilter;
       [apply Hp | intros f; apply foot_Find, Hp]
    | intros cursor].
  intros w r w' H.
  apply bind_inv in H as [(res & w1 & Hl & H) | (e0 & Hl & ->)].
  - destruct (foot_decodeAll P cursor Hp _ _ _ _ Hl) as (C1 & evs & T1 & P1 & S1).
    destruct res as [us oe]. cbn [fst snd] in H.
    destruct oe as [err|]; injection H as <- <-.
    + split; [exact C1|]. exists evs. repeat split; try assumption.
      intros op e Hin.
      destruct (S1 _ _ Hin) as [(e' & F & _) | (us' & e' & [= <- <-] & Hr)];
        [discriminate F|].
      eexists. split; [reflexivity | exact Hr].
    + split; [exact C1|]. exists evs. repeat split; try assumption.
      intros op e Hin.
      destruct (S1 _ _ Hin) as [(e' & F & _) | (us' & e' & F & _)];
        discriminate F.
  - destruct (foot_decodeAll P cursor Hp _ _ _ _ Hl) as (C1 & evs & T1 & P1 & S1).
    split; [exact C1|]. exists evs. repeat split; try assumption.
    intros op e Hin.
    destruct (S1 _ _ Hin) as [H | (us' & e' & F & _)];
      [exact H | discriminate F].
Qed.

Ltac foot_side := intros; cbn; repeat split; exact I.

Ltac foot_step :=
  lazymatch goal with
  | |- Foot _ (ret _) => apply foot_ret
  | |- Foot _ (fail _) => apply foot_fail
  | |- Foot _ (gets _) => apply foot_gets
  | |- Foot _ (modify _) => apply foot_draw
  | |- Foot _ (try _) => apply foot_try
  | |- Foot _ (database.Get _) => apply foot_Get; foot_side
  | |- Foot _ (database.Set_ _ _ _) => apply foot_Set; foot_side
  | |- Foot _ (database.Delete _) => apply foot_Delete; foot_side
  | |- Foot _ (mongo.FindOne _) => apply foot_FindOne; foot_side
  | |- Foot _ (mongo.CountDocuments _) => apply foot_CountDocuments; foot_side
  | |- Foot _ (mongo.InsertOne _) => apply foot_InsertOne; foot_side
  | |- Foot _ (mongo.UpdateOne _ _) => apply foot_UpdateOne; foot_side
  | |- Foot _ (mongo.Find _ _ _ _) => apply foot_Find; foot_side
  | |- Foot _ mongo.AggregateStats => apply foot_AggregateStats; foot_side
| |- Foot _ mongo.Next => apply foot_Next; foot_side
| |- Foot _ (mongo.Decode _) => apply foot_Decode; foot_side
| |- Foot _ (repositories.GetAll _) => apply foot_GetAll; foot_side
  | |- Foot _ (wrap _ _) => apply foot_wrap
  | |- Foot _ (repositories.withFilter _ _ _) =>
      apply foot_withFilter; [foot_side | intros ?]
  | |- Foot _ (bind _ _) => apply foot_bind; [|intros ?]
  | |- Foot _ (forEach _ _) => apply foot_forEach; intros ?
  | |- Foot _ (match ?x with _ => _ end) => destruct x eqn:?
  end.

Ltac foot := autounfold with service; repeat foot_step.

Lemma foot_propagates P {A} (m : M A) : Foot P m -> PropagatesStore m.
Proof.
  intros Hm w r w' H. destruct (Hm _ _ _ H) as (_ & evs & Ht & _ & Hs).
  exists evs. split; [assumption|]. intros op e Hin.
  destruct (Hs _ _ Hin) as (e' & Hf & Hr). exists e'.
  destruct r; [discriminate Hf|]. injection Hf as ->. auto.
Qed.

Lemma foot_emits P {A} (m : M A) : Foot P m -> Emits P m.
Proof.
  intros Hm w r w' H. destruct (Hm _ _ _ H) as (_ & evs & Ht & Hp & _).
  eauto.
Qed.

Lemma foot_healthy P {A} (m : M A) : Foot P m -> KeepsCacheHealthy m.
Proof. intros Hm w r w' H. exact (proj1 (Hm _ _ _ H)). Qed.

Ltac policy := split; [nce | apply (foot_propagates (fun _ => True)); foot].

(* ===================================================================== *)
(** ** The error policy of the service layer                              *)
(* ===================================================================== *)

(** X13: Of the eleven operations of the service, nine keep to the error
    policy: they return no error that comes from the cache (an error of
    the cache client on a read, a write or a delete, the "key not found"
    of a miss, or a cached document that does not decode), and whenever
    a call to the store fails during one of them, it returns an error
    whose innermost cause is the error of the store.  [SearchUsers] and
    [GetUserStats] return no error of the cache either. *)
Theorem error_policy_of_the_checked_operations :
  (forall req, ErrorPolicy (users.CreateUser req))
  /\ (forall id, ErrorPolicy (users.GetUserByID id))
  /\ (forall email, ErrorPolicy (users.GetUserByEmail email))
  /\ (forall username, ErrorPolicy (users.GetUserByUsername username))
  /\ (forall id req, ErrorPolicy (users.UpdateUser id req))
  /\ (forall id, ErrorPolicy (users.DeleteUser id))
  /\ (forall params, ErrorPolicy (users.GetUsers params))
  /\ (forall id req, ErrorPolicy (users.ChangePassword id req))
  /\ (forall id, ErrorPolicy (users.VerifyUser id))
  /\ (forall query limit, NoCacheErr (users.SearchUsers query limit))
  /\ NoCacheErr users.GetUserStats.
Proof.
  repeat split; intros; try (nce; fail);
    try (apply (foot_propagates (fun _ => True)); foot; fail).
Qed.

(** C9 (the code at the failing inputs): the store holds Alice; the
    search for "alice" finds her on a healthy store.  When the cursor
    fails at its first [Next], [SearchUsers] returns no error and an
    empty list: [Search] never looks at [cursor.Err()].  [GetUsers] on a
    cursor that fails in the same way returns the error, wrapped as
    "cursor error".  [GetUserStats] on a cursor that fails returns no
    error and nil statistics, caches them, and the next call on a healthy
    store returns nil from the cache. *)
Theorem C9_search_swallows_cursor_error :
  let broken := DriverError Mongo "connection reset" in
  fst (users.SearchUsers "alice" 10 sample.searchable) = Ok [sample.alice]
  /\ (let w := with_store_faults [None; Some "connection reset"]
                                 sample.searchable in
      fst (users.SearchUsers "alice" 10 w) = Ok []
      /\ trace (snd (users.SearchUsers "alice" 10 w))
         = [StoreCall "Find" None; StoreCall "Next" (Some broken)])
  /\ (let w := with_store_faults [None; None; Some "connection reset"]
                                 sample.searchable in
      fst (users.GetUsers sample.defaultQuery w)
      = Err (Wrapf "failed to get users" (Wrapf "cursor error" broken)))
  /\ (let w := with_store_faults [None; Some "connection reset"]
                                 sample.searchable in
      let w' := snd (users.GetUserStats w) in
      fst (users.GetUserStats w) = Ok json.Null
      /\ In (StoreCall "Next" (Some broken)) (trace w')
      /\ store_faults w' = []
      /\ fst (users.GetUserStats w') = Ok json.Null
      /\ exists stats,
           fst (users.GetUserStats sample.searchable) = Ok (json.Object stats)).
Proof.
  cbv zeta. split; [vm_compute; reflexivity|]. split; [|split].
  - split; vm_compute; reflexivity.
  - vm_compute. reflexivity.
  - split; [vm_compute; reflexivity|]. split; [vm_compute; auto 10|].
    split; [vm_compute; reflexivity|]. split; [vm_compute; reflexivity|].
    vm_compute. eexists. reflexivity.
Qed.

(* ===================================================================== *)
(** ** The list cache across mutations                                    *)
(* ===================================================================== *)

(** [invalidateUserListCaches] leaves the world as it is. *)
Lemma invalidateUserListCaches_noop w :
  users.invalidateUserListCaches w = (Ok tt, w).
Proof. reflexivity. Qed.

(** C2 (the code at the failing inputs): a default list query warms the
    list cache; then a user is created (verified, deleted); the statistics
    key is gone from the cache afterwards, but the same list query is
    answered from the entry cached before the mutation: an empty list
    although the store holds the new user, an unverified user although the
    store has her verified, a user that the store no longer lists. *)
Theorem C2_list_cache_survives_mutations :
  (let w1 := snd (users.GetUsers sample.defaultQuery sample.empty) in
   let w2 := snd (users.CreateUser sample.requestAlice w1) in
   is_ok (fst (users.CreateUser sample.requestAlice w1)) = true
   /\ cache w2 !! users.CacheKeyUserStats = None
   /\ List.map Username (docs w2) = ["alice_1"]
   /\ fst (users.GetUsers sample.defaultQuery w2) = Ok ([], 0))
  /\ (let w1 := snd (users.GetUsers sample.defaultQuery sample.withAlice) in
      let w2 := snd (users.VerifyUser sample.aliceID w1) in
      fst (users.VerifyUser sample.aliceID w1) = Ok tt
      /\ cache w2 !! users.CacheKeyUserStats = None
      /\ List.map IsVerified (docs w2) = [true]
      /\ exists u, fst (users.GetUsers sample.defaultQuery w2) = Ok ([u], 1)
                   /\ IsVerified u = false)
  /\ (let w1 := snd (users.GetUsers sample.defaultQuery sample.withAlice) in
      let w2 := snd (users.DeleteUser sample.aliceID w1) in
      fst (users.DeleteUser sample.aliceID w1) = Ok tt
      /\ cache w2 !! users.CacheKeyUserStats = None
      /\ (exists p, fst (repositories.GetAll sample.defaultQuery w2) = Ok (p, [], 0))
      /\ exists u, fst (users.GetUsers sample.defaultQuery w2) = Ok ([u], 1)
                   /\ Username u = "alice_1").
Proof.
  split; [|split].
  - vm_compute. repeat split.
  - vm_compute. repeat split. eexists. split; reflexivity.
  - vm_compute. repeat split; eexists; try split; reflexivity.
Qed.

(* ===================================================================== *)
(** ** Changing the email                                                 *)
(* ===================================================================== *)

(** X21: [User.UpdateUser] clears the verification when the email changes. *)
Lemma model_UpdateUser_email_rearms now u updates email u' :
  asString updates "username" = None ->
  asString updates "email" = Some email ->
  UpdateUser now u updates = (u', None) ->
  strings.ToLower (strings.TrimSpace email) <> Email u ->
  IsVerified u' = false /\ EmailVerifiedAt u' = None.
Proof.
  intros Hn He. unfold UpdateUser. rewrite Hn, He.
  destruct (ValidateEmail email); [discriminate|].
  intros H Hne.
  assert (Hneq : String.eqb (Email (UpdateTimestamp now u))
                   (strings.ToLower (strings.TrimSpace email)) = false).
  { apply String.eqb_neq. intros E. apply Hne. rewrite <- E. reflexivity. }
  rewrite Hneq in H. cbn [negb] in H.
  repeat match type of H with
         | context [asString updates ?k] => destruct (asString updates k)
         | context [if ?b then _ else _] => destruct b
         end;
    try discriminate; injection H as <-; split; reflexivity.
Qed.

(** C5 (the code at the failing input): Alice is verified; the service
    then updates her email.  The update succeeds and the stored user has
    the new email, still the verified flag, and still the verification
    timestamp. *)
Theorem C5_service_update_keeps_verified :
  let w1 := snd (users.VerifyUser sample.aliceID sample.withAlice) in
  let req := mkUpdateUserRequest None (Some "new@example.com")
                                 None None None None None in
  List.map IsVerified (docs w1) = [true]
  /\ List.map Email (docs w1) = ["alice@example.com"]
  /\ exists u,
       fst (users.UpdateUser sample.aliceID req w1) = Ok u
       /\ docs (snd (users.UpdateUser sample.aliceID req w1)) = [u]
       /\ Email u = "new@example.com"
       /\ IsVerified u = true
       /\ EmailVerifiedAt u = Some 1000.
Proof.
  vm_compute. repeat split. eexists. repeat split.
Qed.

(* ===================================================================== *)
(** ** Runs on a healthy cache                                            *)
(* ===================================================================== *)

Lemma sameAmbient_refl w : sameAmbient w w.
Proof. repeat split. Qed.

Lemma frame_refl w : frame w w [].
Proof. split; [now rewrite app_nil_r | apply sameAmbient_refl]. Qed.

Lemma frame_trans w w1 w2 evs1 evs2 :
  frame w w1 evs1 -> frame w1 w2 evs2 -> frame w w2 (evs1 ++ evs2).
Proof.
  intros [Ht1 A1] [Ht2 A2]. split.
  - rewrite Ht2, Ht1, app_assoc. reflexivity.
  - unfold sameAmbient in *. intuition congruence.
Qed.

Lemma frame_ambient w w1 evs : frame w w1 evs -> sameAmbient w w1.
Proof. intros [_ H]. exact H. Qed.

Lemma ambient_healthy w w1 :
  sameAmbient w w1 ->
  (cache_faults w = [] -> cache_faults w1 = [])
  /\ (store_faults w = [] -> store_faults w1 = [])
  /\ now w1 = now w /\ unique_indexes w1 = unique_indexes w.
Proof. unfold sameAmbient. intuition congruence. Qed.

Lemma sameAmbient_trans w w1 w2 :
  sameAmbient w w1 -> sameAmbient w1 w2 -> sameAmbient w w2.
Proof. unfold sameAmbient. intuition congruence. Qed.

Lemma cache_miss_same w w1 key :
  now w1 = now w ->
  (cache w1 !! key = None \/ cache w1 !! key = cache w !! key) ->
  cache_miss w key -> cache_miss w1 key.
Proof.
  intros Hn Hl Hm. unfold cache_miss, Time in *.
  destruct Hl as [Hl | Hl]; rewrite Hl; [exact I|]. rewrite Hn. exact Hm.
Qed.

Ltac open_world w :=
  destruct w as [ds ui rx c t no rr dr sf cf tr]; simpl in *; subst.

Ltac frame_done :=
  unfold frame, sameAmbient; simpl; rewrite <- ?app_assoc; simpl;
  repeat split; reflexivity.

Lemma getUserFromCache_miss_run w key :
  cache_faults w = [] -> cache_miss w key ->
  exists e f w1,
    users.getUserFromCache key w = (Err e, w1)
    /\ frame w w1 [CacheGet key f]
    /\ docs w1 = docs w /\ cache w1 = cache w.
Proof.
  intros Hc Hmiss. unfold cache_miss in Hmiss. open_world w.
  unfold users.getUserFromCache, bind, database.Get, database.redis_call.
  simpl. destruct (c !! key) as [[v d]|].
  - destruct (Z.ltb_spec t d); simpl.
    + destruct Hmiss as [Hmiss | Hmiss]; [lia|].
      destruct (Unmarshal_User v zeroUser) as [u [e|]];
        [|exfalso; apply Hmiss; reflexivity].
      do 3 eexists. split; [reflexivity|]. repeat split; frame_done.
    + do 3 eexists. split; [reflexivity|]. repeat split; frame_done.
  - do 3 eexists. split; [reflexivity|]. repeat split; frame_done.
Qed.

Lemma getUserFromCache_hit_run w key v deadline cu :
  cache_faults w = [] ->
  cache w !! key = Some (v, deadline) -> now w < deadline ->
  Unmarshal_User v zeroUser = (cu, None) ->
  exists w1,
    users.getUserFromCache key w = (Ok cu, w1)
    /\ frame w w1 [CacheGet key None]
    /\ docs w1 = docs w /\ cache w1 = cache w.
Proof.
  intros Hc Hlook Hlt Hdec. open_world w.
  unfold users.getUserFromCache, bind, database.Get, database.redis_call.
  simpl. rewrite Hlook.
  destruct (Z.ltb_spec t deadline); [|lia]. simpl. rewrite Hdec.
  eexists. split; [reflexivity|]. repeat split; frame_done.
Qed.

Lemma EncodeToString_length s :
  String.length (hex.EncodeToString s) = (2 * String.length s)%nat.
Proof. induction s as [|c s IH]; simpl; [reflexivity | rewrite IH; lia]. Qed.




Lemma cacheUser_run w u :
  cache_faults w = [] ->
  exists w1,
    users.cacheUser u w = (Ok tt, w1)
    /\ frame w w1 (cacheUserCalls u)
    /\ docs w1 = docs w /\ cache w1 = afterCacheUser w u.
Proof.
  intros Hc. unfold users.cacheUser, Marshal, afterCacheUser, cacheUserCalls.
  destruct (supported (Marshal_User u)).
  - open_world w.
    unfold forEach, bind, try, database.Set_, database.redis_call. simpl.
    eexists. split; [reflexivity|]. repeat split; frame_done.
  - exists w. split; [reflexivity|]. split; [apply frame_refl|].
    split; reflexivity.
Qed.

Lemma FindOne_run w filter :
  store_faults w = [] ->
  exists w1,
    mongo.FindOne filter w = (Ok (List.find filter (docs w)), w1)
    /\ frame w w1 [StoreCall "FindOne" None]
    /\ docs w1 = docs w /\ cache w1 = cache w.
Proof.
  intros Hs. open_world w. unfold mongo.FindOne, mongo.call. simpl.
  eexists. split; [reflexivity|]. repeat split; frame_done.
Qed.

Lemma decodeOne_run w msg filter u :
  store_faults w = [] -> List.find filter (docs w) = Some u ->
  exists w1,
    repositories.decodeOne msg (mongo.FindOne filter) w = (Ok u, w1)
    /\ frame w w1 [StoreCall "FindOne" None]
    /\ docs w1 = docs w /\ cache w1 = cache w.
Proof.
  intros Hs Hf. destruct (FindOne_run w filter Hs) as (w1 & Hrun & Hfr).
  exists w1. split; [|exact Hfr].
  unfold repositories.decodeOne, bind, wrap. rewrite Hrun, Hf. reflexivity.
Qed.

Lemma afterCacheUser_same w w1 u :
  cache w1 = cache w -> now w1 = now w ->
  afterCacheUser w1 u = afterCacheUser w u.
Proof.
  intros Hc Hn. unfold afterCacheUser, warmed, userEntry.
  rewrite Hc, Hn. reflexivity.
Qed.

(** A read that misses the cache and finds the user in the store. *)
Lemma cachedRead_miss_run w key fromStore msg filter u :
  (forall w1, fromStore w1
              = repositories.decodeOne msg (mongo.FindOne filter) w1) ->
  cache_faults w = [] -> store_faults w = [] ->
  cache_miss w key ->
  List.find filter (docs w) = Some u ->
  exists f w',
    users.cachedRead key fromStore w = (Ok u, w')
    /\ frame w w' (CacheGet key f :: StoreCall "FindOne" None
                              :: cacheUserCalls u)
    /\ docs w' = docs w /\ cache w' = afterCacheUser w u.
Proof.
  intros Hfrom Hc Hs Hmiss Hfind.
  destruct (getUserFromCache_miss_run w key Hc Hmiss)
    as (e & f & w1 & H1 & F1 & D1 & C1).
  destruct (decodeOne_run w1 msg filter u) as (w2 & H2 & F2 & D2 & C2).
  { destruct F1 as (_ & A). unfold sameAmbient in A. intuition congruence. }
  { rewrite D1. exact Hfind. }
  destruct (cacheUser_run w2 u) as (w3 & H3 & F3 & D3 & C3).
  { destruct F1 as (_ & A1), F2 as (_ & A2). unfold sameAmbient in *.
    intuition congruence. }
  exists f, w3. split.
  - unfold users.cachedRead, bind, try. rewrite H1, Hfrom, H2, H3. reflexivity.
  - split; [|split].
    + exact (frame_trans _ _ _ _ _ F1 (frame_trans _ _ _ _ _ F2 F3)).
    + congruence.
    + rewrite C3. apply afterCacheUser_same; [congruence|].
      destruct F1 as (_ & A1), F2 as (_ & A2). unfold sameAmbient in *.
      intuition congruence.
Qed.


(** A read that the cache answers. *)
Lemma cachedRead_hit_run w key fromStore v deadline cu :
  cache_faults w = [] ->
  cache w !! key = Some (v, deadline) -> now w < deadline ->
  Unmarshal_User v zeroUser = (cu, None) ->
  exists w1,
    users.cachedRead key fromStore w = (Ok cu, w1)
    /\ trace w1 = (trace w ++ [CacheGet key None])%list
    /\ docs w1 = docs w /\ cache w1 = cache w.
Proof.
  intros Hc Hlook Hlt Hdec.
  destruct (getUserFromCache_hit_run w key v deadline cu Hc Hlook Hlt Hdec)
    as (w1 & Hrun & [Ht _] & Hd & Hk).
  exists w1. split; [|auto].
  unfold users.cachedRead, bind, try. rewrite Hrun. reflexivity.
Qed.


(* ===================================================================== *)
(** ** Reads through the cache                                            *)
(* ===================================================================== *)




(* ===================================================================== *)
(** ** Updates of one document                                            *)
(* ===================================================================== *)

Lemma updateFirst_found filter f : forall l pre u,
  List.find filter l = Some u ->
  exists b a,
    mongo.updateFirst filter f pre l = Some (f u, b, a)
    /\ (b ++ f u :: a)%list = (pre ++ replaceFirst filter f l)%list
    /\ (b ++ a)%list = (pre ++ others filter l)%list.
Proof.
  induction l as [|d r IH]; intros pre u Hfind; [discriminate|].
  simpl in *. destruct (filter d).
  - injection Hfind as <-. exists pre, r. auto.
  - destruct (IH (pre ++ [d])%list u Hfind) as (b & a & H1 & H2 & H3).
    exists b, a. rewrite H1, H2, H3, <- !app_assoc. auto.
Qed.

Lemma updateFirst_none filter f : forall l pre,
  List.find filter l = None -> mongo.updateFirst filter f pre l = None.
Proof.
  induction l as [|d r IH]; intros pre Hfind; [reflexivity|].
  simpl in *. destruct (filter d); [discriminate | auto].
Qed.

Lemma find_replaceFirst filter f : forall l u,
  List.find filter l = Some u -> filter (f u) = true ->
  List.find filter (replaceFirst filter f l) = Some (f u).
Proof.
  induction l as [|d r IH]; intros u Hfind Hf; [discriminate|].
  simpl in *. destruct (filter d) eqn:Ed.
  - injection Hfind as <-. simpl. rewrite Hf. reflexivity.
  - simpl. rewrite Ed. auto.
Qed.

Lemma applySet_verify t u :
  mongo.applySet
    (<["updated_at" := ATime t]>
       (<["email_verified_at" := ATime t]> (<["is_verified" := ABool true]> ∅)))
    u
  = verifiedAt t u.
Proof. destruct u as [[] ]. vm_compute. reflexivity. Qed.

Lemma clashes_keys u u' l :
  Username u' = Username u -> Email u' = Email u ->
  mongo.clashes u' l = mongo.clashes u l.
Proof. intros Hn He. unfold mongo.clashes. rewrite Hn, He. reflexivity. Qed.

(** [MarkAsVerified] on a healthy store that holds the user. *)
Lemma MarkAsVerified_run w id oid u :
  store_faults w = [] ->
  ObjectIDFromHex id = Ok oid ->
  List.find (byID oid) (docs w) = Some u ->
  uniqueAmongOthers w oid u ->
  exists w1,
    repositories.MarkAsVerified id w = (Ok tt, w1)
    /\ frame w w1 [StoreCall "UpdateOne" None]
    /\ docs w1 = replaceFirst (byID oid) (verifiedAt (now w)) (docs w)
    /\ cache w1 = cache w.
Proof.
  intros Hs Hhex Hfind Huniq. unfold uniqueAmongOthers in Huniq.
  destruct (updateFirst_found (byID oid) (verifiedAt (now w)) (docs w) [] u Hfind)
    as (b & a & Hup & Hdocs & Hothers).
  open_world w.
  unfold repositories.MarkAsVerified, repositories.Update, repositories.parseID,
    bind, gets, wrap, mongo.UpdateOne, mongo.call.
  rewrite Hhex. simpl.
  change (fun d : User => (ID d =? oid)%string && mongo.alive d) with (byID oid).
  assert (Hf : mongo.updateFirst (byID oid)
                 (mongo.applySet
                    (<["updated_at" := ATime t]>
                       (<["email_verified_at" := ATime t]>
                          (<["is_verified" := ABool true]> ∅))))
                 [] ds
               = Some (verifiedAt t u, b, a)).
  { rewrite <- Hup. clear. generalize (@nil User).
    induction ds as [|d r IH]; intros pre; [reflexivity|].
    simpl. destruct (byID oid d); [rewrite applySet_verify; reflexivity | apply IH]. }
  rewrite Hf.
  assert (Hclash : ui && mongo.clashes (verifiedAt t u) (b ++ a) = false).
  { destruct ui; [|reflexivity]. simpl. rewrite Hothers. simpl.
    rewrite (clashes_keys u) by reflexivity. auto. }
  rewrite Hclash. simpl.
  eexists. split; [reflexivity|]. rewrite Hdocs. repeat split; frame_done.
Qed.

Lemma Delete_run w key :
  cache_faults w = [] ->
  exists w1,
    bind (try (database.Delete key)) (fun _ => ret tt) w = (Ok tt, w1)
    /\ frame w w1 [CacheDel key None]
    /\ docs w1 = docs w
    /\ cache w1 = delete key (cache w).
Proof.
  intros Hc. open_world w.
  unfold bind, try, database.Delete, database.redis_call. simpl.
  eexists. split; [reflexivity|]. repeat split; frame_done.
Qed.

Lemma purge_run keys : forall w,
  cache_faults w = [] ->
  exists w1,
    forEach keys (fun key => bind (try (database.Delete key)) (fun _ => ret tt)) w
    = (Ok tt, w1)
    /\ frame w w1 (purgeCalls keys)
    /\ docs w1 = docs w
    /\ cache w1 = purged keys (cache w).
Proof.
  induction keys as [|k r IH]; intros w Hc.
  - exists w. split; [reflexivity|]. split; [apply frame_refl|]. split; reflexivity.
  - destruct (Delete_run w k Hc) as (w1 & H1 & F1 & D1 & C1).
    destruct (IH w1) as (w2 & H2 & F2 & D2 & C2).
    { destruct F1 as (_ & A). unfold sameAmbient in A. intuition congruence. }
    exists w2. split; [|split; [|split]].
    + change (forEach (k :: r) ?b) with (bind (b k) (fun _ => forEach r b)).
      unfold bind at 1. rewrite H1. exact H2.
    + exact (frame_trans _ _ _ _ _ F1 F2).
    + congruence.
    + rewrite C2, C1. reflexivity.
Qed.

Lemma invalidateUserCaches_run w u :
  cache_faults w = [] ->
  exists w1,
    users.invalidateUserCaches u w = (Ok tt, w1)
    /\ frame w w1 (purgeCalls (invalidatedKeys u))
    /\ docs w1 = docs w
    /\ cache w1 = purged (invalidatedKeys u) (cache w).
Proof. intros Hc. exact (purge_run (invalidatedKeys u) w Hc). Qed.

Lemma invalidateUserStats_run w :
  cache_faults w = [] ->
  exists w1,
    users.invalidateUserStats w = (Ok tt, w1)
    /\ frame w w1 (purgeCalls [users.CacheKeyUserStats])
    /\ docs w1 = docs w
    /\ cache w1 = delete users.CacheKeyUserStats (cache w).
Proof. intros Hc. exact (Delete_run w users.CacheKeyUserStats Hc). Qed.


Lemma lookup_purged keys : forall (c : gmap string (json.value * Time)) k,
  (In k keys -> purged keys c !! k = None)
  /\ (purged keys c !! k = None \/ purged keys c !! k = c !! k).
Proof.
  unfold purged.
  induction keys as [|k0 r IH]; intros c k; simpl.
  - split; [intros [] | right; reflexivity].
  - destruct (IH (delete k0 c) k) as [IHin IHor]. split.
    + intros [-> | Hin]; [|auto].
      destruct IHor as [H | H]; [exact H|].
      rewrite H. apply lookup_delete_eq.
    + destruct IHor as [H | H]; [left; exact H|].
      rewrite H. rewrite lookup_delete. case_decide; auto.
Qed.

Lemma lookup_warmed_purged w u k :
  purged (invalidatedKeys u) (afterCacheUser w u) !! k = None
  \/ purged (invalidatedKeys u) (afterCacheUser w u) !! k = cache w !! k.
Proof.
  unfold afterCacheUser.
  destruct (supported (Marshal_User u)); [|apply lookup_purged].
  destruct (lookup_purged (invalidatedKeys u) (warmed w u) k) as [Hin [H | H]];
    [left; exact H|].
  destruct (decide (k = keyID u)) as [-> | N1];
    [left; apply Hin; simpl; auto|].
  destruct (decide (k = keyEmail u)) as [-> | N2];
    [left; apply Hin; simpl; auto|].
  destruct (decide (k = keyUsername u)) as [-> | N3];
    [left; apply Hin; simpl; auto|].
  right. rewrite H. unfold warmed.
  rewrite !lookup_insert_ne by congruence. reflexivity.
Qed.

Lemma GetByID_decodeOne id oid :
  ObjectIDFromHex id = Ok oid ->
  forall w, repositories.GetByID id w
            = repositories.decodeOne "failed to get user by ID"
                (mongo.FindOne (byID oid)) w.
Proof.
  intros Hhex w. unfold repositories.GetByID, repositories.parseID.
  rewrite Hhex. reflexivity.
Qed.

(** [VerifyUser] once [GetUserByID] has handed it an unverified
    snapshot [s], on healthy backends. *)
Lemma VerifyUser_run w w0 evs id oid s u :
  users.GetUserByID id w = (Ok s, w0) ->
  frame w w0 evs -> docs w0 = docs w ->
  cache_faults w = [] -> store_faults w = [] ->
  ObjectIDFromHex id = Ok oid ->
  List.find (byID oid) (docs w) = Some u ->
  uniqueAmongOthers w oid u ->
  IsVerified s = false ->
  exists w3,
    users.VerifyUser id w = (Ok tt, w3)
    /\ sameAmbient w w3
    /\ docs w3 = replaceFirst (byID oid) (verifiedAt (now w)) (docs w)
    /\ cache w3 = delete users.CacheKeyUserStats
                    (purged (invalidatedKeys s) (cache w0)).
Proof.
  intros Hread F0 D0 Hc Hs Hhex Hfind Huniq Hunv.
  pose proof (frame_ambient _ _ _ F0) as A0.
  destruct (ambient_healthy _ _ A0) as (Hc0 & Hs0 & Hn0 & Hu0).
  destruct (MarkAsVerified_run w0 id oid u) as (w1 & H1 & F1 & D1 & C1);
    [auto | exact Hhex | rewrite D0; exact Hfind
     | unfold uniqueAmongOthers in *; rewrite Hu0, D0; exact Huniq |].
  pose proof (frame_ambient _ _ _ F1) as A1.
  destruct (ambient_healthy _ _ A1) as (Hc1 & Hs1 & Hn1 & Hu1).
  destruct (invalidateUserCaches_run w1 s) as (w2 & H2 & F2 & D2 & C2); [auto|].
  pose proof (frame_ambient _ _ _ F2) as A2.
  destruct (ambient_healthy _ _ A2) as (Hc2 & Hs2 & Hn2 & Hu2).
  destruct (invalidateUserStats_run w2) as (w3 & H3 & F3 & D3 & C3); [auto|].
  pose proof (frame_ambient _ _ _ F3) as A3.
  exists w3. split; [|split; [|split]].
  - unfold users.VerifyUser. unfold bind at 1. rewrite Hread, Hunv.
    unfold bind at 1. unfold wrap. rewrite H1.
    unfold bind at 1. rewrite H2.
    unfold bind at 1. rewrite H3. reflexivity.
  - exact (sameAmbient_trans _ _ _ A0
             (sameAmbient_trans _ _ _ A1 (sameAmbient_trans _ _ _ A2 A3))).
  - rewrite D3, D2, D1, D0, Hn0. reflexivity.
  - rewrite C3, C2, C1. reflexivity.
Qed.

(** [VerifyUser] on a user that the store holds as verified and that
    the cache does not hide. *)
Lemma VerifyUser_verified_run w id oid v :
  cache_faults w = [] -> store_faults w = [] ->
  ObjectIDFromHex id = Ok oid ->
  cache_miss w (users.CacheKeyUser id) ->
  List.find (byID oid) (docs w) = Some v ->
  IsVerified v = true ->
  exists w',
    users.VerifyUser id w = (Err (errors_New "user is already verified"), w')
    /\ docs w' = docs w.
Proof.
  intros Hc Hs Hhex Hmiss Hfind Hver.
  destruct (cachedRead_miss_run w (users.CacheKeyUser id)
              (repositories.GetByID id) "failed to get user by ID"
              (byID oid) v (GetByID_decodeOne id oid Hhex) Hc Hs Hmiss Hfind)
    as (f & w' & Hrun & _ & Hd & _).
  exists w'. split; [|exact Hd].
  unfold users.VerifyUser, users.GetUserByID. unfold bind at 1.
  rewrite Hrun, Hver. reflexivity.
Qed.

Lemma byID_verifiedAt oid t u : byID oid (verifiedAt t u) = byID oid u.
Proof. destruct u as [[] ]. reflexivity. Qed.

Lemma find_some_filter (filter : User -> bool) l u :
  List.find filter l = Some u -> filter u = true.
Proof. intros H. apply List.find_some in H. tauto. Qed.

(* ===================================================================== *)
(** ** Verification of a user                                             *)
(* ===================================================================== *)

(** C8: on healthy backends, for a user that the store holds as
    unverified (the store respecting its unique indexes, and the cache
    not holding a stale verified copy under the key of the id), the
    first [VerifyUser] succeeds and the store holds the user as verified,
    with the instant of the call; a second [VerifyUser] fails with
    "user is already verified" and leaves the documents of the store as
    they were. *)
Theorem C8_verify_twice w id oid u :
  cache_faults w = [] -> store_faults w = [] ->
  ObjectIDFromHex id = Ok oid ->
  List.find (byID oid) (docs w) = Some u ->
  IsVerified u = false ->
  uniqueAmongOthers w oid u ->
  verifyReady w id ->
  exists w1 w2,
    users.VerifyUser id w = (Ok tt, w1)
    /\ docs w1 = replaceFirst (byID oid) (verifiedAt (now w)) (docs w)
    /\ List.find (byID oid) (docs w1) = Some (verifiedAt (now w) u)
    /\ IsVerified (verifiedAt (now w) u) = true
    /\ EmailVerifiedAt (verifiedAt (now w) u) = Some (now w)
    /\ users.VerifyUser id w1
       = (Err (errors_New "user is already verified"), w2)
    /\ docs w2 = docs w1.
Proof.
  intros Hc Hs Hhex Hfind Hunv Huniq Hready.
  assert (Hfirst : exists w1,
             users.VerifyUser id w = (Ok tt, w1)
             /\ sameAmbient w w1
             /\ docs w1 = replaceFirst (byID oid) (verifiedAt (now w)) (docs w)
             /\ cache_miss w1 (users.CacheKeyUser id)).
  { destruct Hready as [Hmiss | (v & deadline & cu & Hlook & Hlt & Hdec & Hcu & Hid)].
    - destruct (cachedRead_miss_run w (users.CacheKeyUser id)
                  (repositories.GetByID id) "failed to get user by ID"
                  (byID oid) u (GetByID_decodeOne id oid Hhex) Hc Hs Hmiss Hfind)
        as (f & w0 & Hrun & F0 & D0 & C0).
      destruct (VerifyUser_run w w0 _ id oid u u Hrun F0 D0 Hc Hs Hhex Hfind
                  Huniq Hunv) as (w3 & H3 & A3 & D3 & C3).
      exists w3. repeat split; try assumption; try apply A3.
      apply (cache_miss_same w); [apply A3 | | exact Hmiss].
      rewrite C3, lookup_delete. case_decide; [left; reflexivity|].
      rewrite C0. apply lookup_warmed_purged.
    - destruct (getUserFromCache_hit_run w (users.CacheKeyUser id) v deadline cu
                  Hc Hlook Hlt Hdec) as (w0 & Hrun & F0 & D0 & C0).
      assert (Hread : users.GetUserByID id w = (Ok cu, w0)).
      { unfold users.GetUserByID, users.cachedRead, bind, try.
        rewrite Hrun. reflexivity. }
      destruct (VerifyUser_run w w0 _ id oid cu u Hread F0 D0 Hc Hs Hhex Hfind
                  Huniq Hcu) as (w3 & H3 & A3 & D3 & C3).
      exists w3. repeat split; try assumption; try apply A3.
      unfold cache_miss. unfold Time in *.
      rewrite C3, lookup_delete. case_decide; [exact I|].
      destruct (lookup_purged (invalidatedKeys cu) (cache w0)
                  (users.CacheKeyUser id)) as [Hin _].
      unfold Time in *. rewrite Hin; [exact I|].
      left. unfold keyID. rewrite Hid. reflexivity. }
  destruct Hfirst as (w1 & H1 & A1 & D1 & Hmiss1).
  destruct (ambient_healthy _ _ A1) as (Hc1 & Hs1 & Hn1 & Hu1).
  assert (Hby : byID oid u = true) by exact (find_some_filter _ _ _ Hfind).
  assert (Hfind1 : List.find (byID oid) (docs w1) = Some (verifiedAt (now w) u)).
  { rewrite D1. apply find_replaceFirst; [exact Hfind|].
    rewrite byID_verifiedAt. exact Hby. }
  destruct (VerifyUser_verified_run w1 id oid (verifiedAt (now w) u))
    as (w2 & H2 & D2); auto.
  exists w1, w2. repeat split; assumption.
Qed.

Lemma C8_witness :
  exists w1 w2,
    users.VerifyUser sample.aliceID sample.withAlice = (Ok tt, w1)
    /\ List.find (byID sample.oid1) (docs w1)
       = Some (verifiedAt 1000 sample.alice)
    /\ users.VerifyUser sample.aliceID w1
       = (Err (errors_New "user is already verified"), w2)
    /\ docs w2 = docs w1.
Proof.
  destruct (C8_verify_twice sample.withAlice sample.aliceID sample.oid1
              sample.alice)
    as (w1 & w2 & H1 & _ & Hf & _ & _ & H2 & Hd).
  - vm_compute. reflexivity.
  - vm_compute. reflexivity.
  - vm_compute. reflexivity.
  - vm_compute. reflexivity.
  - vm_compute. reflexivity.
  - intros _. vm_compute. reflexivity.
  - right.
    exists (Marshal_User sample.alice), (1000 + users.UserCacheExpiration),
      (fst (Unmarshal_User (Marshal_User sample.alice) zeroUser)).
    split; [vm_compute; reflexivity|]. split; [vm_compute; reflexivity|].
    split; [vm_compute; reflexivity|]. split; vm_compute; reflexivity.
  - exists w1, w2. split; [exact H1|]. split; [exact Hf|].
    split; [exact H2 | exact Hd].
Defined.

(* ===================================================================== *)
(** ** Invalidation on update                                             *)
(* ===================================================================== *)

Lemma deletedKeys_app a b :
  deletedKeys (a ++ b) = (deletedKeys a ++ deletedKeys b)%list.
Proof. unfold deletedKeys. apply flat_map_app. Qed.

Lemma deletedKeys_notDelete evs : Forall notDelete evs -> deletedKeys evs = [].
Proof.
  induction 1 as [|ev r H _ IH]; [reflexivity|].
  destruct ev; simpl in *; try exact IH. destruct H.
Qed.

Lemma Delete_total key w :
  exists f w1,
    bind (try (database.Delete key)) (fun _ => ret tt) w = (Ok tt, w1)
    /\ trace w1 = (trace w ++ [CacheDel key f])%list.
Proof.
  destruct w as [ds ui rx c t no rr dr sf cf tr].
  unfold bind, try, database.Delete, database.redis_call. simpl.
  destruct cf as [|[m|] rest]; simpl; do 2 eexists; split; reflexivity.
Qed.

Lemma purge_total keys : forall w,
  exists evs w1,
    forEach keys (fun key => bind (try (database.Delete key)) (fun _ => ret tt)) w
    = (Ok tt, w1)
    /\ trace w1 = (trace w ++ evs)%list
    /\ deletedKeys evs = keys.
Proof.
  induction keys as [|k r IH]; intros w.
  - exists [], w. rewrite app_nil_r. repeat split.
  - destruct (Delete_total k w) as (f & w1 & H1 & T1).
    destruct (IH w1) as (evs & w2 & H2 & T2 & K2).
    exists (CacheDel k f :: evs), w2. split; [|split].
    + change (forEach (k :: r) ?b) with (bind (b k) (fun _ => forEach r b)).
      unfold bind at 1. rewrite H1. exact H2.
    + rewrite T2, T1, <- app_assoc. reflexivity.
    + simpl. rewrite K2. reflexivity.
Qed.

Lemma GetByID_cache msg id w r w' :
  wrap msg (repositories.GetByID id) w = (r, w') -> cache w' = cache w.
Proof.
  unfold wrap, repositories.GetByID, repositories.parseID,
    repositories.decodeOne, bind, wrap, mongo.FindOne, mongo.call, ret, fail.
  destruct w as [ds ui rx c t no rr dr sf cf tr].
  destruct (ObjectIDFromHex id); simpl.
  - destruct sf as [|[m|] rest]; simpl.
    + destruct (List.find _ ds); intros [= <- <-]; reflexivity.
    + intros [= <- <-]; reflexivity.
    + destruct (List.find _ ds); intros [= <- <-]; reflexivity.
  - intros [= <- <-]. reflexivity.
Qed.

Lemma CacheKey_email_inj a b :
  users.CacheKeyUserByEmail a = users.CacheKeyUserByEmail b -> a = b.
Proof.
  unfold users.CacheKeyUserByEmail. cbv [String.append]. intros H.
  injection H as H. exact H.
Qed.

Lemma CacheKey_id_email a b :
  users.CacheKeyUser a <> users.CacheKeyUserByEmail b.
Proof.
  unfold users.CacheKeyUser, users.CacheKeyUserByEmail. cbv [String.append].
  intros H. discriminate H.
Qed.

Lemma CacheKey_username_email a b :
  users.CacheKeyUserUsername a <> users.CacheKeyUserByEmail b.
Proof.
  unfold users.CacheKeyUserUsername, users.CacheKeyUserByEmail.
  cbv [String.append]. intros H. discriminate H.
Qed.

Lemma foot_GetUserByID id : Foot notDelete (users.GetUserByID id).
Proof. foot. Qed.

Lemma foot_checkUnique updates field current :
  Foot notDelete (users.checkUnique updates field current).
Proof. foot. Qed.

Lemma foot_Update id updates :
  Foot notDelete (wrap "failed to update user" (repositories.Update id updates)).
Proof. foot. Qed.

Lemma foot_GetByID msg id :
  Foot notDelete (wrap msg (repositories.GetByID id)).
Proof. foot. Qed.

Lemma foot_cacheUser u : Foot notDelete (users.cacheUser u).
Proof. foot. Qed.

Lemma lookup_warmed_ne w u k :
  ~ In k [keyID u; keyEmail u; keyUsername u] ->
  afterCacheUser w u !! k = cache w !! k.
Proof.
  intros Hk. unfold afterCacheUser.
  destruct (supported (Marshal_User u)); [|reflexivity]. unfold warmed.
  rewrite !lookup_insert_ne; [reflexivity | | |];
    intros <-; apply Hk; simpl; auto.
Qed.

(** C7: in a successful [UpdateUser], the snapshot being the user that
    [GetUserByID] hands to it before the store is touched, the keys that
    the operation deletes from the cache are, in this order, the five
    keys of the snapshot (id, email, username and the two existence
    flags), whatever the update changes.  On a healthy cache, each of
    these keys that is not one of the three keys under which the updated
    user is cached again is absent from the cache afterwards; so after
    an update that changes the email, the key of the old email is absent
    and a read by the old email misses the cache. *)
Theorem C7_update_invalidates_snapshot w id req snapshot w0 updated w' :
  users.GetUserByID id w = (Ok snapshot, w0) ->
  users.UpdateUser id req w = (Ok updated, w') ->
  exists evs,
    trace w' = (trace w ++ evs)%list
    /\ deletedKeys evs = invalidatedKeys snapshot
    /\ (cache_faults w = [] ->
        (forall k, In k (invalidatedKeys snapshot) ->
                   ~ In k [keyID updated; keyEmail updated; keyUsername updated] ->
                   cache w' !! k = None)
        /\ (Email updated <> Email snapshot ->
            cache w' !! keyEmail snapshot = None
            /\ cache_miss w' (keyEmail snapshot))).
Proof.
  intros Hsnap Hrun. unfold users.UpdateUser in Hrun.
  destruct (UpdateUserRequest_Validate req) as [req' errors].
  destruct (0 <? length errors)%nat; [discriminate Hrun|].
  apply bind_ok_inv in Hrun as (s & w0' & Hget & Hrun).
  rewrite Hsnap in Hget. injection Hget as <- <-.
  apply bind_ok_inv in Hrun as ([] & w1 & Hu1 & Hrun).
  apply bind_ok_inv in Hrun as ([] & w2 & Hu2 & Hrun).
  apply bind_ok_inv in Hrun as ([] & w3 & Hup & Hrun).
  apply bind_ok_inv in Hrun as ([] & w4 & Hinv & Hrun).
  apply bind_ok_inv in Hrun as ([] & w4' & Hlist & Hrun).
  apply bind_ok_inv in Hrun as (upd & w5 & Hback & Hrun).
  apply bind_ok_inv in Hrun as ([] & w6 & Hwarm & Hrun).
  injection Hrun as -> ->. injection Hlist as <-.
  destruct (foot_GetUserByID id _ _ _ Hsnap) as (C0 & e0 & T0 & P0 & _).
  destruct (foot_checkUnique _ _ _ _ _ _ Hu1) as (C1 & e1 & T1 & P1 & _).
  destruct (foot_checkUnique _ _ _ _ _ _ Hu2) as (C2 & e2 & T2 & P2 & _).
  destruct (foot_Update _ _ _ _ _ Hup) as (C3 & e3 & T3 & P3 & _).
  destruct (purge_total (invalidatedKeys snapshot) w3)
    as (e4 & w4t & H4 & T4 & K4).
  change (users.invalidateUserCaches snapshot w3 = (Ok tt, w4t)) in H4.
  rewrite Hinv in H4. injection H4 as <-.
  destruct (foot_GetByID _ _ _ _ _ Hback) as (C5 & e5 & T5 & P5 & _).
  destruct (foot_cacheUser _ _ _ _ Hwarm) as (C6 & e6 & T6 & P6 & _).
  exists (e0 ++ e1 ++ e2 ++ e3 ++ e4 ++ e5 ++ e6)%list. split; [|split].
  - rewrite T6, T5, T4, T3, T2, T1, T0, <- !app_assoc. reflexivity.
  - rewrite !deletedKeys_app, K4.
    rewrite !deletedKeys_notDelete by assumption.
    simpl. rewrite ?app_nil_r. reflexivity.
  - intros Hc.
    destruct (invalidateUserCaches_run w3 snapshot) as (w4r & H4 & F4 & D4 & K4');
      [auto 10|].
    rewrite Hinv in H4. injection H4 as <-.
    destruct (ambient_healthy _ _ (frame_ambient _ _ _ F4)) as (Hc4 & _).
    destruct (cacheUser_run w5 updated) as (w6r & H6 & F6 & D6 & K6); [auto 10|].
    rewrite Hwarm in H6. injection H6 as <-.
    assert (Hgone : forall k,
               In k (invalidatedKeys snapshot) ->
               ~ In k [keyID updated; keyEmail updated; keyUsername updated] ->
               cache w' !! k = None).
    { intros k Hin Hout. rewrite K6, (lookup_warmed_ne _ _ _ Hout).
      rewrite (GetByID_cache _ _ _ _ _ Hback), K4'.
      apply lookup_purged. exact Hin. }
    split; [exact Hgone|]. intros Hne.
    assert (Hnone : cache w' !! keyEmail snapshot = None).
    { apply Hgone; [simpl; auto|].
      intros [H | [H | [H | []]]].
      - exact (CacheKey_id_email _ _ H).
      - apply CacheKey_email_inj in H. congruence.
      - exact (CacheKey_username_email _ _ H). }
    split; [exact Hnone|]. unfold cache_miss. unfold Time in *.
    rewrite Hnone. exact I.
Qed.

Lemma C7_witness :
  exists snapshot w0 updated w' evs,
    users.GetUserByID sample.aliceID sample.withAlice = (Ok snapshot, w0)
    /\ users.UpdateUser sample.aliceID sample.emailChange sample.withAlice
       = (Ok updated, w')
    /\ Email snapshot = "alice@example.com"
    /\ Email updated = "new@example.com"
    /\ trace w' = (trace sample.withAlice ++ evs)%list
    /\ deletedKeys evs = invalidatedKeys snapshot
    /\ cache w' !! keyEmail snapshot = None.
Proof.
  pose (r0 := users.GetUserByID sample.aliceID sample.withAlice).
  pose (snapshot := match fst r0 with Ok u => u | Err _ => zeroUser end).
  pose (r1 := users.UpdateUser sample.aliceID sample.emailChange
                               sample.withAlice).
  pose (updated := match fst r1 with Ok u => u | Err _ => zeroUser end).
  assert (Hsnap : users.GetUserByID sample.aliceID sample.withAlice
                  = (Ok snapshot, snd r0)) by (vm_compute; reflexivity).
  assert (Hrun : users.UpdateUser sample.aliceID sample.emailChange
                                  sample.withAlice
                 = (Ok updated, snd r1)) by (vm_compute; reflexivity).
  destruct (C7_update_invalidates_snapshot _ _ _ _ _ _ _ Hsnap Hrun)
    as (evs & Ht & Hk & Hhealthy).
  exists snapshot, (snd r0), updated, (snd r1), evs.
  split; [exact Hsnap|]. split; [exact Hrun|].
  split; [vm_compute; reflexivity|]. split; [vm_compute; reflexivity|].
  split; [exact Ht|]. split; [exact Hk|].
  destruct Hhealthy as [_ Hemail]; [vm_compute; reflexivity|].
  destruct Hemail as [Hnone _]; [vm_compute; intros H; discriminate H|].
  exact Hnone.
Defined.

(* ===================================================================== *)
(** * Further properties                                                  *)
(* ===================================================================== *)

(* ===================================================================== *)
(** ** Roles                                                              *)
(* ===================================================================== *)

Lemma HasRole_app u role l :
  existsb (fun r => String.eqb r role) (Roles u ++ l)
  = HasRole u role || existsb (fun r => String.eqb r role) l.
Proof. unfold HasRole. apply existsb_app. Qed.

Lemma HasRole_In u role : HasRole u role = true <-> In role (Roles u).
Proof.
  unfold HasRole. rewrite existsb_exists. split.
  - intros (r & Hin & Heq). apply String.eqb_eq in Heq. subst. exact Hin.
  - intros Hin. exists role. split; [exact Hin | apply String.eqb_refl].
Qed.

Lemma removeFirst_none role l :
  removeFirst role l = None <-> ~ In role l.
Proof.
  induction l as [|r rest IH]; simpl; [tauto|].
  destruct (String.eqb_spec r role) as [-> | Hne].
  - split; [discriminate | intros H; exfalso; apply H; auto].
  - destruct (removeFirst role rest) as [rest'|].
    + split; [discriminate|]. intros H. exfalso.
      assert (Hn : ~ In role rest) by tauto.
      apply IH in Hn. discriminate Hn.
    + split; [|reflexivity]. intros _ [H | H]; [congruence|].
      destruct IH as [IH _]. exact (IH eq_refl H).
Qed.

Lemma removeFirst_some role l l' :
  removeFirst role l = Some l' ->
  (forall r, r <> role -> (In r l' <-> In r l))
  /\ (List.NoDup l -> List.NoDup l' /\ ~ In role l').
Proof.
  revert l'. induction l as [|r rest IH]; simpl; intros l' H; [discriminate|].
  destruct (String.eqb_spec r role) as [-> | Hne].
  - injection H as <-. split.
    + intros r Hr. simpl. split; [auto | intros [E | Hin]; [congruence | exact Hin]].
    + intros Hnd. inversion Hnd as [|x xs Hx Hxs]; subst. split; assumption.
  - destruct (removeFirst role rest) as [rest'|]; [|discriminate].
    injection H as <-. destruct (IH rest' eq_refl) as [IHin IHnd]. split.
    + intros r0 Hr0. simpl. rewrite (IHin r0 Hr0). tauto.
    + intros Hnd. inversion Hnd as [|x xs Hx Hxs]; subst.
      destruct (IHnd Hxs) as [Hnd' Hout]. split.
      * constructor; [|exact Hnd']. intros Hin. apply Hx.
        apply (IHin r Hne). exact Hin.
      * simpl. intros [E | Hin]; [congruence | exact (Hout Hin)].
Qed.

(** X1: [AddRole] makes the user hold the role, is a no-op on a user who
    holds it already (so adding twice is adding once), and never adds a
    role a second time. *)
Theorem AddRole_adds_once stamp stamp' role u :
  HasRole (AddRole stamp role u) role = true
  /\ (HasRole u role = true -> AddRole stamp role u = u)
  /\ AddRole stamp' role (AddRole stamp role u) = AddRole stamp role u
  /\ (List.NoDup (Roles u) -> List.NoDup (Roles (AddRole stamp role u)))
  /\ (forall r, HasRole u r = true -> HasRole (AddRole stamp role u) r = true).
Proof.
  assert (Hhas : HasRole (AddRole stamp role u) role = true).
  { unfold AddRole. destruct (HasRole u role) eqn:E; simpl; [exact E|].
    unfold HasRole. destruct u. simpl in *.
    rewrite existsb_app. simpl. rewrite String.eqb_refl.
    apply orb_true_iff. right. reflexivity. }
  split; [exact Hhas|]. split; [|split; [|split]].
  - intros H. unfold AddRole. rewrite H. reflexivity.
  - unfold AddRole at 1. rewrite Hhas. reflexivity.
  - intros Hnd. unfold AddRole. destruct (HasRole u role) eqn:E; simpl;
      [exact Hnd|].
    destruct u. simpl in *.
    apply List.NoDup_app; [exact Hnd | repeat constructor; intros [] |].
    intros x Hin [<- | []].
    assert (Hex : existsb (fun r => String.eqb r role) Roles0 = true).
    { apply existsb_exists. exists role. split; [exact Hin|].
      apply String.eqb_refl. }
    unfold HasRole in E. simpl in E. congruence.
  - intros r Hr. unfold AddRole. destruct (HasRole u role); simpl; [exact Hr|].
    unfold HasRole in *. destruct u. simpl in *.
    rewrite existsb_app, Hr. reflexivity.
Qed.

(** X2: [RemoveRole] on roles without repetition: the user no longer holds
    the role, holds every other role exactly as before, and the roles
    stay without repetition. *)
Theorem RemoveRole_removes stamp role u :
  List.NoDup (Roles u) ->
  HasRole (RemoveRole stamp role u) role = false
  /\ List.NoDup (Roles (RemoveRole stamp role u))
  /\ forall r, r <> role ->
       HasRole (RemoveRole stamp role u) r = HasRole u r.
Proof.
  intros Hnd. unfold RemoveRole.
  destruct (removeFirst role (Roles u)) as [roles|] eqn:E.
  - destruct (removeFirst_some _ _ _ E) as [Hin Hnd'].
    destruct (Hnd' Hnd) as [Hnd'' Hout].
    assert (Hroles : Roles (UpdateTimestamp stamp (set_Roles roles u)) = roles)
      by (destruct u; reflexivity).
    split; [|split].
    + apply not_true_is_false. rewrite HasRole_In, Hroles. exact Hout.
    + rewrite Hroles. exact Hnd''.
    + intros r Hr. apply eq_true_iff_eq.
      rewrite !HasRole_In, Hroles. apply Hin. exact Hr.
  - apply removeFirst_none in E. split; [|split].
    + apply not_true_is_false. rewrite HasRole_In. exact E.
    + exact Hnd.
    + reflexivity.
Qed.

Lemma RemoveRole_removes_witness :
  HasRole (RemoveRole 2000 RoleAdmin
             (AddRole 1500 RoleAdmin sample.alice)) RoleAdmin = false
  /\ HasRole (RemoveRole 2000 RoleAdmin
                (AddRole 1500 RoleAdmin sample.alice)) RoleUser = true.
Proof.
  destruct (RemoveRole_removes 2000 RoleAdmin
              (AddRole 1500 RoleAdmin sample.alice))
    as (H1 & _ & H3).
  - vm_compute. repeat constructor; simpl; intuition discriminate.
  - split; [exact H1|]. rewrite H3; [vm_compute; reflexivity|].
    intros H. discriminate H.
Defined.

(** X3: [RemoveRole] takes out the first occurrence only: a user whose
    roles name a role twice still holds it afterwards. *)
Theorem RemoveRole_first_occurrence_only stamp role rest u :
  Roles (RemoveRole stamp role (set_Roles (role :: role :: rest) u))
  = role :: rest
  /\ HasRole (RemoveRole stamp role (set_Roles (role :: role :: rest) u)) role
     = true.
Proof.
  unfold RemoveRole, HasRole. destruct u. simpl.
  rewrite String.eqb_refl. simpl. rewrite String.eqb_refl. split; reflexivity.
Qed.

(* ===================================================================== *)
(** ** Failed logins and the lockout                                      *)
(* ===================================================================== *)

Lemma IsLocked_true now u :
  IsLocked now u = true
  <-> 5 <= FailedLogins u
      /\ exists t, LastFailedAt u = Some t /\ now - t < 30 * Minute.
Proof.
  unfold IsLocked, Sub, Minute.
  destruct (Z.ltb_spec (FailedLogins u) 5).
  - split; [discriminate | lia].
  - destruct (LastFailedAt u) as [t|].
    + destruct (Z.ltb_spec (now - t) (- 2^63)).
      * split; [intros _; split; [lia | exists t; split; [reflexivity | lia]]
               | reflexivity].
      * destruct (Z.ltb_spec (2^63 - 1) (now - t)).
        -- split; [discriminate | intros (_ & t' & [= <-] & Hlt); lia].
        -- rewrite Z.ltb_lt. split.
           ++ intros Hlt. split; [lia | exists t; auto].
           ++ intros (_ & t' & [= <-] & Hlt). exact Hlt.
    + split; [discriminate | intros (_ & t & Ht & _); discriminate Ht].
Qed.

(** X4: [IsLocked]: the account is locked exactly when five or more failed
    logins are on record and the last one is less than thirty minutes
    old. *)
Theorem IsLocked_iff now u :
  IsLocked now u = true
  <-> 5 <= FailedLogins u
      /\ exists t, LastFailedAt u = Some t /\ now - t < 30 * Minute.
Proof. exact (IsLocked_true now u). Qed.

(** X5: The fifth failed login in a row locks the account for the thirty
    minutes that follow it, and a successful login unlocks it and counts
    the login. *)
Theorem lockout_after_failures now stamp later u :
  0 <= FailedLogins u < 2^62 ->
  (IsLocked later (RecordFailedLogin now stamp u) = true
   <-> 4 <= FailedLogins u /\ later - now < 30 * Minute)
  /\ IsLocked later (RecordLogin now stamp u) = false
  /\ FailedLogins (RecordLogin now stamp u) = 0
  /\ LastLoginAt (RecordLogin now stamp u) = Some now.
Proof.
  intros Hf. split; [|split; [|split]].
  - rewrite IsLocked_true.
    assert (Hc : FailedLogins (RecordFailedLogin now stamp u)
                 = FailedLogins u + 1).
    { destruct u. simpl in *. unfold wrapInt.
      rewrite Z.mod_small by lia. lia. }
    assert (Hl : LastFailedAt (RecordFailedLogin now stamp u) = Some now)
      by (destruct u; reflexivity).
    rewrite Hc, Hl. split.
    + intros (H5 & t & [= <-] & Hlt). split; [lia | exact Hlt].
    + intros (H4 & Hlt). split; [lia | exists now; auto].
  - destruct u. reflexivity.
  - destruct u. reflexivity.
  - destruct u. reflexivity.
Qed.

Lemma lockout_after_failures_witness :
  IsLocked (1000 + 29 * Minute)
    (RecordFailedLogin 1000 1001
       (set_FailedLogins 4 sample.alice)) = true.
Proof.
  apply (lockout_after_failures 1000 1001 (1000 + 29 * Minute)
           (set_FailedLogins 4 sample.alice)).
  - vm_compute. split; [discriminate | reflexivity].
  - vm_compute. split; [discriminate | reflexivity].
Defined.

(* ===================================================================== *)
(** ** What a cached user lacks                                           *)
(* ===================================================================== *)

Lemma decodeUserField_hidden acc kv :
  Password (fst (decodeUserField acc kv)) = Password (fst acc)
  /\ Salt (fst (decodeUserField acc kv)) = Salt (fst acc)
  /\ FailedLogins (fst (decodeUserField acc kv)) = FailedLogins (fst acc)
  /\ LastFailedAt (fst (decodeUserField acc kv)) = LastFailedAt (fst acc).
Proof.
  destruct acc as [u e], kv as [k v]. unfold decodeUserField. cbn [fst].
  repeat match goal with
         | |- context [if String.eqb k ?x then _ else _] =>
             destruct (String.eqb k x)
         end;
    unfold store;
    try match goal with
        | |- context [match ?d with Some _ => _ | None => _ end] => destruct d
        end;
    destruct u as [[] ]; repeat split.
Qed.

Lemma Unmarshal_User_hidden data u0 :
  Password (fst (Unmarshal_User data u0)) = Password u0
  /\ Salt (fst (Unmarshal_User data u0)) = Salt u0
  /\ FailedLogins (fst (Unmarshal_User data u0)) = FailedLogins u0
  /\ LastFailedAt (fst (Unmarshal_User data u0)) = LastFailedAt u0.
Proof.
  assert (Hfold : forall fields acc,
             Password (fst (fold_left decodeUserField fields acc))
             = Password (fst acc)
             /\ Salt (fst (fold_left decodeUserField fields acc)) = Salt (fst acc)
             /\ FailedLogins (fst (fold_left decodeUserField fields acc))
                = FailedLogins (fst acc)
             /\ LastFailedAt (fst (fold_left decodeUserField fields acc))
                = LastFailedAt (fst acc)).
  { induction fields as [|kv r IH]; intros acc; [repeat split|].
    cbn [fold_left].
    destruct (IH (decodeUserField acc kv)) as (H1 & H2 & H3 & H4).
    destruct (decodeUserField_hidden acc kv) as (G1 & G2 & G3 & G4).
    rewrite H1, H2, H3, H4. auto. }
  destruct data; try (repeat split; fail). apply (Hfold fields (u0, None)).
Qed.

(** X6: The four fields tagged "-" never travel through JSON: the document
    that [json.Marshal] writes for a user is the same whatever they
    hold, and [json.Unmarshal] of any document leaves them as they
    were. *)
Theorem hidden_fields_stay_out_of_JSON u password salt n t data :
  Marshal_User
    (set_LastFailedAt t
       (set_FailedLogins n (set_Salt salt (set_Password password u))))
  = Marshal_User u
  /\ Password (fst (Unmarshal_User data u)) = Password u
  /\ Salt (fst (Unmarshal_User data u)) = Salt u
  /\ FailedLogins (fst (Unmarshal_User data u)) = FailedLogins u
  /\ LastFailedAt (fst (Unmarshal_User data u)) = LastFailedAt u.
Proof.
  split; [destruct u as [[] ]; reflexivity|].
  exact (Unmarshal_User_hidden data u).
Qed.

Lemma Sum256_not_empty msg : sha256.Sum256 msg <> "".
Proof.
  unfold sha256.Sum256, sha256.state_words.
  destruct (sha256.digest_state msg). cbn. discriminate.
Qed.

Lemma CheckPassword_empty u password :
  Password u = "" -> CheckPassword u password = false.
Proof.
  intros Hp. unfold CheckPassword, hashPassword. rewrite Hp.
  destruct (sha256.Sum256 (password ++ Salt u)) as [|c r] eqn:E.
  - destruct (Sum256_not_empty _ E).
  - reflexivity.
Qed.

(** X7: A user that comes out of the cache has no password and no salt, and
    passes no password check. *)
Theorem getUserFromCache_has_no_credentials key w u w1 :
  users.getUserFromCache key w = (Ok u, w1) ->
  Password u = "" /\ Salt u = ""
  /\ forall password, CheckPassword u password = false.
Proof.
  intros H. unfold users.getUserFromCache in H.
  apply bind_ok_inv in H as (cached & w0 & _ & H).
  destruct (Unmarshal_User_hidden cached zeroUser)
    as (Hp & Hs & _).
  destruct (Unmarshal_User cached zeroUser) as [u1 [err|]];
    [discriminate H|].
  injection H as <- <-. cbn [fst] in Hp, Hs.
  split; [exact Hp|]. split; [exact Hs|].
  intros password. apply CheckPassword_empty. exact Hp.
Qed.

Lemma getUserFromCache_has_no_credentials_witness :
  exists u w1,
    users.getUserFromCache (users.CacheKeyUser sample.aliceID) sample.withAlice
    = (Ok u, w1)
    /\ Username u = "alice_1"
    /\ Password u = ""
    /\ CheckPassword u "Passw0rdX" = false.
Proof.
  pose (r := users.getUserFromCache (users.CacheKeyUser sample.aliceID)
                                    sample.withAlice).
  pose (u := match fst r with Ok u => u | Err _ => zeroUser end).
  assert (H : users.getUserFromCache (users.CacheKeyUser sample.aliceID)
                                     sample.withAlice = (Ok u, snd r))
    by (vm_compute; reflexivity).
  destruct (getUserFromCache_has_no_credentials _ _ _ _ H) as (Hp & _ & Hc).
  exists u, (snd r). split; [exact H|].
  split; [vm_compute; reflexivity|]. split; [exact Hp | apply Hc].
Defined.

(** X8: [ChangePassword] for a user that the cache holds under the key of
    the id: whatever the current password in the request, the operation
    ends with "current password is incorrect" and the store is not
    touched. *)
Theorem ChangePassword_fails_on_cache_hit w id req v deadline cu :
  cache_faults w = [] ->
  cache w !! users.CacheKeyUser id = Some (v, deadline) ->
  now w < deadline ->
  Unmarshal_User v zeroUser = (cu, None) ->
  ChangePasswordRequest_Validate req = [] ->
  exists w1,
    users.ChangePassword id req w
    = (Err (errors_New "current password is incorrect"), w1)
    /\ docs w1 = docs w
    /\ trace w1 = (trace w ++ [CacheGet (users.CacheKeyUser id) None])%list.
Proof.
  intros Hc Hlook Hlt Hdec Hval.
  destruct (cachedRead_hit_run w (users.CacheKeyUser id) (repositories.GetByID id)
              v deadline cu Hc Hlook Hlt Hdec) as (w1 & Hrun & Ht & Hd & _).
  destruct (Unmarshal_User_hidden v zeroUser) as (Hp & _).
  rewrite Hdec in Hp. cbn [fst] in Hp.
  exists w1. split; [|split; assumption].
  unfold users.ChangePassword. rewrite Hval. cbn [length Nat.ltb Nat.leb].
  unfold users.GetUserByID. unfold bind at 1. rewrite Hrun.
  rewrite (CheckPassword_empty cu _ Hp). reflexivity.
Qed.

Lemma ChangePassword_fails_on_cache_hit_witness :
  exists w1,
    users.ChangePassword sample.aliceID
      (mkChangePasswordRequest "Passw0rdX" "N3wPassw0rd" "N3wPassw0rd")
      sample.withAlice
    = (Err (errors_New "current password is incorrect"), w1)
    /\ docs w1 = docs sample.withAlice.
Proof.
  destruct (ChangePassword_fails_on_cache_hit sample.withAlice sample.aliceID
              (mkChangePasswordRequest "Passw0rdX" "N3wPassw0rd" "N3wPassw0rd")
              (Marshal_User sample.alice) (1000 + users.UserCacheExpiration)
              (fst (Unmarshal_User (Marshal_User sample.alice) zeroUser)))
    as (w1 & H & Hd & _).
  - vm_compute. reflexivity.
  - vm_compute. reflexivity.
  - vm_compute. reflexivity.
  - vm_compute. reflexivity.
  - vm_compute. reflexivity.
  - exists w1. split; assumption.
Defined.

(** X9: [ChangePassword] of Alice with her current password, on the
    store that holds her behind an empty cache: it succeeds, and the
    stored user then passes the check of the new password and no longer
    that of the old one. *)
Theorem ChangePassword_on_a_cold_cache :
  let req := mkChangePasswordRequest "Passw0rdX" "N3wPassw0rd" "N3wPassw0rd" in
  let w1 := snd (users.ChangePassword sample.aliceID req sample.cold) in
  fst (users.ChangePassword sample.aliceID req sample.cold) = Ok tt
  /\ List.map (fun u => CheckPassword u "N3wPassw0rd") (docs w1) = [true]
  /\ List.map (fun u => CheckPassword u "Passw0rdX") (docs w1) = [false]
  /\ List.map (fun u => CheckPassword u "Passw0rdX") (docs sample.cold)
     = [true].
Proof. vm_compute. repeat split. Qed.

(* ===================================================================== *)
(** ** Validation comes before any effect                                 *)
(* ===================================================================== *)

(** X10: A request that does not pass its validation makes [CreateUser],
    [UpdateUser] and [ChangePassword] return an error without a call to
    the cache or the store: the world is as it was. *)
Theorem invalid_request_has_no_effect w :
  (forall req,
     snd (CreateUserRequest_Validate req) <> [] ->
     exists e, users.CreateUser req w = (Err e, w))
  /\ (forall id req,
        snd (UpdateUserRequest_Validate req) <> [] ->
        exists e, users.UpdateUser id req w = (Err e, w))
  /\ (forall id req,
        ChangePasswordRequest_Validate req <> [] ->
        exists e, users.ChangePassword id req w = (Err e, w)).
Proof.
  split; [|split].
  - intros req H. unfold users.CreateUser.
    destruct (CreateUserRequest_Validate req) as [req1 [|e0 errors]];
      [destruct H; reflexivity|].
    eexists. reflexivity.
  - intros id req H. unfold users.UpdateUser.
    destruct (UpdateUserRequest_Validate req) as [req1 [|e0 errors]];
      [destruct H; reflexivity|].
    eexists. reflexivity.
  - intros id req H. unfold users.ChangePassword.
    destruct (ChangePasswordRequest_Validate req) as [|e0 errors];
      [destruct H; reflexivity|].
    eexists. reflexivity.
Qed.

Lemma invalid_request_has_no_effect_witness :
  exists e,
    users.CreateUser
      (mkCreateUserRequest "al" "Alice@Example.com" "Passw0rdX" "Al" "Ice")
      sample.withAlice
    = (Err e, sample.withAlice).
Proof.
  destruct (invalid_request_has_no_effect sample.withAlice) as (H & _).
  apply H. vm_compute. discriminate.
Defined.

(* ===================================================================== *)
(** ** Reads behind a cache that is down                                  *)
(* ===================================================================== *)

Lemma cacheUser_dead_cache w u m2 m3 m4 rest :
  cache_faults w = Some m2 :: Some m3 :: Some m4 :: rest ->
  exists w1,
    users.cacheUser u w = (Ok tt, w1)
    /\ docs w1 = docs w /\ cache w1 = cache w.
Proof.
  intros Hc. unfold users.cacheUser, Marshal.
  destruct (supported (Marshal_User u)).
  - open_world w.
    unfold forEach, bind, try, database.Set_, database.redis_call. simpl.
    eexists. split; [reflexivity|]. split; reflexivity.
  - exists w. split; [reflexivity|]. split; reflexivity.
Qed.

(** X11: When every call to the cache fails, [GetUserByID] returns what the
    store answers: the user it holds under the id, or "user not found";
    the store and the cache are as they were. *)
Theorem GetUserByID_behind_a_dead_cache w id oid m1 m2 m3 m4 rest :
  cache_faults w = Some m1 :: Some m2 :: Some m3 :: Some m4 :: rest ->
  store_faults w = [] ->
  ObjectIDFromHex id = Ok oid ->
  fst (users.GetUserByID id w)
  = match List.find (byID oid) (docs w) with
    | Some u => Ok u
    | None => Err repositories.notFound
    end
  /\ docs (snd (users.GetUserByID id w)) = docs w
  /\ cache (snd (users.GetUserByID id w)) = cache w.
Proof.
  intros Hc Hs Hhex. open_world w.
  unfold users.GetUserByID, users.cachedRead, users.getUserFromCache,
    repositories.GetByID, repositories.parseID, repositories.decodeOne.
  rewrite Hhex.
  unfold bind, try, wrap, ret, fail, database.Get, database.redis_call,
    mongo.FindOne, mongo.call. simpl.
  change (fun d : User => (ID d =? oid)%string && mongo.alive d) with (byID oid).
  destruct (List.find (byID oid) ds) as [u|]; simpl; [|repeat split].
  match goal with
  | |- context [users.cacheUser u ?w0] =>
      destruct (cacheUser_dead_cache w0 u m2 m3 m4 rest eq_refl)
        as (w1 & Hrun & Hd & Hk);
      rewrite Hrun
  end.
  simpl. rewrite Hd, Hk. repeat split.
Qed.

Lemma GetUserByID_behind_a_dead_cache_witness :
  fst (users.GetUserByID sample.aliceID
         (with_cache_faults [Some "down"; Some "down"; Some "down"; Some "down"]
                            sample.withAlice))
  = Ok sample.alice.
Proof.
  destruct (GetUserByID_behind_a_dead_cache
              (with_cache_faults
                 [Some "down"; Some "down"; Some "down"; Some "down"]
                 sample.withAlice)
              sample.aliceID sample.oid1 "down" "down" "down" "down" [])
    as (H & _).
  - vm_compute. reflexivity.
  - vm_compute. reflexivity.
  - vm_compute. reflexivity.
  - rewrite H. vm_compute. reflexivity.
Defined.

(** X12: [VerifyUser] when the cache is down for the deletes: the first call
    verifies Alice in the store, but her unverified copy stays in the
    cache, and a second call, an instant later, takes her for unverified
    and verifies her again instead of rejecting. *)
Theorem VerifyUser_twice_behind_failing_deletes :
  let down := Some "down" in
  let w := with_cache_faults [None; down; down; down; down; down; down]
                             sample.withAlice in
  let w1 := with_now 2000 (snd (users.VerifyUser sample.aliceID w)) in
  let w2 := snd (users.VerifyUser sample.aliceID w1) in
  fst (users.VerifyUser sample.aliceID w) = Ok tt
  /\ List.map EmailVerifiedAt (docs w1) = [Some 1000]
  /\ cache_faults w1 = []
  /\ fst (users.VerifyUser sample.aliceID w1) = Ok tt
  /\ List.map EmailVerifiedAt (docs w2) = [Some 2000].
Proof. vm_compute. repeat split. Qed.

(* ===================================================================== *)
(** ** Identifiers and digests                                            *)
(* ===================================================================== *)

(** X14: The identifier of a user in text is twenty-four characters that
    [IsValidObjectID] accepts and [ObjectIDFromHex] reads back as the
    identifier. *)
Theorem GetIDString_reads_back u :
  String.length (ID u) = 12%nat ->
  String.length (GetIDString u) = 24%nat
  /\ ObjectIDFromHex (GetIDString u) = Ok (ID u)
  /\ IsValidObjectID (GetIDString u) = true.
Proof.
  intros Hlen. unfold IsValidObjectID, GetIDString, Hex, ObjectIDFromHex.
  assert (Hl : String.length (hex.EncodeToString (ID u)) = 24%nat)
    by (rewrite EncodeToString_length, Hlen; reflexivity).
  rewrite Hl, DecodeString_EncodeToString. repeat split.
Qed.

Lemma GetIDString_reads_back_witness :
  ObjectIDFromHex sample.aliceID = Ok sample.oid1
  /\ IsValidObjectID "000000000000000000000001" = true
  /\ IsValidObjectID "00000000000000000000000g" = false
  /\ IsValidObjectID "0001" = false.
Proof.
  destruct (GetIDString_reads_back sample.alice) as (_ & H & _).
  - vm_compute. reflexivity.
  - split; [exact H|]. vm_compute. repeat split.
Defined.

(** X15: [hashPassword] is the SHA-256 of the password followed by the salt,
    in lowercase hexadecimal: the three digests are those of the test
    vectors "abc", the empty message and the two-block message of
    FIPS 180. *)
Theorem hashPassword_known_answers :
  hashPassword "a" "bc"
  = "ba7816bf8f01cfea414140de5dae2223b00361a396177a9cb410ff61f20015ad"
  /\ hashPassword "" ""
     = "e3b0c44298fc1c149afbf4c8996fb92427ae41e4649b934ca495991b7852b855"
  /\ hashPassword "abcdbcdecdefdefgefghfghighij" "hijkijkljklmklmnlmnomnopnopq"
     = "248d6a61d20638b8e5c026930c3e6039a33ce45964ff2167f6ecedd419db06c1".
Proof.
  split; [vm_compute; reflexivity|].
  split; vm_compute; reflexivity.
Qed.

(* ===================================================================== *)
(** ** Usernames in use                                                   *)
(* ===================================================================== *)

(** X16: The existence check of [CreateUser] stays in the cache after the
    user is created.  Bob has just been created, so the key of his
    username still says that no such user exists.  [UpdateUser] of
    Alice to that username trusts the key.  Without the unique indexes
    the update succeeds and two users carry the username; with them the
    store refuses the update.  Behind an empty cache the service itself
    rejects the update. *)
Theorem UpdateUser_trusts_a_stale_existence_check :
  let key := users.CacheKeyUserExists "username" "bob_1" in
  let stale := sample.withoutIndexes sample.withBob in
  cache sample.withBob !! key
  = Some (json.Bool false, 1000 + users.UserExistsCacheExpiration)
  /\ List.map Username (docs sample.withBob) = ["alice_1"; "bob_1"]
  /\ is_ok (fst (users.UpdateUser sample.aliceID sample.takeBob stale)) = true
  /\ List.map Username
       (docs (snd (users.UpdateUser sample.aliceID sample.takeBob stale)))
     = ["bob_1"; "bob_1"]
  /\ List.map mongo.alive
       (docs (snd (users.UpdateUser sample.aliceID sample.takeBob stale)))
     = [true; true]
  /\ fst (users.UpdateUser sample.aliceID sample.takeBob sample.withBob)
     = Err (Wrapf "failed to update user"
              (Wrapf "failed to update user" mongo.duplicateKey))
  /\ fst (users.UpdateUser sample.aliceID sample.takeBob
            (with_cache ∅ stale))
     = Err (errors_New "username 'bob_1' already exists").
Proof.
  cbv zeta.
  split; [vm_compute; reflexivity|].
  split; [vm_compute; reflexivity|].
  split; [vm_compute; reflexivity|].
  split; [vm_compute; reflexivity|].
  split; [vm_compute; reflexivity|].
  split; vm_compute; reflexivity.
Qed.

(** X17: [CreateUser] stores the username in lowercase and refuses
    "Alice_1" while "alice_1" exists.  [UpdateUser] stores the username
    as the request has it: Bob becomes "Alice_1", the unique indexes
    notwithstanding, and the store then holds "alice_1" and "Alice_1";
    a read by the username "Alice_1" returns Bob. *)
Theorem UpdateUser_stores_the_username_as_given :
  let w := with_cache ∅ sample.withBob in
  let w1 := snd (users.UpdateUser sample.bobID sample.takeAlice w) in
  unique_indexes w = true
  /\ fst (users.CreateUser
            (mkCreateUserRequest "Alice_1" "other@example.com" "Passw0rdZ"
                                 "" "") w)
     = Err (Wrapf "failed to save user"
              (errors_New "username already exists"))
  /\ is_ok (fst (users.UpdateUser sample.bobID sample.takeAlice w)) = true
  /\ List.map Username (docs w1) = ["alice_1"; "Alice_1"]
  /\ List.map GetIDString (docs w1) = [sample.aliceID; sample.bobID]
  /\ match fst (users.GetUserByUsername "Alice_1" w1) with
     | Ok u => GetIDString u = sample.bobID
     | Err _ => False
     end.
Proof.
  cbv zeta.
  split; [vm_compute; reflexivity|].
  split; [vm_compute; reflexivity|].
  split; [vm_compute; reflexivity|].
  split; [vm_compute; reflexivity|].
  split; vm_compute; reflexivity.
Qed.

(* ===================================================================== *)
(** ** What an operation does to the documents                            *)
(* ===================================================================== *)

Lemma keeps_ret {A} (a : A) : KeepsDocs (ret a).
Proof. intros w. reflexivity. Qed.

Lemma keeps_fail {A} e : KeepsDocs (@fail A e).
Proof. intros w. reflexivity. Qed.

Lemma keeps_gets {A} (f : World -> A) : KeepsDocs (gets f).
Proof. intros w. reflexivity. Qed.

Lemma keeps_bind {A B} (m : M A) (k : A -> M B) :
  KeepsDocs m -> (forall a, KeepsDocs (k a)) -> KeepsDocs (bind m k).
Proof.
  intros Hm Hk w. unfold bind. specialize (Hm w).
  destruct (m w) as [[a|e] w1]; simpl in *; [|exact Hm].
  rewrite (Hk a w1). exact Hm.
Qed.

Lemma keeps_try {A} (m : M A) : KeepsDocs m -> KeepsDocs (try m).
Proof.
  intros Hm w. unfold try. specialize (Hm w).
  destruct (m w) as [r w1]. exact Hm.
Qed.

Lemma keeps_wrap {A} msg (m : M A) : KeepsDocs m -> KeepsDocs (wrap msg m).
Proof.
  intros Hm w. unfold wrap. specialize (Hm w).
  destruct (m w) as [[a|e] w1]; exact Hm.
Qed.

Lemma keeps_forEach {A} (l : list A) (body : A -> M unit) :
  (forall a, KeepsDocs (body a)) -> KeepsDocs (forEach l body).
Proof.
  intros Hb. induction l as [|a r IH]; [apply keeps_ret|].
  apply keeps_bind; [apply Hb | intros _; exact IH].
Qed.

Lemma keeps_redis_call {A} ev (run : World -> result A * World) :
  (forall w, docs (snd (run w)) = docs w) ->
  KeepsDocs (database.redis_call ev run).
Proof.
  intros Hrun w. unfold database.redis_call.
  destruct (next_fault (cache_faults w)) as [[msg|] rest]; [reflexivity|].
  specialize (Hrun (with_cache_faults rest w)).
  destruct (run (with_cache_faults rest w)) as [r w1]. exact Hrun.
Qed.

Lemma keeps_mongo_call {A} op (run : World -> result A * World) :
  (forall w, docs (snd (run w)) = docs w) ->
  KeepsDocs (mongo.call op run).
Proof.
  intros Hrun w. unfold mongo.call.
  destruct (next_fault (store_faults w)) as [[msg|] rest]; [reflexivity|].
  specialize (Hrun (with_store_faults rest w)).
  destruct (run (with_store_faults rest w)) as [r w1]. exact Hrun.
Qed.

Lemma keeps_Get key : KeepsDocs (database.Get key).
Proof.
  apply keeps_redis_call. intros w.
  destruct (cache w !! key) as [[v d]|]; [|reflexivity].
  destruct (now w <? d); reflexivity.
Qed.

Lemma keeps_Set key v ttl : KeepsDocs (database.Set_ key v ttl).
Proof. apply keeps_redis_call. reflexivity. Qed.

Lemma keeps_Delete key : KeepsDocs (database.Delete key).
Proof. apply keeps_redis_call. reflexivity. Qed.

Lemma keeps_CountDocuments f : KeepsDocs (mongo.CountDocuments f).
Proof. apply keeps_mongo_call. reflexivity. Qed.

Lemma keeps_FindOne f : KeepsDocs (mongo.FindOne f).
Proof. apply keeps_mongo_call. reflexivity. Qed.

Lemma keeps_checkUserExists field value :
  KeepsDocs (users.checkUserExists field value).
Proof.
  unfold users.checkUserExists, repositories.ExistsByEmail,
    repositories.ExistsByUsername.
  apply keeps_bind; [apply keeps_try, keeps_Get|].
  intros [cached|e]; [apply keeps_ret|].
  apply keeps_bind.
  - destruct (String.eqb field "email");
      [|destruct (String.eqb field "username"); [|apply keeps_fail]];
      (apply keeps_bind;
       [apply keeps_wrap, keeps_CountDocuments | intros; apply keeps_ret]).
  - intros b. apply keeps_bind; [apply keeps_try, keeps_Set|].
    intros; apply keeps_ret.
Qed.

Lemma keeps_cacheUser u : KeepsDocs (users.cacheUser u).
Proof.
  unfold users.cacheUser.
  destruct (Marshal (Marshal_User u)); [|apply keeps_ret].
  apply keeps_forEach. intros key.
  apply keeps_bind; [apply keeps_try, keeps_Set | intros; apply keeps_ret].
Qed.

Lemma keeps_invalidateUserStats : KeepsDocs users.invalidateUserStats.
Proof.
  unfold users.invalidateUserStats.
  apply keeps_bind; [apply keeps_try, keeps_Delete | intros; apply keeps_ret].
Qed.

Lemma keeps_invalidateUserCaches u : KeepsDocs (users.invalidateUserCaches u).
Proof.
  unfold users.invalidateUserCaches.
  apply keeps_forEach. intros key.
  apply keeps_bind; [apply keeps_try, keeps_Delete | intros; apply keeps_ret].
Qed.

Lemma keeps_newUser username email password :
  KeepsDocs (users.newUser username email password).
Proof.
  intros w. unfold users.newUser, bind, gets, modify. simpl.
  destruct (NewUser _ _ _ _ _ _); reflexivity.
Qed.

(** The three steps after a write to the store never fail. *)
Lemma forEach_try_ok {A B} (l : list A) (body : A -> M B) w :
  fst (forEach l (fun a => bind (try (body a)) (fun _ => ret tt)) w) = Ok tt.
Proof.
  revert w. induction l as [|a r IH]; intros w; [reflexivity|].
  cbn [forEach]. unfold bind at 1. unfold bind at 1, try.
  destruct (body a w) as [x w1]. simpl. apply IH.
Qed.

Lemma cacheUser_ok u w : fst (users.cacheUser u w) = Ok tt.
Proof.
  unfold users.cacheUser.
  destruct (Marshal (Marshal_User u)); [|reflexivity].
  apply forEach_try_ok.
Qed.

Lemma invalidateUserStats_ok w : fst (users.invalidateUserStats w) = Ok tt.
Proof.
  unfold users.invalidateUserStats, bind, try.
  destruct (database.Delete users.CacheKeyUserStats w). reflexivity.
Qed.

Lemma count_none (f : User -> bool) l :
  (0 <? Z.of_nat (List.length (List.filter f l))) = false ->
  forall d, In d l -> f d = false.
Proof.
  intros H d Hin. destruct (f d) eqn:E; [|reflexivity].
  assert (Hf : In d (List.filter f l)) by (apply filter_In; auto).
  destruct (List.filter f l); [destruct Hf|].
  simpl in H. apply Z.ltb_ge in H. lia.
Qed.

(** [UserRepository.Create]: on success the collection has the returned
    user at its end and no user that is not deleted had its username or
    email; on an error the collection is as it was. *)
Lemma Create_outcome user w :
  match fst (repositories.Create user w) with
  | Ok u =>
      docs (snd (repositories.Create user w)) = (docs w ++ [u])%list
      /\ Username u = Username user /\ Email u = Email user
      /\ forall d, In d (docs w) ->
           byUsername (Username user) d = false
           /\ byEmail (Email user) d = false
  | Err _ => docs (snd (repositories.Create user w)) = docs w
  end.
Proof.
  destruct w as [ds ui rx c t no rr dr sf cf tr].
  unfold repositories.Create, repositories.ExistsByUsername,
    repositories.ExistsByEmail, mongo.CountDocuments, mongo.InsertOne,
    mongo.call, bind, wrap, ret, fail.
  cbn [store_faults with_store_faults docs unique_indexes regex cache now
       NewObjectID rand_Read draws cache_faults trace emit with_trace fst snd].
  destruct (next_fault sf) as [[m1|] sf1]; [reflexivity|].
  cbn [store_faults with_store_faults docs unique_indexes regex cache now
       NewObjectID rand_Read draws cache_faults trace emit with_trace fst snd].
  change (fun d : User => (Username d =? Username user)%string && mongo.alive d)
    with (byUsername (Username user)).
  destruct (0 <? Z.of_nat (List.length (List.filter (byUsername (Username user)) ds)))
    eqn:Hu; [reflexivity|].
  cbn [store_faults with_store_faults docs unique_indexes regex cache now
       NewObjectID rand_Read draws cache_faults trace emit with_trace fst snd].
  destruct (next_fault sf1) as [[m2|] sf2]; [reflexivity|].
  cbn [store_faults with_store_faults docs unique_indexes regex cache now
       NewObjectID rand_Read draws cache_faults trace emit with_trace fst snd].
  change (fun d : User => (Email d =? Email user)%string && mongo.alive d)
    with (byEmail (Email user)).
  destruct (0 <? Z.of_nat (List.length (List.filter (byEmail (Email user)) ds)))
    eqn:He; [reflexivity|].
  cbn [store_faults with_store_faults docs unique_indexes regex cache now
       NewObjectID rand_Read draws cache_faults trace emit with_trace fst snd].
  destruct (next_fault sf2) as [[m3|] sf3]; [reflexivity|].
  cbn [store_faults with_store_faults docs unique_indexes regex cache now
       NewObjectID rand_Read draws cache_faults trace emit with_trace fst snd].
  assert (Hfresh : forall d, In d ds ->
             byUsername (Username user) d = false
             /\ byEmail (Email user) d = false).
  { intros d Hin. split; [exact (count_none _ _ Hu d Hin)
                         | exact (count_none _ _ He d Hin)]. }
  destruct (String.eqb (ID user) NilObjectID);
    cbn [store_faults with_store_faults docs unique_indexes regex cache now
         NewObjectID rand_Read draws cache_faults trace emit with_trace fst snd
         with_draws with_docs];
    match goal with
    | |- context [if ?b then _ else _] => destruct b
    end;
    cbn [store_faults with_store_faults docs unique_indexes regex cache now
         NewObjectID rand_Read draws cache_faults trace emit with_trace fst snd
         with_draws with_docs];
    try reflexivity;
    (split; [destruct user as [[] ]; reflexivity|]);
    (split; [destruct user as [[] ]; reflexivity|]);
    (split; [destruct user as [[] ]; reflexivity | exact Hfresh]).
Qed.

Lemma bind_run_ok {A B} (m : M A) (k : A -> M B) w a w1 :
  m w = (Ok a, w1) -> bind m k w = k a w1.
Proof. intros H. unfold bind. rewrite H. reflexivity. Qed.

Lemma bind_run_err {A B} (m : M A) (k : A -> M B) w e w1 :
  m w = (Err e, w1) -> bind m k w = (Err e, w1).
Proof. intros H. unfold bind. rewrite H. reflexivity. Qed.

Lemma insertsOne_bind {A} l (m : M A) (k : A -> M User) :
  KeepsDocs m ->
  (forall a w1, docs w1 = l ->
     insertsOne l (fst (k a w1)) (docs (snd (k a w1)))) ->
  forall w, docs w = l ->
    insertsOne l (fst (bind m k w)) (docs (snd (bind m k w))).
Proof.
  intros Hm Hk w Hw. unfold bind. specialize (Hm w).
  destruct (m w) as [[a|e] w1]; simpl in Hm.
  - apply Hk. congruence.
  - simpl. congruence.
Qed.

Lemma after_the_insert u w :
  fst ((users.cacheUser u ;;; users.invalidateUserListCaches ;;;
        users.invalidateUserStats ;;; ret u) w) = Ok u
  /\ docs (snd ((users.cacheUser u ;;; users.invalidateUserListCaches ;;;
                 users.invalidateUserStats ;;; ret u) w)) = docs w.
Proof.
  pose proof (cacheUser_ok u w) as H1.
  pose proof (keeps_cacheUser u w) as D1.
  unfold bind. destruct (users.cacheUser u w) as [r1 w1].
  simpl in H1, D1. subst r1.
  rewrite invalidateUserListCaches_noop.
  pose proof (invalidateUserStats_ok w1) as H2.
  pose proof (keeps_invalidateUserStats w1) as D2.
  destruct (users.invalidateUserStats w1) as [r2 w2].
  simpl in H2, D2. subst r2. simpl. split; [reflexivity | congruence].
Qed.

Lemma CreateUser_outcome req w :
  insertsOne (docs w) (fst (users.CreateUser req w))
             (docs (snd (users.CreateUser req w))).
Proof.
  unfold users.CreateUser.
  destruct (CreateUserRequest_Validate req) as [rq errors].
  destruct (0 <? List.length errors)%nat; [reflexivity|].
  apply insertsOne_bind; [apply keeps_wrap, keeps_checkUserExists | | reflexivity].
  intros [|] w1 H1; [exact H1|].
  apply insertsOne_bind; [apply keeps_wrap, keeps_checkUserExists | | exact H1].
  intros [|] w2 H2; [exact H2|].
  apply insertsOne_bind; [apply keeps_wrap, keeps_newUser | | exact H2].
  intros user w3 H3.
  set (user' := set_LastName (create_LastName rq)
                  (set_FirstName (create_FirstName rq) user)).
  pose proof (Create_outcome user' w3) as Hc.
  destruct (repositories.Create user' w3) as [[u|e] w4] eqn:E; simpl in Hc.
  2:{ assert (W : wrap "failed to save user" (repositories.Create user') w3
                  = (Err (Wrapf "failed to save user" e), w4))
        by (unfold wrap; rewrite E; reflexivity).
      rewrite (bind_run_err _ _ _ _ _ W). unfold insertsOne. simpl.
      congruence. }
  assert (W : wrap "failed to save user" (repositories.Create user') w3
              = (Ok u, w4))
    by (unfold wrap; rewrite E; reflexivity).
  rewrite (bind_run_ok _ _ _ _ _ W).
  destruct Hc as (Hd & Hn & He & Hfresh).
  destruct (after_the_insert u w4) as [Hr Hk].
  unfold insertsOne. rewrite Hr, Hk, Hd, H3. split; [reflexivity|].
  intros d Hin Ha. rewrite H3 in Hfresh.
  destruct (Hfresh d Hin) as [Fu Fe].
  unfold byUsername, byEmail in Fu, Fe. rewrite Ha, andb_true_r in Fu, Fe.
  apply String.eqb_neq in Fu, Fe. rewrite Hn, He. split; assumption.
Qed.

Lemma distinctUsers_snoc l u :
  distinctUsers l ->
  (forall d, In d l -> mongo.alive d = true ->
     Username d <> Username u /\ Email d <> Email u) ->
  distinctUsers (l ++ [u]).
Proof.
  intros [Hn He] Hfresh. unfold distinctUsers.
  rewrite List.filter_app, !List.map_app. simpl.
  destruct (mongo.alive u); simpl; [|rewrite !app_nil_r; split; assumption].
  split; (apply List.NoDup_app; [assumption | repeat constructor; intros [] |]).
  - intros x Hin [<- | []]. apply in_map_iff in Hin as (d & Hd & Hin).
    apply filter_In in Hin as [Hin Ha].
    destruct (Hfresh d Hin Ha) as [F _]. exact (F Hd).
  - intros x Hin [<- | []]. apply in_map_iff in Hin as (d & Hd & Hin).
    apply filter_In in Hin as [Hin Ha].
    destruct (Hfresh d Hin Ha) as [_ F]. exact (F Hd).
Qed.

(** X18: [CreateUser] in any state of the cache and of the store, faults
    included: when it succeeds, the collection has the returned user at
    its end, and no user that is not deleted had that username or that
    email; when it fails, the collection is as it was.  So users that
    were distinct by username and by email stay so. *)
Theorem CreateUser_adds_one_distinct_user req w :
  insertsOne (docs w) (fst (users.CreateUser req w))
             (docs (snd (users.CreateUser req w)))
  /\ (distinctUsers (docs w) ->
      distinctUsers (docs (snd (users.CreateUser req w)))).
Proof.
  pose proof (CreateUser_outcome req w) as H. split; [exact H|].
  intros Hd. unfold insertsOne in H.
  destruct (fst (users.CreateUser req w)) as [u|e].
  - destruct H as [-> Hfresh]. apply distinctUsers_snoc; assumption.
  - rewrite H. exact Hd.
Qed.

(* ===================================================================== *)
(** ** Deleting a user                                                    *)
(* ===================================================================== *)

Lemma applySet_delete t u :
  mongo.applySet
    (<["updated_at" := ATime t]>
       (<["is_active" := ABool false]> (<["deleted_at" := ATime t]> ∅)))
    u
  = deletedAt t u.
Proof. destruct u as [[] ]. vm_compute. reflexivity. Qed.

(** [SoftDelete] on a healthy store that holds the user. *)
Lemma SoftDelete_run w id oid u :
  store_faults w = [] ->
  ObjectIDFromHex id = Ok oid ->
  List.find (byID oid) (docs w) = Some u ->
  uniqueAmongOthers w oid u ->
  exists w1,
    repositories.SoftDelete id w = (Ok tt, w1)
    /\ frame w w1 [StoreCall "UpdateOne" None]
    /\ docs w1 = replaceFirst (byID oid) (deletedAt (now w)) (docs w)
    /\ cache w1 = cache w.
Proof.
  intros Hs Hhex Hfind Huniq. unfold uniqueAmongOthers in Huniq.
  destruct (updateFirst_found (byID oid) (deletedAt (now w)) (docs w) [] u Hfind)
    as (b & a & Hup & Hdocs & Hothers).
  open_world w.
  unfold repositories.SoftDelete, repositories.Update, repositories.parseID,
    bind, gets, wrap, mongo.UpdateOne, mongo.call.
  rewrite Hhex. simpl.
  change (fun d : User => (ID d =? oid)%string && mongo.alive d) with (byID oid).
  assert (Hf : mongo.updateFirst (byID oid)
                 (mongo.applySet
                    (<["updated_at" := ATime t]>
                       (<["is_active" := ABool false]>
                          (<["deleted_at" := ATime t]> ∅))))
                 [] ds
               = Some (deletedAt t u, b, a)).
  { rewrite <- Hup. clear. generalize (@nil User).
    induction ds as [|d r IH]; intros pre; [reflexivity|].
    simpl. destruct (byID oid d); [rewrite applySet_delete; reflexivity | apply IH]. }
  rewrite Hf.
  assert (Hclash : ui && mongo.clashes (deletedAt t u) (b ++ a) = false).
  { destruct ui; [|reflexivity]. simpl. rewrite Hothers. simpl.
    rewrite (clashes_keys u) by (destruct u as [[] ]; reflexivity). auto. }
  rewrite Hclash. simpl.
  eexists. split; [reflexivity|]. rewrite Hdocs. repeat split; frame_done.
Qed.

Lemma byID_true oid d : byID oid d = true -> ID d = oid.
Proof.
  unfold byID. intros H. apply andb_true_iff in H as [H _].
  apply String.eqb_eq. exact H.
Qed.

Lemma byID_deletedAt oid t d : byID oid (deletedAt t d) = false.
Proof. unfold byID. destruct d as [[] ]. simpl. apply andb_false_r. Qed.

(** Identifiers are unique: once the document of the id is marked
    deleted, no document passes the filter of the id. *)
Lemma find_after_delete oid t l :
  List.NoDup (List.map ID l) ->
  List.find (byID oid) (replaceFirst (byID oid) (deletedAt t) l) = None.
Proof.
  induction l as [|d r IH]; intros Hnd; [reflexivity|].
  inversion Hnd as [|x xs Hx Hxs]; subst. simpl.
  destruct (byID oid d) eqn:E.
  - simpl. rewrite byID_deletedAt.
    apply byID_true in E.
    destruct (List.find (byID oid) r) as [d'|] eqn:F; [|reflexivity].
    apply List.find_some in F as [Hin Hd']. apply byID_true in Hd'.
    exfalso. apply Hx. rewrite E, <- Hd'. apply in_map. exact Hin.
  - simpl. rewrite E. apply IH. exact Hxs.
Qed.

(** [DeleteUser] once [GetUserByID] has handed it a snapshot [s], on
    healthy backends. *)
Lemma DeleteUser_run w w0 evs id oid s u :
  users.GetUserByID id w = (Ok s, w0) ->
  frame w w0 evs -> docs w0 = docs w ->
  cache_faults w = [] -> store_faults w = [] ->
  ObjectIDFromHex id = Ok oid ->
  List.find (byID oid) (docs w) = Some u ->
  uniqueAmongOthers w oid u ->
  exists w3,
    users.DeleteUser id w = (Ok tt, w3)
    /\ sameAmbient w w3
    /\ docs w3 = replaceFirst (byID oid) (deletedAt (now w)) (docs w)
    /\ cache w3 = delete users.CacheKeyUserStats
                    (purged (invalidatedKeys s) (cache w0)).
Proof.
  intros Hread F0 D0 Hc Hs Hhex Hfind Huniq.
  pose proof (frame_ambient _ _ _ F0) as A0.
  destruct (ambient_healthy _ _ A0) as (Hc0 & Hs0 & Hn0 & Hu0).
  destruct (SoftDelete_run w0 id oid u) as (w1 & H1 & F1 & D1 & C1);
    [auto | exact Hhex | rewrite D0; exact Hfind
     | unfold uniqueAmongOthers in *; rewrite Hu0, D0; exact Huniq |].
  pose proof (frame_ambient _ _ _ F1) as A1.
  destruct (ambient_healthy _ _ A1) as (Hc1 & Hs1 & Hn1 & Hu1).
  destruct (invalidateUserCaches_run w1 s) as (w2 & H2 & F2 & D2 & C2); [auto|].
  pose proof (frame_ambient _ _ _ F2) as A2.
  destruct (ambient_healthy _ _ A2) as (Hc2 & Hs2 & Hn2 & Hu2).
  destruct (invalidateUserStats_run w2) as (w3 & H3 & F3 & D3 & C3); [auto|].
  pose proof (frame_ambient _ _ _ F3) as A3.
  exists w3. split; [|split; [|split]].
  - unfold users.DeleteUser. unfold bind at 1. rewrite Hread.
    unfold bind at 1. unfold wrap. rewrite H1.
    unfold bind at 1. rewrite H2.
    unfold bind at 1. rewrite invalidateUserListCaches_noop.
    unfold bind at 1. rewrite H3. reflexivity.
  - exact (sameAmbient_trans _ _ _ A0
             (sameAmbient_trans _ _ _ A1 (sameAmbient_trans _ _ _ A2 A3))).
  - rewrite D3, D2, D1, D0, Hn0. reflexivity.
  - rewrite C3, C2, C1. reflexivity.
Qed.

(** A read that misses the cache and finds nothing in the store. *)
Lemma cachedRead_absent_run w key fromStore msg filter :
  (forall w1, fromStore w1
              = repositories.decodeOne msg (mongo.FindOne filter) w1) ->
  cache_faults w = [] -> store_faults w = [] ->
  cache_miss w key ->
  List.find filter (docs w) = None ->
  exists w',
    users.cachedRead key fromStore w = (Err repositories.notFound, w')
    /\ docs w' = docs w /\ cache w' = cache w.
Proof.
  intros Hfrom Hc Hs Hmiss Hfind.
  destruct (getUserFromCache_miss_run w key Hc Hmiss)
    as (e & f & w1 & H1 & F1 & D1 & C1).
  destruct (ambient_healthy _ _ (frame_ambient _ _ _ F1)) as (_ & Hs1 & _).
  destruct (FindOne_run w1 filter (Hs1 Hs)) as (w2 & H2 & F2 & D2 & C2).
  exists w2. split; [|split; congruence].
  unfold users.cachedRead, bind, try. rewrite H1, Hfrom.
  unfold repositories.decodeOne, bind, wrap. rewrite H2, D1, Hfind.
  reflexivity.
Qed.

Lemma CacheKey_id_stats id : users.CacheKeyUser id <> users.CacheKeyUserStats.
Proof. unfold users.CacheKeyUser, users.CacheKeyUserStats. discriminate. Qed.

(** X19: [DeleteUser] on healthy backends, for a user that the store holds
    and that the cache does not hide behind another one: it succeeds,
    the document of the user is marked deleted and inactive at the
    current instant, the other documents are as they were, the key of
    the statistics and the key of the id are out of the cache; a read by
    the id that follows answers "user not found", and so does a second
    [DeleteUser]. *)
Theorem DeleteUser_hides_the_user w id oid u :
  cache_faults w = [] -> store_faults w = [] ->
  ObjectIDFromHex id = Ok oid ->
  holdsNoOther w id ->
  List.find (byID oid) (docs w) = Some u ->
  uniqueAmongOthers w oid u ->
  List.NoDup (List.map ID (docs w)) ->
  exists w',
    users.DeleteUser id w = (Ok tt, w')
    /\ docs w' = replaceFirst (byID oid) (deletedAt (now w)) (docs w)
    /\ cache w' !! users.CacheKeyUserStats = None
    /\ cache_miss w' (users.CacheKeyUser id)
    /\ fst (users.GetUserByID id w') = Err repositories.notFound
    /\ fst (users.DeleteUser id w') = Err repositories.notFound.
Proof.
  intros Hc Hs Hhex Hready Hfind Huniq Hnd.
  assert (Hrun : exists w',
             users.DeleteUser id w = (Ok tt, w')
             /\ sameAmbient w w'
             /\ docs w' = replaceFirst (byID oid) (deletedAt (now w)) (docs w)
             /\ cache w' !! users.CacheKeyUserStats = None
             /\ cache_miss w' (users.CacheKeyUser id)).
  { destruct Hready as [Hmiss | (v & deadline & c & Hlook & Hlt & Hdec & Hid)].
    - destruct (cachedRead_miss_run w (users.CacheKeyUser id)
                  (repositories.GetByID id) "failed to get user by ID"
                  (byID oid) u (GetByID_decodeOne id oid Hhex) Hc Hs Hmiss Hfind)
        as (f & w0 & Hread & F0 & D0 & C0).
      destruct (DeleteUser_run w w0 _ id oid u u Hread F0 D0 Hc Hs Hhex Hfind Huniq)
        as (w3 & H3 & A3 & D3 & C3).
      exists w3. split; [exact H3|]. split; [exact A3|]. split; [exact D3|].
      split; [rewrite C3; apply lookup_delete_eq|].
      destruct (ambient_healthy _ _ A3) as (_ & _ & Hn3 & _).
      apply (cache_miss_same w w3); [exact Hn3 | | exact Hmiss].
      rewrite C3, C0.
      rewrite lookup_delete_ne by (intros E; symmetry in E; exact (CacheKey_id_stats _ E)).
      apply lookup_warmed_purged.
    - destruct (getUserFromCache_hit_run w (users.CacheKeyUser id) v deadline c
                  Hc Hlook Hlt Hdec) as (w0 & Hget & F0 & D0 & C0).
      assert (Hread : users.GetUserByID id w = (Ok c, w0)).
      { unfold users.GetUserByID, users.cachedRead, bind, try.
        rewrite Hget. reflexivity. }
      destruct (DeleteUser_run w w0 _ id oid c u Hread F0 D0 Hc Hs Hhex Hfind Huniq)
        as (w3 & H3 & A3 & D3 & C3).
      exists w3. split; [exact H3|]. split; [exact A3|]. split; [exact D3|].
      split; [rewrite C3; apply lookup_delete_eq|].
      assert (Hnone : cache w3 !! users.CacheKeyUser id = None).
      { rewrite C3.
        rewrite lookup_delete_ne by (intros E; symmetry in E; exact (CacheKey_id_stats _ E)).
        apply lookup_purged. unfold invalidatedKeys, keyID. rewrite Hid.
        simpl. auto. }
      unfold cache_miss. unfold Time in *. rewrite Hnone. exact I. }
  destruct Hrun as (w' & Hdel & A & Hd & Hstats & Hmiss).
  destruct (ambient_healthy _ _ A) as (Hc' & Hs' & _ & _).
  destruct (cachedRead_absent_run w' (users.CacheKeyUser id)
              (repositories.GetByID id) "failed to get user by ID" (byID oid)
              (GetByID_decodeOne id oid Hhex) (Hc' Hc) (Hs' Hs) Hmiss)
    as (w'' & Hread & _).
  { rewrite Hd. apply find_after_delete. exact Hnd. }
  exists w'. split; [exact Hdel|]. split; [exact Hd|].
  split; [exact Hstats|]. split; [exact Hmiss|].
  assert (Hg : users.GetUserByID id w' = (Err repositories.notFound, w''))
    by exact Hread.
  split; [rewrite Hg; reflexivity|].
  unfold users.DeleteUser. rewrite (bind_run_err _ _ _ _ _ Hg). reflexivity.
Qed.

Lemma DeleteUser_hides_the_user_witness :
  exists w',
    users.DeleteUser sample.aliceID sample.withAlice = (Ok tt, w')
    /\ List.map DeletedAt (docs w') = [Some 1000]
    /\ fst (users.GetUserByID sample.aliceID w')
       = Err repositories.notFound.
Proof.
  destruct (DeleteUser_hides_the_user sample.withAlice sample.aliceID
              sample.oid1 sample.alice)
    as (w' & Hrun & Hd & _ & _ & Hread & _).
  - vm_compute. reflexivity.
  - vm_compute. reflexivity.
  - vm_compute. reflexivity.
  - right.
    exists (Marshal_User sample.alice), (1000 + users.UserCacheExpiration),
      (fst (Unmarshal_User (Marshal_User sample.alice) zeroUser)).
    split; [vm_compute; reflexivity|]. split; [vm_compute; reflexivity|].
    split; vm_compute; reflexivity.
  - vm_compute. reflexivity.
  - intros _. vm_compute. reflexivity.
  - vm_compute. constructor; [intros [] | constructor].
  - exists w'. split; [exact Hrun|]. split; [|exact Hread].
    rewrite Hd. vm_compute. reflexivity.
Defined.

(* ===================================================================== *)
(** ** Setting a password                                                 *)
(* ===================================================================== *)

(** X20: [SetPassword]: when it returns no error, the password was valid,
    the random source delivered the salt, the user has that salt in
    hexadecimal and passes the check of the new password, and the
    update time is the current instant; when it returns an error, the
    user is as it was. *)
Theorem SetPassword_then_CheckPassword now rnd u password :
  match SetPassword now rnd u password with
  | (u', None) =>
      ValidatePassword password = None
      /\ (exists bytes, rnd = Ok bytes /\ Salt u' = hex.EncodeToString bytes)
      /\ CheckPassword u' password = true
      /\ UpdatedAt u' = now
      /\ Username u' = Username u /\ Email u' = Email u
  | (u', Some _) => u' = u
  end.
Proof.
  unfold SetPassword, generateSalt.
  destruct (ValidatePassword password); [reflexivity|].
  destruct rnd as [bytes|e]; [|reflexivity].
  split; [reflexivity|]. split; [exists bytes; destruct u as [[] ]; auto|].
  split; [|destruct u as [[] ]; repeat split].
  set (salt := hex.EncodeToString bytes).
  set (u' := UpdateTimestamp now
               (set_Password (hashPassword password salt) (set_Salt salt u))).
  assert (Hp : Password u' = hashPassword password salt)
    by (destruct u as [[] ]; reflexivity).
  assert (Hs : Salt u' = salt) by (destruct u as [[] ]; reflexivity).
  unfold CheckPassword. rewrite Hp, Hs. apply String.eqb_refl.
Qed.

Lemma model_UpdateUser_email_rearms_witness :
  let verified := verifiedAt 1500 sample.alice in
  let updates := ToMap sample.emailChange in
  IsVerified verified = true
  /\ IsVerified (fst (UpdateUser 2000 verified updates)) = false
  /\ EmailVerifiedAt (fst (UpdateUser 2000 verified updates)) = None.
Proof.
  cbv zeta. split; [vm_compute; reflexivity|].
  apply (model_UpdateUser_email_rearms 2000 (verifiedAt 1500 sample.alice)
           (ToMap sample.emailChange) "new@example.com").
  - vm_compute. reflexivity.
  - vm_compute. reflexivity.
  - vm_compute. reflexivity.
  - vm_compute. intros H. discriminate H.
Defined.
